(** * kevindaviesnz/crypto: the price aggregation, the selectors and the
      trading-strategy simulation, embedded from the Python sources.

    Numbers are Python floats, that is IEEE 754 binary64 values: they are
    modelled by the kernel's primitive floats, whose operations round as
    Python's do.  Integer literals of the source that meet a float in an
    arithmetic operation ([0], [1], [100]) are written as the floats Python
    converts them to.  Python dictionaries keep insertion order, and [max] and
    [min] break ties by that order: a dictionary is an association list, in
    insertion order.  An uncaught Python exception is the [Raise] result.

    Timestamps are integers (milliseconds since the epoch) and dates are
    counted in days since 1 January 1970; a timestamp that is of no day of
    the years 1 to 9999 has no date, and its conversion raises.  The functions of the Python
    library that format and parse dates, and the market-data API, are
    parameters of the definitions that call them.  Of the lines the scripts
    print, the two closing figures of [simulate_weekly_investments] are kept.

    The file has the definitions first (the Python prelude, the three
    scripts, the vocabulary of the statements and the sample inputs), then
    the results. *)

From Stdlib Require Import Floats.PrimFloat ZArith List String Bool Lia.
From Stdlib Require Import Sorting.Sorted Sorting.Permutation.
From Stdlib Require Import Floats.SpecFloat Floats.FloatOps Floats.FloatAxioms.
Import ListNotations.

Set Warnings "-inexact-float".

(** ** Python values and control *)

Module Py.

(** The exceptions the scripts can raise.  [TimestampError] stands for the
    exception of [datetime.utcfromtimestamp] on a timestamp that is no date
    of the years 1 to 9999: Python raises [ValueError], [OverflowError] or
    [OSError] there, by the size of the timestamp and the platform, none of
    them a [RequestException]. *)
Inductive exn : Type :=
| KeyError
| IndexError
| ValueError
| ZeroDivisionError
| TimestampError
| EOFError.

Inductive result (A : Type) : Type :=
| Ok (a : A)
| Raise (e : exn).

Arguments Ok {A} a.
Arguments Raise {A} e.

Definition bind {A B : Type} (r : result A) (k : A -> result B) : result B :=
  match r with
  | Ok a => k a
  | Raise e => Raise e
  end.

Definition raises {A : Type} (r : result A) : Prop := exists e, r = Raise e.

(** Keys of a dictionary: a type with a boolean equality that decides [=]. *)
Class Key (K : Type) : Type := {
  keqb : K -> K -> bool;
  keqb_eq : forall x y, keqb x y = true <-> x = y
}.

#[export] Instance string_Key : Key string :=
  {| keqb := String.eqb; keqb_eq := String.eqb_eq |}.

#[export] Instance Z_Key : Key Z :=
  {| keqb := Z.eqb; keqb_eq := Z.eqb_eq |}.

Definition dict (K V : Type) : Type := list (K * V).

(** [d.get(k)] *)
Fixpoint dict_get {K V : Type} `{Key K} (k : K) (d : dict K V) : option V :=
  match d with
  | [] => None
  | (k', v) :: rest => if keqb k' k then Some v else dict_get k rest
  end.

(** [d[k]] *)
Definition dict_index {K V : Type} `{Key K} (d : dict K V) (k : K) : result V :=
  match dict_get k d with
  | Some v => Ok v
  | None => Raise KeyError
  end.

(** [if k not in d: d[k] = []] followed by [d[k].extend(vs)] *)
Fixpoint dict_extend {K V : Type} `{Key K} (d : dict K (list V)) (k : K) (vs : list V)
  : dict K (list V) :=
  match d with
  | [] => [(k, vs)]
  | (k', old) :: rest =>
      if keqb k' k then (k', old ++ vs) :: rest
      else (k', old) :: dict_extend rest k vs
  end.

(** [l[i]] for [i >= 0] *)
Definition list_index {A : Type} (l : list A) (i : nat) : result A :=
  match nth_error l i with
  | Some a => Ok a
  | None => Raise IndexError
  end.

(** [l[-1]] *)
Definition list_last {A : Type} (l : list A) : result A :=
  list_index l (List.length l - 1).

(** [range(n)]: empty when [n <= 0]. *)
Definition range (n : Z) : list nat := seq 0 (Z.to_nat n).

(** [range(a, b)] for [0 <= a]: empty when [b <= a]. *)
Definition range2 (a b : nat) : list nat := seq a (b - a).

(** A [for] loop whose body may raise, threading the loop's variables. *)
Fixpoint for_each {A S : Type} (body : S -> A -> result S) (l : list A) (s : S)
  : result S :=
  match l with
  | [] => Ok s
  | a :: rest => bind (body s a) (for_each body rest)
  end.

(** A comprehension whose element expression may raise. *)
Fixpoint comprehension {A B : Type} (f : A -> result B) (l : list A) : result (list B) :=
  match l with
  | [] => Ok []
  | a :: rest =>
      bind (f a) (fun b => bind (comprehension f rest) (fun bs => Ok (b :: bs)))
  end.

Open Scope float_scope.

(** [a / b] on floats raises on a zero divisor (either sign). *)
Definition div (a b : float) : result float :=
  if PrimFloat.eqb b 0 then Raise ZeroDivisionError else Ok (a / b).

(** [max(a, b)]: the later argument wins only when strictly greater. *)
Definition max2 (a b : float) : float := if a <? b then b else a.

(** [max(d, key=d.get)] over the keys of a dictionary of floats:
    [ValueError] on an empty one, the first key among those of greatest value
    otherwise (a later key replaces the current one only when its value
    compares strictly greater). *)
Definition max_key {K : Type} (d : dict K float) : result K :=
  match d with
  | [] => Raise ValueError
  | kv :: rest =>
      Ok (fst (fold_left
                 (fun best cand => if snd best <? snd cand then cand else best)
                 rest kv))
  end.

(** [min(d, key=d.get)] *)
Definition min_key {K : Type} (d : dict K float) : result K :=
  match d with
  | [] => Raise ValueError
  | kv :: rest =>
      Ok (fst (fold_left
                 (fun best cand => if snd cand <? snd best then cand else best)
                 rest kv))
  end.

(** [sum(xs)]: starts from [0] and adds from the left (CPython from 3.12 on
    compensates the rounding errors of the additions; no result below depends
    on the last digits of a sum). *)
Definition sum (xs : list float) : float := fold_left PrimFloat.add xs 0.

End Py.

Import Py.

Declare Scope py_scope.
Notation "x <- c1 ;; c2" := (bind c1 (fun x => c2))
  (at level 61, c1 at next level, right associativity) : py_scope.
Notation "' pat <- c1 ;; c2" := (bind c1 (fun x => match x with pat => c2 end))
  (at level 61, pat pattern, c1 at next level, right associativity) : py_scope.
Open Scope py_scope.
Open Scope string_scope.
Open Scope float_scope.

(** The record every fetcher emits per asset and calendar day:
    [{"date": ..., "change": ..., "end_of_day_value": ...}]. *)
Record DailyRecord : Type := {
  date : string;
  change : float;
  end_of_day_value : float
}.

(** [Dict[str, List[Dict[str, float]]]] *)
Definition table : Type := dict string (list DailyRecord).

(** ** invest.py: the fee model and the strategies *)

Module Invest.

Definition SWAP_FEE_PERCENTAGE : float := 0.1 / 100.

Definition TRANSACTION_FEES : dict string float :=
  [ ("monero", 0.05);
    ("nano", 0.0);
    ("tron", 0.01);
    ("solana", 0.00025);
    ("matic-network", 0.001);
    ("litecoin", 0.03);
    ("bitcoin-cash", 0.005);
    ("bitcoin", 2.00) ].

Definition apply_swap_fee (value : float) : float :=
  value * (1 - SWAP_FEE_PERCENTAGE).

Definition apply_transaction_fee (value : float) (crypto : string) : float :=
  let fee := match dict_get crypto TRANSACTION_FEES with
             | Some f => f
             | None => 0
             end in
  value - fee.

(** The body of the loop of [calculate_portfolio_value] over [cryptos],
    [daily_value] being the running total. *)
Fixpoint calculate_portfolio_value_loop
  (portfolio_value : float) (changes_as_percentages : dict string float)
  (split : float) (cryptos : list string) (daily_value : float) : result float :=
  match cryptos with
  | [] => Ok daily_value
  | crypto :: rest =>
      percentage_change <- dict_index changes_as_percentages crypto ;;
      share <- Py.div portfolio_value split ;;
      let post_trade_value := share * (1 + percentage_change / 100) in
      let post_trade_value := apply_swap_fee post_trade_value in
      let post_trade_value := apply_transaction_fee post_trade_value crypto in
      calculate_portfolio_value_loop portfolio_value changes_as_percentages split rest
        (daily_value + max2 post_trade_value 0)
  end.

Definition calculate_portfolio_value
  (portfolio_value : float) (changes_as_percentages : dict string float)
  (cryptos : list string) (split : float) : result float :=
  calculate_portfolio_value_loop portfolio_value changes_as_percentages split cryptos 0.

(** The table restricted to the assets other than bitcoin, in the table's
    order: the [for crypto in data if crypto != "bitcoin"] of the source. *)
Definition candidates (data : table) : table :=
  filter (fun entry => negb (fst entry =? "bitcoin")%string) data.

(** [{crypto: data[crypto][day][field] for crypto in data if crypto != "bitcoin"}] *)
Definition day_values (field : DailyRecord -> float) (data : table) (day : nat)
  : result (dict string float) :=
  comprehension
    (fun entry : string * list DailyRecord =>
       record <- list_index (snd entry) day ;;
       Ok (fst entry, field record))
    (candidates data).

(** One iteration of the loop of [highest_change_trading_strategy]; the
    loop's variables are [portfolio_value] and [top_performer_from_yesterday].
    The lines it prints are left out. *)
Definition highest_day (data : table) (state : float * string) (day : nat)
  : result (float * string) :=
  let '(portfolio_value, top_performer_from_yesterday) := state in
  day_changes_as_percentages <- day_values change data day ;;
  end_of_day_prices <- day_values end_of_day_value data day ;;
  top_performer <- max_key day_changes_as_percentages ;;
  portfolio_value_at_end_of_day <-
    (if (top_performer_from_yesterday =? "")%string then Ok portfolio_value
     else calculate_portfolio_value portfolio_value day_changes_as_percentages
            [top_performer_from_yesterday] 1) ;;
  Ok (portfolio_value_at_end_of_day, top_performer).

Definition highest_change_trading_strategy
  (data : table) (initial_btc : float) (days : Z)
  (top_performer_from_yesterday : string) : result float :=
  let portfolio_value := initial_btc in
  let top_performer_from_yesterday := "" in
  state <- for_each (highest_day data) (range days)
             (portfolio_value, top_performer_from_yesterday) ;;
  Ok (fst state).

(** One iteration of the loop of [lowest_change_trading_strategy]. *)
Definition lowest_day (data : table) (state : float * string) (day : nat)
  : result (float * string) :=
  let '(portfolio_value, bottom_performer_from_yesterday) := state in
  day_changes_as_percentages <- day_values change data day ;;
  end_of_day_prices <- day_values end_of_day_value data day ;;
  bottom_performer <- min_key day_changes_as_percentages ;;
  portfolio_value_at_end_of_day <-
    (if (bottom_performer_from_yesterday =? "")%string then Ok portfolio_value
     else calculate_portfolio_value portfolio_value day_changes_as_percentages
            [bottom_performer_from_yesterday] 1) ;;
  Ok (portfolio_value_at_end_of_day, bottom_performer).

Definition lowest_change_trading_strategy
  (data : table) (initial_btc : float) (days : Z)
  (bottom_performer_from_yesterday : string) : result float :=
  let portfolio_value := initial_btc in
  let bottom_performer_from_yesterday := "" in
  state <- for_each (lowest_day data) (range days)
             (portfolio_value, bottom_performer_from_yesterday) ;;
  Ok (fst state).

(** [crypto_data[crypto][day]["change"]] *)
Definition change_at (crypto_data : table) (crypto : string) (day : nat) : result float :=
  records <- dict_index crypto_data crypto ;;
  record <- list_index records day ;;
  Ok (change record).

(** The momentum scores of one day: for every asset but bitcoin, the sum of
    its changes over the days [max(0, day - 2) .. day] (on naturals
    [day - 2] is already [0] for [day < 2]). *)
Definition cumulative_changes (crypto_data : table) (day : nat)
  : result (dict string float) :=
  comprehension
    (fun entry : string * list DailyRecord =>
       let start_day := Nat.max 0 (day - 2) in
       terms <- comprehension
                  (fun d => record <- list_index (snd entry) d ;; Ok (change record))
                  (range2 start_day (day + 1)) ;;
       Ok (fst entry, Py.sum terms))
    (candidates crypto_data).

(** One iteration of the loop of [catch_the_wave_strategy]. *)
Definition wave_day (crypto_data : table) (state : float * string) (day : nat)
  : result (float * string) :=
  let '(portfolio_value, top_performer_from_yesterday) := state in
  cumulative <- cumulative_changes crypto_data day ;;
  top_performer <- max_key cumulative ;;
  portfolio_value <-
    (if (top_performer_from_yesterday =? "")%string then Ok portfolio_value
     else
       held_change <- change_at crypto_data top_performer_from_yesterday day ;;
       calculate_portfolio_value portfolio_value
         [(top_performer_from_yesterday, held_change)]
         [top_performer_from_yesterday] 1) ;;
  top_change <- change_at crypto_data top_performer day ;;
  portfolio_value <-
    calculate_portfolio_value portfolio_value
      [(top_performer, top_change)] [top_performer] 1 ;;
  Ok (portfolio_value, top_performer).

Definition catch_the_wave_strategy
  (crypto_data : table) (initial_btc : float) (days : Z) : result float :=
  let portfolio_value := initial_btc in
  let top_performer_from_yesterday := "" in
  state <- for_each (wave_day crypto_data) (range days)
             (portfolio_value, top_performer_from_yesterday) ;;
  Ok (fst state).

End Invest.

(** ** The grouping of price samples by calendar day

    invest.py (lines 50-58), cryptolog.py (47-56) and crypto_recommendation.py
    (47-55) hold the same lines.  A price sample is [[timestamp, price]], the
    timestamp in milliseconds since the epoch; a calendar day is counted in
    days since the epoch. *)

Module Daily.

(** The calendar day (UTC) of a timestamp in milliseconds. *)
Definition utc_day (timestamp : Z) : Z := (timestamp / 86400000)%Z.

(** The days Python has a date for run from 1 January of the year 1
    ([date.min]) to 31 December 9999 ([date.max]). *)
Definition date_min : Z := (-719162)%Z.
Definition date_max : Z := 2932896%Z.

Definition in_date_range (timestamp : Z) : bool :=
  ((date_min <=? utc_day timestamp) && (utc_day timestamp <=? date_max))%Z%bool.

(** [datetime.utcfromtimestamp(timestamp / 1000).date()]: the day of the
    timestamp, and an exception when that day is outside the years 1 to
    9999. *)
Definition date_of_timestamp (timestamp : Z) : result Z :=
  if in_date_range timestamp then Ok (utc_day timestamp) else Raise TimestampError.

(** The loop filling [daily_data]: each sample is appended to the list of its
    day, a day entering the dictionary at its first sample; the loop stops
    at the first timestamp that has no date. *)
Definition group_by_day (prices : list (Z * float)) : result (dict Z (list float)) :=
  for_each
    (fun daily_data sample =>
       date <- date_of_timestamp (fst sample) ;;
       Ok (dict_extend daily_data date [snd sample]))
    prices [].

Fixpoint insert_item (item : Z * list float) (l : list (Z * list float))
  : list (Z * list float) :=
  match l with
  | [] => [item]
  | item' :: rest =>
      if (fst item <=? fst item')%Z then item :: l
      else item' :: insert_item item rest
  end.

(** [sorted(daily_data.items())]: the days are the keys of a dictionary, hence
    distinct, and the order is the order of the days. *)
Definition sorted_items (daily_data : dict Z (list float)) : list (Z * list float) :=
  fold_right insert_item [] daily_data.

(** [((closing_price - opening_price) / opening_price) * 100] with
    [opening_price = daily_prices[0]] and [closing_price = daily_prices[-1]];
    the result is paired with the closing price. *)
Definition daily_change (daily_prices : list float) : result (float * float) :=
  opening_price <- list_index daily_prices 0 ;;
  closing_price <- list_last daily_prices ;;
  ratio <- Py.div (closing_price - opening_price) opening_price ;;
  Ok (ratio * 100, closing_price).

End Daily.

Module InvestFetch.
Import Daily Invest.

Section Fetch.

(** [date.strftime("%a %d %b %Y")], of the Python library. *)
Variable strftime : Z -> string.

(** The market-data API: [get_prices id start end] is the ["prices"] array of
    the response to the request for asset [id] over the range, [[]] when the
    response has none, and [None] when the request raises a
    [RequestException]. *)
Variable get_prices : string -> Z -> Z -> option (list (Z * float)).

Definition formatted_data (prices : list (Z * float)) : result (list DailyRecord) :=
  daily_data <- group_by_day prices ;;
  comprehension
    (fun item : Z * list float =>
       ' (daily_change, closing_price) <- Daily.daily_change (snd item) ;;
       Ok {| date := strftime (fst item);
             change := daily_change;
             end_of_day_value := closing_price |})
    (sorted_items daily_data).

(** One iteration of the loop over [crypto_ids]: a failed request is logged
    and the asset skipped, an asset with no prices is skipped. *)
Definition fetch_one (start_date end_date : Z) (weekly_changes : table)
  (crypto_id : string) : result table :=
  match get_prices crypto_id start_date end_date with
  | None => Ok weekly_changes
  | Some [] => Ok weekly_changes
  | Some prices =>
      records <- formatted_data prices ;;
      Ok (dict_extend weekly_changes crypto_id records)
  end.

Definition fetch_daily_weekly_percentage_changes_and_end_of_day_values
  (crypto_ids : list string) (start_date end_date : Z) : result table :=
  for_each (fetch_one start_date end_date) crypto_ids [].

(** The two figures [simulate_weekly_investments] prints when it ends. *)
Record report : Type := {
  total_portfolio_value : float;
  profit : float
}.

Definition strategy_functions : dict string (table -> float -> Z -> result float) :=
  [ ("highest", fun data initial_btc days =>
                  highest_change_trading_strategy data initial_btc days "");
    ("lowest", fun data initial_btc days =>
                 lowest_change_trading_strategy data initial_btc days "");
    ("wave", catch_the_wave_strategy) ].

(** One iteration of the loop over the four weeks; the loop's variables are
    [total_portfolio_value] and [current_date]. *)
Definition simulate_week
  (crypto_ids : list string) (initial_weekly_investment : float)
  (strategy_function : table -> float -> Z -> result float)
  (state : float * Z) (week : nat) : result (float * Z) :=
  let '(total_portfolio_value, current_date) := state in
  let week_start := current_date in
  let week_end := (week_start + 6)%Z in
  data <- fetch_daily_weekly_percentage_changes_and_end_of_day_values
            crypto_ids week_start week_end ;;
  match data with
  | [] => Ok (total_portfolio_value, (current_date + 7)%Z)
  | _ =>
      week_portfolio_value <- strategy_function data initial_weekly_investment 7%Z ;;
      Ok (total_portfolio_value + week_portfolio_value, (current_date + 7)%Z)
  end.

(** [simulate_weekly_investments] prints its two closing figures and has no
    [return] statement: the result pairs the printed figures with the value
    the call evaluates to, [None]. *)
Definition simulate_weekly_investments
  (crypto_ids : list string) (start_of_month : Z)
  (initial_weekly_investment : float) (strategy : string)
  : result (report * option float) :=
  let total_portfolio_value := 0 in
  let initial_investment := initial_weekly_investment * 4 in
  let current_date := start_of_month in
  let strategy_function :=
    match dict_get strategy strategy_functions with
    | Some f => f
    | None => fun data initial_btc days =>
                highest_change_trading_strategy data initial_btc days ""
    end in
  state <- for_each (simulate_week crypto_ids initial_weekly_investment strategy_function)
             (range 4) (total_portfolio_value, current_date) ;;
  let total_portfolio_value := fst state in
  let profit := total_portfolio_value - initial_investment in
  Ok ({| total_portfolio_value := total_portfolio_value; profit := profit |}, None).

End Fetch.
End InvestFetch.

(** ** cryptolog.py: the daily changes of one asset *)

Module Cryptolog.
Import Daily.

Section Changes.

Variable strftime : Z -> string.

(** [{"date": formatted_date, "change": daily_change}] *)
Record DailyChange : Type := {
  date : string;
  change : float
}.

Definition formatted_changes (prices : list (Z * float)) : result (list DailyChange) :=
  daily_changes <- group_by_day prices ;;
  comprehension
    (fun item : Z * list float =>
       ' (daily_change, _) <- Daily.daily_change (snd item) ;;
       Ok {| date := strftime (fst item); change := daily_change |})
    (sorted_items daily_changes).

End Changes.
End Cryptolog.

(** ** crypto_recommendation.py: the selectors *)

Module CryptoRecommendation.

Section Selectors.

(** [datetime.strptime(s, "%a %d %b %Y")], [None] when it raises
    [ValueError], and [d.strftime("%a %d %b %Y")], of the Python library. *)
Variable strptime : string -> option Z.
Variable strftime : Z -> string.

(** The first pair of loops: the running [latest_date] over the entries of
    one asset, then over all assets. *)
Definition latest_entry (latest_date : option Z) (entry : DailyRecord)
  : result (option Z) :=
  match strptime (date entry) with
  | None => Raise ValueError
  | Some d =>
      match latest_date with
      | None => Ok (Some d)
      | Some l => if (l <? d)%Z then Ok (Some d) else Ok (Some l)
      end
  end.

Definition latest_asset (latest_date : option Z) (item : string * list DailyRecord)
  : result (option Z) :=
  for_each latest_entry (snd item) latest_date.

(** The inner loop of the second pair: it stops at the first entry dated
    [latest_date_str], updating the running best when [better] holds of that
    entry's value and the best value so far. *)
Fixpoint scan_entries (better : float -> float -> bool) (latest_date_str : string)
  (crypto : string) (data : list DailyRecord) (best : float * option string)
  : float * option string :=
  match data with
  | [] => best
  | entry :: rest =>
      if (date entry =? latest_date_str)%string then
        if better (end_of_day_value entry) (fst best)
        then (end_of_day_value entry, Some crypto)
        else best
      else scan_entries better latest_date_str crypto rest best
  end.

Definition select (better : float -> float -> bool) (start : float)
  (weekly_data : table) : result string :=
  latest_date <- for_each latest_asset weekly_data None ;;
  match latest_date with
  | None => Raise ValueError
  | Some latest =>
      let latest_date_str := strftime latest in
      let best :=
        fold_left
          (fun best item =>
             scan_entries better latest_date_str (fst item) (snd item) best)
          weekly_data (start, None) in
      match snd best with
      | None => Raise ValueError
      | Some crypto => Ok crypto
      end
  end.

(** [entry["end_of_day_value"] > highest_value], from [float('-inf')] *)
Definition get_crypto_with_highest_end_of_day_value (weekly_data : table)
  : result string :=
  select (fun value highest_value => highest_value <? value) neg_infinity weekly_data.

(** [entry["end_of_day_value"] < lowest_value], from [float('inf')] *)
Definition get_crypto_with_lowest_end_of_day_value (weekly_data : table)
  : result string :=
  select (fun value lowest_value => value <? lowest_value) infinity weekly_data.

End Selectors.
End CryptoRecommendation.

(** ** Vocabulary of the statements *)

Module Spec.
Import Invest Daily.

(** Every asset of the table has at least [n] daily records. *)
Definition has_records (data : table) (n : nat) : Prop :=
  forall crypto records, In (crypto, records) data -> (n <= List.length records)%nat.

(** The flat fee of an asset, [0] for an asset the fee table does not list. *)
Definition flat_fee (crypto : string) : float :=
  match dict_get crypto TRANSACTION_FEES with
  | Some fee => fee
  | None => 0
  end.

(** What one traded day makes of [value] held in [crypto] whose change of
    the day is [percentage_change]: the change, then the swap fee, then the
    flat fee, then the floor at zero (added to the empty total [0]). *)
Definition one_day (value percentage_change : float) (crypto : string) : float :=
  0 + max2 (value / 1 * (1 + percentage_change / 100) * (1 - SWAP_FEE_PERCENTAGE)
            - flat_fee crypto) 0.

(** The prices of the samples of calendar day [day], in input order. *)
Definition day_samples (day : Z) (prices : list (Z * float)) : list float :=
  map snd (filter (fun sample => (utc_day (fst sample) =? day)%Z) prices).

(** [days] lists, in increasing order and once each, the calendar days on
    which [prices] has a sample. *)
Definition sample_days (prices : list (Z * float)) (days : list Z) : Prop :=
  StronglySorted Z.lt days
  /\ forall day, In day days
                 <-> exists sample, In sample prices /\ utc_day (fst sample) = day.

(** Every timestamp of [prices] is of a day Python has a date for. *)
Definition datable (prices : list (Z * float)) : Prop :=
  forall sample, In sample prices -> in_date_range (fst sample) = true.

(** What the grouping loop builds when every timestamp has a date: the
    days of [prices] in the order of their first samples, each with its
    prices in input order. *)
Definition grouped (prices : list (Z * float)) : dict Z (list float) :=
  fold_left
    (fun daily_data sample =>
       dict_extend daily_data (utc_day (fst sample)) [snd sample])
    prices [].

(** [percentage] is [((closing - opening) / opening) * 100] for the first
    price [opening] and the last price [closing] of [samples]. *)
Definition day_change (samples : list float) (percentage closing : float) : Prop :=
  exists opening,
    hd_error samples = Some opening
    /\ last samples opening = closing
    /\ percentage = (closing - opening) / opening * 100.

(** The order of [sorted] on the items of [daily_data]. *)
Definition key_le (a b : Z * list float) : Prop := (fst a <= fst b)%Z.

(** What the fetcher's table holds for an asset: records computed from the
    prices the API returned for that asset, each from the samples of one
    day. *)
Definition fetched_record (strftime : Z -> string)
  (get_prices : string -> Z -> Z -> option (list (Z * float)))
  (start_date end_date : Z) (crypto : string) (r : DailyRecord) : Prop :=
  exists prices day,
    get_prices crypto start_date end_date = Some prices
    /\ prices <> []
    /\ date r = strftime day
    /\ day_change (day_samples day prices) (change r) (end_of_day_value r).

(** All the records of a table. *)
Definition records_of (data : table) : list DailyRecord := flat_map snd data.

(** A float other than the infinities and NaN. *)
Definition ordinary (x : float) : Prop :=
  (neg_infinity <? x) = true /\ (x <? infinity) = true.

(** [latest] is the most recent of the dates of the table's records, as
    [strptime] reads them. *)
Definition most_recent (strptime : string -> option Z) (data : table) (latest : Z)
  : Prop :=
  (exists r, In r (records_of data) /\ strptime (date r) = Some latest)
  /\ forall r d, In r (records_of data) -> strptime (date r) = Some d -> (d <= latest)%Z.

(** The dates of all the records can be read. *)
Definition dates_parse (strptime : string -> option Z) (data : table) : Prop :=
  forall r, In r (records_of data) -> strptime (date r) <> None.

(** The end-of-day values of all the records are ordinary numbers. *)
Definition values_ordinary (data : table) : Prop :=
  forall r, In r (records_of data) -> ordinary (end_of_day_value r).

(** The asset's list [records] has a record dated [s]. *)
Definition has_dated (s : string) (records : list DailyRecord) : Prop :=
  exists r, In r records /\ date r = s.

End Spec.

(** ** The date format of the records, for the sample inputs

    [strftime] renders a day (counted from 1 January 1970) as Python renders a
    date under the format ["%a %d %b %Y"], in the proleptic Gregorian
    calendar; [strptime] reads back the strings [strftime] produces and
    rejects every other string (Python accepts further spellings of a date,
    such as another letter case). *)

Module Calendar.

Definition civil_of_days (day : Z) : Z * Z * Z :=
  (let z := day + 719468 in
   let era := z / 146097 in
   let doe := z - era * 146097 in
   let yoe := (doe - doe / 1460 + doe / 36524 - doe / 146096) / 365 in
   let doy := doe - (365 * yoe + yoe / 4 - yoe / 100) in
   let mp := (5 * doy + 2) / 153 in
   let d := doy - (153 * mp + 2) / 5 + 1 in
   let m := if mp <? 10 then mp + 3 else mp - 9 in
   let y := yoe + era * 400 + (if m <=? 2 then 1 else 0) in
   (y, m, d))%Z.

Definition days_of_civil (y m d : Z) : Z :=
  (let y := if m <=? 2 then y - 1 else y in
   let era := y / 400 in
   let yoe := y - era * 400 in
   let mp := if 2 <? m then m - 3 else m + 9 in
   let doy := (153 * mp + 2) / 5 + d - 1 in
   let doe := yoe * 365 + yoe / 4 - yoe / 100 + doy in
   era * 146097 + doe - 719468)%Z.

Definition weekday_names : list string :=
  ["Mon"; "Tue"; "Wed"; "Thu"; "Fri"; "Sat"; "Sun"].

Definition month_names : list string :=
  ["Jan"; "Feb"; "Mar"; "Apr"; "May"; "Jun"; "Jul"; "Aug"; "Sep"; "Oct"; "Nov"; "Dec"].

Definition digit (n : Z) : string :=
  String (Ascii.ascii_of_nat (48 + Z.to_nat n)) EmptyString.

Definition two_digits (n : Z) : string :=
  (digit (n / 10) ++ digit (n mod 10))%string.

Definition strftime (day : Z) : string :=
  let '(y, m, d) := civil_of_days day in
  (nth (Z.to_nat ((day + 3) mod 7)) weekday_names "" ++ " "
   ++ two_digits d ++ " "
   ++ nth (Z.to_nat (m - 1)) month_names "" ++ " "
   ++ two_digits (y / 100) ++ two_digits (y mod 100))%string.

Fixpoint number (s : string) (acc : Z) : Z :=
  match s with
  | EmptyString => acc
  | String c rest => number rest (acc * 10 + (Z.of_nat (Ascii.nat_of_ascii c) - 48))%Z
  end.

Fixpoint position (name : string) (names : list string) (from : Z) : Z :=
  match names with
  | [] => from
  | name' :: rest => if (name' =? name)%string then from else position name rest (from + 1)%Z
  end.

Definition strptime (s : string) : option Z :=
  let d := number (substring 4 2 s) 0 in
  let m := position (substring 7 3 s) month_names 1 in
  let y := number (substring 11 4 s) 0 in
  let day := days_of_civil y m d in
  if (strftime day =? s)%string then Some day else None.

End Calendar.

(** ** Sample inputs *)

Module Examples.

(** One asset, nano (no flat fee), flat over two days. *)
Definition nano_flat : table :=
  [ ("nano", [ {| date := "Mon 01 Jan 2024"; change := 0; end_of_day_value := 1 |};
               {| date := "Tue 02 Jan 2024"; change := 0; end_of_day_value := 1 |} ]) ].

(** Two assets over two days; tron leads on the first day, nano on the second. *)
Definition nano_tron : table :=
  [ ("nano", [ {| date := "Mon 01 Jan 2024"; change := 1; end_of_day_value := 1 |};
               {| date := "Tue 02 Jan 2024"; change := 5; end_of_day_value := 1.05 |} ]);
    ("tron", [ {| date := "Mon 01 Jan 2024"; change := 2; end_of_day_value := 0.1 |};
               {| date := "Tue 02 Jan 2024"; change := -3; end_of_day_value := 0.097 |} ]) ].

(** Five price samples over 1 and 2 January 2024 (UTC). *)
Definition two_days_of_prices : list (Z * float) :=
  [ (1704067200000%Z, 100);
    (1704100000000%Z, 105);
    (1704153599000%Z, 110);
    (1704153600000%Z, 110);
    (1704200000000%Z, 99) ].

(** One asset whose only record closes at minus infinity, at plus infinity,
    at NaN. *)
Definition closing_at (value : float) : table :=
  [ ("nano", [ {| date := "Mon 01 Jan 2024"; change := 0; end_of_day_value := value |} ]) ].

(** Three assets over two days; tron has no record for the second day. *)
Definition three_assets : table :=
  [ ("monero", [ {| date := "Mon 01 Jan 2024"; change := 1; end_of_day_value := 150 |};
                 {| date := "Tue 02 Jan 2024"; change := 2; end_of_day_value := 153 |} ]);
    ("tron", [ {| date := "Mon 01 Jan 2024"; change := 2; end_of_day_value := 900 |} ]);
    ("nano", [ {| date := "Mon 01 Jan 2024"; change := 1; end_of_day_value := 1 |};
               {| date := "Tue 02 Jan 2024"; change := 5; end_of_day_value := 1.05 |} ]) ].

(** One asset with a record for the second day only among the three. *)
Definition one_recent : table :=
  [ ("monero", [ {| date := "Mon 01 Jan 2024"; change := 1; end_of_day_value := 150 |} ]);
    ("tron", [ {| date := "Mon 01 Jan 2024"; change := 2; end_of_day_value := 900 |} ]);
    ("nano", [ {| date := "Mon 01 Jan 2024"; change := 1; end_of_day_value := 1 |};
               {| date := "Tue 02 Jan 2024"; change := 5; end_of_day_value := 1.05 |} ]) ].

End Examples.

(** ** Dates and times of the fetchers that start from the current time

    A [datetime] is the naive value [datetime.utcnow()] and the arithmetic
    on it give, counted in seconds since 1 January 1970 on the clock that
    [utcnow()] reads, fractions of a second left out.  The bounds of a
    request are passed to the API as these datetimes: their conversion by
    [timestamp()], which reads a naive datetime in the local time of the
    host, is part of the API. *)

Module Clock.

(** [timedelta(days=n)] *)
Definition days (n : Z) : Z := (n * 86400)%Z.

(** [d.weekday()]: Monday is 0 and Sunday 6; 1 January 1970 was a Thursday. *)
Definition weekday (datetime : Z) : Z := ((datetime / 86400 + 3) mod 7)%Z.

End Clock.

(** ** cryptolog.py: the fetcher *)

Module CryptologFetch.
Import Clock.

Section Fetch.

Variable strftime : Z -> string.
Variable get_prices : string -> Z -> Z -> option (list (Z * float)).

(** [today - timedelta(days=today.weekday() + 1) - timedelta(weeks=week)] *)
Definition last_sunday (today : Z) (week : nat) : Z :=
  (today - days (weekday today + 1) - days (7 * Z.of_nat week))%Z.

(** [last_sunday - timedelta(days=6)] *)
Definition last_monday (today : Z) (week : nat) : Z :=
  (last_sunday today week - days 6)%Z.

(** One iteration of the loop over [crypto_ids]. *)
Definition fetch_one (from_date to_date : Z)
  (weekly_changes : dict string (list (Cryptolog.DailyChange)))
  (crypto_id : string) : result (dict string (list (Cryptolog.DailyChange))) :=
  match get_prices crypto_id from_date to_date with
  | None => Ok weekly_changes
  | Some [] => Ok weekly_changes
  | Some prices =>
      changes <- Cryptolog.formatted_changes strftime prices ;;
      Ok (dict_extend weekly_changes crypto_id changes)
  end.

(** One iteration of the loop over the weeks. *)
Definition fetch_week (today : Z) (crypto_ids : list string)
  (weekly_changes : dict string (list (Cryptolog.DailyChange))) (week : nat)
  : result (dict string (list (Cryptolog.DailyChange))) :=
  for_each (fetch_one (last_monday today week) (last_sunday today week))
    crypto_ids weekly_changes.

(** [today] is the value of [datetime.utcnow()]. *)
Definition fetch_weekly_percentage_changes (today : Z) (crypto_ids : list string)
  (num_weeks : Z) : result (dict string (list (Cryptolog.DailyChange))) :=
  for_each (fetch_week today crypto_ids) (range num_weeks) [].

End Fetch.
End CryptologFetch.

(** ** crypto_recommendation.py: the fetcher and the three-day selector *)

Module Recommendation.
Import Clock.

Section Fetch.

Variable strftime : Z -> string.
Variable get_prices : string -> Z -> Z -> option (list (Z * float)).

(** [(today.weekday() - 2) % 7] *)
Definition days_since_last_wednesday (today : Z) : Z := ((weekday today - 2) mod 7)%Z.

Definition start_date (today : Z) : Z := (today - days (days_since_last_wednesday today))%Z.

(** The loop over [crypto_ids] (lines 30-73) is that of invest.py (33-76);
    [today] is the value of [datetime.utcnow()]. *)
Definition fetch_daily_weekly_percentage_changes_and_end_of_day_values
  (today : Z) (crypto_ids : list string) : result table :=
  InvestFetch.fetch_daily_weekly_percentage_changes_and_end_of_day_values
    strftime get_prices crypto_ids (start_date today) today.

End Fetch.

Section ThreeDays.

(** [datetime.strptime(s, "%a %d %b %Y").date()], [None] when it raises
    [ValueError]. *)
Variable strptime : string -> option Z.

(** The state of the loop over the entries of one asset:
    [three_days_prior_price], [latest_price] and the [most_recent_date] the
    assets share. *)
Definition entry_state : Type := option float * option float * option Z.

Definition scan_entry (three_days_prior : Z) (state : entry_state) (entry : DailyRecord)
  : result entry_state :=
  let '(three_days_prior_price, latest_price, most_recent_date) := state in
  match strptime (date entry) with
  | None => Raise ValueError
  | Some d =>
      let three_days_prior_price :=
        if (d =? three_days_prior)%Z then Some (end_of_day_value entry)
        else three_days_prior_price in
      match most_recent_date with
      | None => Ok (three_days_prior_price, Some (end_of_day_value entry), Some d)
      | Some recent =>
          if (recent <? d)%Z
          then Ok (three_days_prior_price, Some (end_of_day_value entry), Some d)
          else Ok (three_days_prior_price, latest_price, most_recent_date)
      end
  end.

(** The state of the loop over the assets: [most_recent_date],
    [largest_percentage_change] and [largest_crypto]. *)
Definition asset_state : Type := option Z * float * option string.

Definition scan_asset (three_days_prior : Z) (state : asset_state)
  (item : string * list DailyRecord) : result asset_state :=
  let '(most_recent_date, largest_percentage_change, largest_crypto) := state in
  ' (three_days_prior_price, latest_price, most_recent_date) <-
      for_each (scan_entry three_days_prior) (snd item) (None, None, most_recent_date) ;;
  match three_days_prior_price, latest_price with
  | Some prior, Some latest =>
      ratio <- Py.div (latest - prior) prior ;;
      let percentage_change := ratio * 100 in
      if largest_percentage_change <? percentage_change
      then Ok (most_recent_date, percentage_change, Some (fst item))
      else Ok (most_recent_date, largest_percentage_change, largest_crypto)
  | _, _ => Ok (most_recent_date, largest_percentage_change, largest_crypto)
  end.

(** [today] is the date of [datetime.utcnow()], in days. *)
Definition get_crypto_with_largest_percentage_change_from_3_days_prior
  (today : Z) (weekly_data : table) : result string :=
  let three_days_prior := (today - 3)%Z in
  ' (_, _, largest_crypto) <-
      for_each (scan_asset three_days_prior) weekly_data (None, neg_infinity, None) ;;
  match largest_crypto with
  | None => Raise ValueError
  | Some crypto => Ok crypto
  end.

End ThreeDays.
End Recommendation.

(** ** convert.py *)

Module Convert.

Definition TRANSACTION_FEE_PERCENTAGE : float := 2.0.
Definition NZD_TO_USD_CONVERSION_RATE : float := 0.59.

(** [crypto_rates.get(crypto, {}).get("nzd", None)] *)
Definition rate_nzd (crypto_rates : dict string (dict string float)) (crypto : string)
  : option float :=
  match dict_get crypto crypto_rates with
  | Some rates => dict_get "nzd" rates
  | None => None
  end.

(** The truth value of a rate: [None] and zero are false. *)
Definition truthy (rate : option float) : bool :=
  match rate with
  | Some r => negb (PrimFloat.eqb r 0)
  | None => false
  end.

(** The numbers of the line printed for one currency: the NZD needed, the
    USD needed and the amount of the currency. *)
Record line : Type := {
  nzd_needed : float;
  usd_needed : float;
  amount : float
}.

(** [calculate_nzd_needed_for_crypto] prints one line for bitcoin and one for
    monero, each when its rate is true; the result holds the numbers of the
    lines printed. *)
Definition calculate_nzd_needed_for_crypto
  (nzd_target : float) (crypto_rates : dict string (dict string float))
  : result (option line * option line) :=
  let btc_rate_nzd := rate_nzd crypto_rates "bitcoin" in
  let xmr_rate_nzd := rate_nzd crypto_rates "monero" in
  btc_line <-
    match btc_rate_nzd with
    | Some rate =>
        if truthy btc_rate_nzd then
          btc_without_fees <- Py.div nzd_target rate ;;
          nzd_needed_for_btc <- Py.div nzd_target (1 - TRANSACTION_FEE_PERCENTAGE / 100) ;;
          let usd_needed_for_btc := nzd_needed_for_btc * NZD_TO_USD_CONVERSION_RATE in
          Ok (Some {| nzd_needed := nzd_needed_for_btc;
                      usd_needed := usd_needed_for_btc;
                      amount := btc_without_fees |})
        else Ok None
    | None => Ok None
    end ;;
  xmr_line <-
    match xmr_rate_nzd with
    | Some rate =>
        if truthy xmr_rate_nzd then
          nzd_needed_for_xmr <- Py.div nzd_target (1 - TRANSACTION_FEE_PERCENTAGE / 100) ;;
          let conversion_fee_nzd := nzd_needed_for_xmr * (TRANSACTION_FEE_PERCENTAGE / 100) in
          let total_nzd_needed_for_xmr := nzd_needed_for_xmr + conversion_fee_nzd in
          let usd_needed_for_xmr := total_nzd_needed_for_xmr * NZD_TO_USD_CONVERSION_RATE in
          xmr_without_fees <- Py.div nzd_target rate ;;
          Ok (Some {| nzd_needed := total_nzd_needed_for_xmr;
                      usd_needed := usd_needed_for_xmr;
                      amount := xmr_without_fees |})
        else Ok None
    | None => Ok None
    end ;;
  Ok (btc_line, xmr_line).

(** What [main] prints: its message on the amount, nothing when there are
    no rates, or the lines of [calculate_nzd_needed_for_crypto]. *)
Inductive outcome : Type :=
| MustBePositive
| NoRates
| Lines (btc xmr : option line).

Section Main.

(** [float(text)], of Python: [None] when it raises [ValueError]. *)
Variable float_of : string -> option float.

(** [entered] is the line [input] returns, [None] when the input has ended
    and [input] raises [EOFError]; [get_crypto_rates] is the table the
    request returns, [None] when the request failed. *)
Definition main (entered : option string)
  (get_crypto_rates : option (dict string (dict string float))) : result outcome :=
  match entered with
  | None => Raise EOFError
  | Some text =>
      match float_of text with
      | None => Raise ValueError
      | Some nzd_target =>
          if nzd_target <=? 0 then Ok MustBePositive
          else
            match get_crypto_rates with
            | None => Ok NoRates
            | Some [] => Ok NoRates
            | Some crypto_rates =>
                ' (btc, xmr) <- calculate_nzd_needed_for_crypto nzd_target crypto_rates ;;
                Ok (Lines btc xmr)
            end
      end
  end.

End Main.

End Convert.

(** ** The order of the floats, for the statements on comparisons

    [rank] places the numbers of the binary64 format (every value but NaN)
    in triples ordered lexicographically: the comparison [<] of two numbers
    is the order of their ranks, and no comparison with NaN holds. *)

Module FloatOrder.

Definition rank (x : spec_float) : Z * Z * Z :=
  match x with
  | S754_nan => (0, 0, 0)
  | S754_zero _ => (0, 0, 0)
  | S754_infinity s => (if s then -2 else 2, 0, 0)
  | S754_finite s m e => if s then (-1, - e, - Zpos m) else (1, e, Zpos m)
  end%Z.

Definition lex_lt (a b : Z * Z * Z) : Prop :=
  let '(c1, e1, m1) := a in
  let '(c2, e2, m2) := b in
  (c1 < c2 \/ (c1 = c2 /\ (e1 < e2 \/ (e1 = e2 /\ m1 < m2))))%Z.

(** A float other than NaN. *)
Definition is_number (x : float) : Prop := Prim2SF x <> S754_nan.

End FloatOrder.

(** ** Vocabulary of the further results *)

Module Terms.
Import Spec.

(** Some calendar day of [prices] opens at a zero price. *)
Definition opens_at_zero (prices : list (Z * float)) : Prop :=
  exists day opening,
    hd_error (day_samples day prices) = Some opening
    /\ PrimFloat.eqb opening 0 = true.

(** The exception the prices of one asset stop the fetcher with: that of
    the first timestamp without a date, or, when every timestamp has one,
    [ZeroDivisionError] for a day that opens at a zero price. *)
Definition breaks (prices : list (Z * float)) (e : exn) : Prop :=
  (e = TimestampError /\ ~ datable prices)
  \/ (e = ZeroDivisionError /\ datable prices /\ opens_at_zero prices).

(** Prices the fetcher makes records of: every timestamp has a date and no
    day opens at a zero price. *)
Definition clean (prices : list (Z * float)) : Prop :=
  datable prices /\ ~ opens_at_zero prices.

(** The request for [crypto] brought at least one price sample. *)
Definition has_prices (get_prices : string -> Z -> Z -> option (list (Z * float)))
  (start_date end_date : Z) (crypto : string) : bool :=
  match get_prices crypto start_date end_date with
  | Some (_ :: _) => true
  | _ => false
  end.

(** [strategy_functions.get(strategy, highest_change_trading_strategy)], called
    as [simulate_weekly_investments] calls it. *)
Definition chosen (strategy : string) : table -> float -> Z -> result float :=
  match dict_get strategy InvestFetch.strategy_functions with
  | Some f => f
  | None => fun data initial_btc days =>
              Invest.highest_change_trading_strategy data initial_btc days ""
  end.

(** The total after the week [week], from the total [total] before it: the
    week's value is added unless the week's table is empty. *)
Definition add_week (tables : Z -> table) (values : Z -> float) (week : Z)
  (total : float) : float :=
  match tables week with
  | [] => total
  | _ => total + values week
  end.

(** The daily changes the fetcher of cryptolog.py adds for asset [crypto] in
    week [week]: those of the prices the API returns for the week's range,
    none when the request fails or brings no price. *)
Definition week_changes (strftime : Z -> string)
  (get_prices : string -> Z -> Z -> option (list (Z * float)))
  (today : Z) (crypto : string) (week : nat) : list Cryptolog.DailyChange :=
  match get_prices crypto (CryptologFetch.last_monday today week)
                   (CryptologFetch.last_sunday today week) with
  | Some (sample :: prices) =>
      match Cryptolog.formatted_changes strftime (sample :: prices) with
      | Ok changes => changes
      | Raise _ => []
      end
  | _ => []
  end.

(** The list of an asset after [added] is added to it, [None] standing for
    an asset the table does not list; nothing is added to the table for an
    empty [added]. *)
Definition append_opt {R : Type} (listed : option (list R)) (added : list R)
  : option (list R) :=
  match added with
  | [] => listed
  | _ => Some (match listed with Some old => (old ++ added)%list | None => added end)
  end.

(** What the asset returned by the three-day selector has, [before] being
    the records of the assets listed before it: a record dated three days
    before today, and a record dated after every record of [before]. *)
Definition three_day_candidate (strptime : string -> option Z) (today : Z)
  (before records : list DailyRecord) : Prop :=
  (exists r, In r records /\ strptime (date r) = Some (today - 3)%Z)
  /\ exists r d,
       In r records /\ strptime (date r) = Some d
       /\ forall r' d', In r' before -> strptime (date r') = Some d' -> (d' < d)%Z.

(** What the loop of the three-day selector over the assets keeps, [seen]
    being the assets gone through: [recent] bounds the dates of their
    records, and the asset kept is a three-day candidate. *)
Definition kept (strptime : string -> option Z) (today : Z) (seen : table)
  (state : Recommendation.asset_state) : Prop :=
  let '(recent, _, largest_crypto) := state in
  (forall r d, In r (records_of seen) -> strptime (date r) = Some d ->
               exists m, recent = Some m /\ (d <= m)%Z)
  /\ forall crypto, largest_crypto = Some crypto ->
       exists before records after,
         seen = (before ++ (crypto, records) :: after)%list
         /\ three_day_candidate strptime today (records_of before) records.

(** The first record of [records] that carries the date [s]: the record at
    which the scan of a selector stops. *)
Definition first_dated (s : string) (records : list DailyRecord) : option DailyRecord :=
  find (fun entry => (date entry =? s)%string) records.

(** The values a selector compares, in the order of the table: for each
    asset that has one, the end-of-day value of its first record dated [s]. *)
Definition dated_values (s : string) (data : table) : dict (option string) float :=
  flat_map
    (fun item : string * list DailyRecord =>
       match first_dated s (snd item) with
       | Some entry => [(Some (fst item), end_of_day_value entry)]
       | None => []
       end)
    data.

(** [crypto] is the first asset of [data] whose record dated [s] no other
    beats, [beats a b] being the test on which the value [a] takes the place
    of [b]: no asset's record dated [s] beats that of [crypto], and, when
    no value compared is NaN, that of [crypto] beats those of the assets
    listed before it. *)
Definition first_extreme (beats : float -> float -> bool) (s : string) (data : table)
  (crypto : string) : Prop :=
  exists before records after r,
    data = (before ++ (crypto, records) :: after)%list
    /\ first_dated s records = Some r
    /\ (forall crypto' records' r',
           In (crypto', records') data -> first_dated s records' = Some r' ->
           beats (end_of_day_value r') (end_of_day_value r) = false)
    /\ ((forall crypto' records' r',
            In (crypto', records') data -> first_dated s records' = Some r' ->
            FloatOrder.is_number (end_of_day_value r')) ->
        forall crypto' records' r',
          In (crypto', records') before -> first_dated s records' = Some r' ->
          beats (end_of_day_value r) (end_of_day_value r') = true).

(** The prices the API returns for the range are usable by the selectors:
    the day of each sample is read back from its formatted date, and each
    price is an ordinary number. *)
Definition prices_usable (strptime : string -> option Z) (strftime : Z -> string)
  (get_prices : string -> Z -> Z -> option (list (Z * float)))
  (start_date end_date : Z) : Prop :=
  forall crypto prices sample,
    get_prices crypto start_date end_date = Some prices -> In sample prices ->
    strptime (strftime (Daily.utc_day (fst sample)))
    = Some (Daily.utc_day (fst sample))
    /\ ordinary (snd sample).

End Terms.

(** ** Further sample inputs *)

Module Samples.

(** One price sample a day over the seven days from 1 January 2024. *)
Definition seven_days_of_prices : list (Z * float) :=
  [ (1704067200000%Z, 100);
    (1704153600000%Z, 101);
    (1704240000000%Z, 102);
    (1704326400000%Z, 103);
    (1704412800000%Z, 104);
    (1704499200000%Z, 105);
    (1704585600000%Z, 106) ].

(** An API that has prices for nano only, and for the week that starts on
    1 January 2024 only. *)
Definition first_week_of_nano (crypto : string) (start_date end_date : Z)
  : option (list (Z * float)) :=
  if ((crypto =? "nano")%string && (start_date =? 19723)%Z)%bool
  then Some seven_days_of_prices
  else None.

(** The tables that API gives for the four weeks of the month. *)
Definition january_tables (week : Z) : table :=
  if (week =? 0)%Z then
    [ ("nano",
       [ {| date := "Mon 01 Jan 2024"; change := 0; end_of_day_value := 100 |};
         {| date := "Tue 02 Jan 2024"; change := 0; end_of_day_value := 101 |};
         {| date := "Wed 03 Jan 2024"; change := 0; end_of_day_value := 102 |};
         {| date := "Thu 04 Jan 2024"; change := 0; end_of_day_value := 103 |};
         {| date := "Fri 05 Jan 2024"; change := 0; end_of_day_value := 104 |};
         {| date := "Sat 06 Jan 2024"; change := 0; end_of_day_value := 105 |};
         {| date := "Sun 07 Jan 2024"; change := 0; end_of_day_value := 106 |} ]) ]
  else [].

(** Two assets with records for the same two days; nano doubles while
    monero gains one percent. *)
Definition same_days : table :=
  [ ("monero", [ {| date := "Mon 01 Jan 2024"; change := 0; end_of_day_value := 100 |};
                 {| date := "Tue 02 Jan 2024"; change := 1; end_of_day_value := 101 |} ]);
    ("nano", [ {| date := "Mon 01 Jan 2024"; change := 0; end_of_day_value := 1 |};
               {| date := "Tue 02 Jan 2024"; change := 100; end_of_day_value := 2 |} ]) ].

(** An API that has, for nano only, one price, at the start of the range
    asked for. *)
Definition opening_sample (crypto : string) (from_date to_date : Z)
  : option (list (Z * float)) :=
  if (crypto =? "nano")%string then Some [((from_date * 1000)%Z, 1)] else None.

(** An API that has the prices of two days for nano, an empty list of
    prices for tron and fails for every other asset, whatever the range. *)
Definition nano_only (crypto : string) (start_date end_date : Z)
  : option (list (Z * float)) :=
  if (crypto =? "nano")%string then Some Examples.two_days_of_prices
  else if (crypto =? "tron")%string then Some [] else None.

(** The table fetched from that API. *)
Definition nano_fetched : table :=
  [ ("nano", [ {| date := "Mon 01 Jan 2024"; change := 10; end_of_day_value := 110 |};
               {| date := "Tue 02 Jan 2024"; change := -10; end_of_day_value := 99 |} ]) ].

(** A reading of three of the texts [float] accepts. *)
Definition float_of_sample (text : string) : option float :=
  if (text =? "100")%string then Some 100
  else if (text =? "nan")%string then Some nan
  else if (text =? "-1")%string then Some (-1)
  else None.

(** Three assets with usable records, and one record whose date is not in
    the format of the fetcher. *)
Definition with_unread_date : table :=
  (Examples.three_assets
   ++ [ ("solana", [ {| date := "2 January"; change := 0; end_of_day_value := 1 |} ]) ])%list.

(** The table of cryptolog.py for two weeks of the API [opening_sample], from Wednesday
    17 January 2024 at noon. *)
Definition two_mondays : dict string (list Cryptolog.DailyChange) :=
  [ ("nano", [ {| Cryptolog.date := "Mon 08 Jan 2024"; Cryptolog.change := 0 |};
               {| Cryptolog.date := "Mon 01 Jan 2024"; Cryptolog.change := 0 |} ]) ].

End Samples.

(** ** Results on the Python prelude *)

Lemma bind_Ok {A B : Type} (r : result A) (k : A -> result B) (b : B) :
  bind r k = Ok b -> exists a, r = Ok a /\ k a = Ok b.
Proof.
  destruct r as [a|e]; simpl; intro E; [eauto | discriminate].
Qed.

Section PreludeFacts.

Context {A B S : Type}.

Lemma for_each_app (body : S -> A -> result S) (l1 l2 : list A) (s : S) :
  for_each body (l1 ++ l2) s = bind (for_each body l1 s) (for_each body l2).
Proof.
  revert s; induction l1 as [|a l1 IH]; intro s; simpl; [reflexivity|].
  destruct (body s a) as [s'|e]; simpl; [apply IH | reflexivity].
Qed.

Lemma comprehension_Ok (f : A -> result B) (g : A -> B) (l : list A) :
  (forall a, In a l -> f a = Ok (g a)) -> comprehension f l = Ok (map g l).
Proof.
  induction l as [|a l IH]; intro E; simpl; [reflexivity|].
  rewrite (E a (or_introl eq_refl)); simpl.
  rewrite IH; [reflexivity | intros; apply E; right; assumption].
Qed.

Lemma comprehension_Forall2 (f : A -> result B) (l : list A) (bs : list B) :
  comprehension f l = Ok bs -> Forall2 (fun a b => f a = Ok b) l bs.
Proof.
  revert bs; induction l as [|a l IH]; intros bs E; simpl in E.
  - injection E as <-; constructor.
  - apply bind_Ok in E; destruct E as (b & Eb & E).
    apply bind_Ok in E; destruct E as (bs' & El & E).
    injection E as <-; constructor; [assumption | apply IH; assumption].
Qed.

End PreludeFacts.

Section DictFacts.

Context {K V : Type} `{Key K}.

Lemma keqb_refl (k : K) : keqb k k = true.
Proof. apply keqb_eq; reflexivity. Qed.

Lemma keqb_neq (k k' : K) : k <> k' -> keqb k k' = false.
Proof.
  intro N; destruct (keqb k k') eqn:E; [|reflexivity].
  apply keqb_eq in E; contradiction.
Qed.

Lemma dict_get_In (k : K) (d : dict K V) (v : V) :
  dict_get k d = Some v -> In (k, v) d.
Proof.
  induction d as [|[k' v'] d IH]; simpl; [discriminate|].
  destruct (keqb k' k) eqn:E.
  - apply keqb_eq in E; subst k'; intro E; injection E as ->; left; reflexivity.
  - intro G; right; apply IH; assumption.
Qed.

Lemma dict_get_key (k : K) (d : dict K V) :
  In k (map fst d) -> exists v, dict_get k d = Some v.
Proof.
  induction d as [|[k' v'] d IH]; simpl; [contradiction|].
  intros [->|I].
  - rewrite keqb_refl; eauto.
  - destruct (keqb k' k); [eauto | apply IH; assumption].
Qed.

End DictFacts.

(** [max] and [min] over a dictionary return one of its keys. *)
Lemma pick_In {K : Type} (pick : K * float -> K * float -> bool)
  (rest : dict K float) (kv : K * float) :
  In (fst (fold_left (fun best cand => if pick best cand then cand else best) rest kv))
     (map fst (kv :: rest)).
Proof.
  revert kv; induction rest as [|c rest IH]; intro kv; [left; reflexivity|].
  cbn [fold_left].
  destruct (IH (if pick kv c then c else kv)) as [E|I].
  - rewrite <- E; destruct (pick kv c); simpl; auto.
  - simpl; auto.
Qed.

Lemma max_key_In {K : Type} (d : dict K float) (k : K) :
  max_key d = Ok k -> In k (map fst d).
Proof.
  destruct d as [|kv rest]; simpl; [discriminate|].
  intro E; injection E as <-.
  apply (pick_In (fun best cand => snd best <? snd cand)).
Qed.

Lemma min_key_In {K : Type} (d : dict K float) (k : K) :
  min_key d = Ok k -> In k (map fst d).
Proof.
  destruct d as [|kv rest]; simpl; [discriminate|].
  intro E; injection E as <-.
  apply (pick_In (fun best cand => snd cand <? snd best)).
Qed.

Lemma max_key_total {K : Type} (d : dict K float) :
  d <> [] -> exists k, max_key d = Ok k.
Proof. destruct d; [contradiction | simpl; eauto]. Qed.

Lemma min_key_total {K : Type} (d : dict K float) :
  d <> [] -> exists k, min_key d = Ok k.
Proof. destruct d; [contradiction | simpl; eauto]. Qed.

(** ** invest.py: results on the fee model and the strategies *)

Import Invest Spec.

Lemma calculate_portfolio_value_loop_sum
  (portfolio_value split : float) (changes : dict string float)
  (cryptos : list string) (percentages : list float) (daily_value : float) :
  PrimFloat.eqb split 0 = false ->
  Forall2 (fun crypto pc => dict_get crypto changes = Some pc) cryptos percentages ->
  calculate_portfolio_value_loop portfolio_value changes split cryptos daily_value
  = Ok (fold_left PrimFloat.add
          (map (fun cp : string * float =>
                  max2 (portfolio_value / split * (1 + snd cp / 100)
                        * (1 - SWAP_FEE_PERCENTAGE) - flat_fee (fst cp)) 0)
               (combine cryptos percentages))
          daily_value).
Proof.
  intros Hs F; revert daily_value.
  induction F as [|crypto pc cryptos percentages G F IH]; intro daily_value;
    [reflexivity|].
  cbn [calculate_portfolio_value_loop combine map fold_left].
  unfold dict_index; rewrite G; cbn [bind].
  unfold Py.div; rewrite Hs; cbn [bind].
  rewrite IH; reflexivity.
Qed.

Lemma calculate_portfolio_value_single
  (value : float) (changes : dict string float) (crypto : string) (pc : float) :
  dict_get crypto changes = Some pc ->
  calculate_portfolio_value value changes [crypto] 1 = Ok (one_day value pc crypto).
Proof.
  intro G; unfold calculate_portfolio_value.
  rewrite (calculate_portfolio_value_loop_sum value 1 changes [crypto] [pc] 0);
    [reflexivity | reflexivity | constructor; [exact G | constructor]].
Qed.

(** C8. ([apply_swap_fee(100)] is [99.9], [apply_transaction_fee(100, "nano")]
    is [100.0] and [apply_transaction_fee(100, "bitcoin")] is [98.0]; the swap
    fee rate is [0.001], the flat fee of nano [0.0] and that of bitcoin
    [2.00].) *)
Theorem fee_model_values :
  apply_swap_fee 100 = 99.9
  /\ apply_transaction_fee 100 "nano" = 100
  /\ apply_transaction_fee 100 "bitcoin" = 98
  /\ SWAP_FEE_PERCENTAGE = 0.001
  /\ dict_get "nano" TRANSACTION_FEES = Some 0
  /\ dict_get "bitcoin" TRANSACTION_FEES = Some 2.
Proof. repeat split; vm_compute; reflexivity. Qed.

(** The order of the three operations shows in the value: at 100 held in
    bitcoin on a +10% day the source's order gives 107.89, the flat fee taken
    before the swap fee would give 107.892. *)
Example calculate_portfolio_value_bitcoin :
  calculate_portfolio_value 100 [("bitcoin", 10)] ["bitcoin"] 1
  = Ok 107.89000000000001
  /\ (100 / 1 * (1 + 10 / 100) - 2) * (1 - SWAP_FEE_PERCENTAGE) = 107.89200000000001.
Proof. split; vm_compute; reflexivity. Qed.

(** C4. ([apply_transaction_fee] subtracts the flat fee and never floors: its
    result can be negative.  The floor at zero is applied by
    [calculate_portfolio_value], which for each traded asset multiplies by
    [1 + change/100], then applies the swap fee, then subtracts the flat fee,
    then floors at zero, and adds up the floored values.) *)
Theorem fee_then_floor_order :
  (forall value crypto, apply_transaction_fee value crypto = value - flat_fee crypto)
  /\ apply_transaction_fee 1 "bitcoin" = (-1)
  /\ (apply_transaction_fee 1 "bitcoin" <? 0) = true
  /\ calculate_portfolio_value 1 [("bitcoin", 0)] ["bitcoin"] 1 = Ok 0
  /\ (forall value changes cryptos percentages split,
        PrimFloat.eqb split 0 = false ->
        Forall2 (fun crypto pc => dict_get crypto changes = Some pc)
                cryptos percentages ->
        calculate_portfolio_value value changes cryptos split
        = Ok (Py.sum
                (map (fun cp : string * float =>
                        max2 (value / split * (1 + snd cp / 100)
                              * (1 - SWAP_FEE_PERCENTAGE) - flat_fee (fst cp)) 0)
                     (combine cryptos percentages)))).
Proof.
  split; [reflexivity|].
  split; [vm_compute; reflexivity|].
  split; [vm_compute; reflexivity|].
  split; [vm_compute; reflexivity|].
  intros value changes cryptos percentages split Hs F.
  apply calculate_portfolio_value_loop_sum; assumption.
Qed.

Lemma fee_then_floor_order_witness :
  apply_transaction_fee 1 "bitcoin" = (-1)
  /\ calculate_portfolio_value 100 [("nano", 10); ("bitcoin", 10)]
       ["nano"; "bitcoin"] 2
     = Ok (Py.sum [max2 (100 / 2 * (1 + 10 / 100) * (1 - SWAP_FEE_PERCENTAGE) - 0) 0;
                   max2 (100 / 2 * (1 + 10 / 100) * (1 - SWAP_FEE_PERCENTAGE) - 2) 0]).
Proof.
  split.
  - exact (proj1 (proj2 fee_then_floor_order)).
  - apply (proj2 (proj2 (proj2 (proj2 fee_then_floor_order)))
             100 [("nano", 10); ("bitcoin", 10)] ["nano"; "bitcoin"] [10; 10] 2).
    + reflexivity.
    + repeat constructor.
Defined.

(** C9. (Called with [days = 0], each of the three strategies returns the
    initial portfolio value, whatever the table.) *)
Theorem zero_days_returns_initial_value (data : table) (v : float) (t : string) :
  highest_change_trading_strategy data v 0 t = Ok v
  /\ lowest_change_trading_strategy data v 0 t = Ok v
  /\ catch_the_wave_strategy data v 0 = Ok v.
Proof. repeat split. Qed.

(** C10. (The result of [highest_change_trading_strategy] does not depend on
    its [top_performer_from_yesterday] argument, nor that of
    [lowest_change_trading_strategy] on [bottom_performer_from_yesterday]: the
    argument is overwritten with the empty string before the loop.) *)
Theorem yesterday_argument_has_no_effect
  (data : table) (v : float) (days : Z) (t1 t2 : string) :
  highest_change_trading_strategy data v days t1
  = highest_change_trading_strategy data v days t2
  /\ lowest_change_trading_strategy data v days t1
     = lowest_change_trading_strategy data v days t2.
Proof. split; reflexivity. Qed.

(** *** The daily tables of the strategies *)

Lemma candidates_key (data : table) (k : string) :
  In k (map fst (candidates data)) <-> In k (map fst data) /\ k <> "bitcoin".
Proof.
  unfold candidates; rewrite !in_map_iff; split.
  - intros ([k' recs] & <- & I); apply filter_In in I; destruct I as (I & N).
    simpl in *; split; [exists (k', recs); auto|].
    intros ->; discriminate N.
  - intros (([k' recs] & <- & I) & N); exists (k', recs); split; [reflexivity|].
    apply filter_In; split; [assumption|]; simpl in *.
    destruct (String.eqb_spec k' "bitcoin"); [contradiction | reflexivity].
Qed.

Lemma dict_get_candidates (data : table) (k : string) :
  k <> "bitcoin" -> dict_get k (candidates data) = dict_get k data.
Proof.
  intro N; induction data as [|[k' recs] data IH]; [reflexivity|].
  cbn [candidates filter fst dict_get keqb string_Key] in *.
  destruct (String.eqb_spec k' "bitcoin") as [->|N'];
    cbn [negb dict_get keqb string_Key].
  - rewrite (proj2 (String.eqb_neq _ _)); [exact IH | congruence].
  - destruct (String.eqb k' k); [reflexivity | exact IH].
Qed.

Lemma dict_get_map_values {V W : Type} (h : V -> W) (d : dict string V) (k : string) :
  dict_get k (map (fun e => (fst e, h (snd e))) d) = option_map h (dict_get k d).
Proof.
  induction d as [|[k' v] d IH]; [reflexivity|].
  cbn [map fst snd dict_get]; destruct (keqb k' k); [reflexivity | exact IH].
Qed.

Lemma has_records_le (data : table) (n m : nat) :
  (m <= n)%nat -> has_records data n -> has_records data m.
Proof. intros L R crypto records I; specialize (R _ _ I); lia. Qed.

Lemma list_index_nth {A : Type} (l : list A) (i : nat) (d : A) :
  (i < List.length l)%nat -> list_index l i = Ok (nth i l d).
Proof.
  intro L; unfold list_index; rewrite (nth_error_nth' l d L); reflexivity.
Qed.

Lemma day_values_Ok (data : table) (day : nat) :
  has_records data (S day) ->
  exists pick : list DailyRecord -> DailyRecord,
    (forall crypto records, In (crypto, records) data ->
                            list_index records day = Ok (pick records))
    /\ forall field,
         day_values field data day
         = Ok (map (fun e => (fst e, field (pick (snd e)))) (candidates data)).
Proof.
  intro R.
  exists (fun records => nth day records {| date := ""; change := 0; end_of_day_value := 0 |}).
  assert (P : forall crypto records, In (crypto, records) data ->
              list_index records day
              = Ok (nth day records {| date := ""; change := 0; end_of_day_value := 0 |})).
  { intros crypto records I; apply list_index_nth; apply (R _ _ I). }
  split; [exact P|].
  intro field'; unfold day_values.
  apply comprehension_Ok; intros [crypto records] I.
  apply filter_In in I; destruct I as (I & _).
  cbn [fst snd]; rewrite (P _ _ I); reflexivity.
Qed.

Lemma day_values_keys (field : DailyRecord -> float) (data : table) (day : nat)
  (values : dict string float) :
  day_values field data day = Ok values -> map fst values = map fst (candidates data).
Proof.
  unfold day_values; intro E; apply comprehension_Forall2 in E.
  induction E as [|[k recs] [k' v] l l' E F IH]; [reflexivity|].
  cbn [map fst]; rewrite IH; f_equal.
  apply bind_Ok in E; destruct E as (r & _ & E); injection E as -> _; reflexivity.
Qed.

Lemma change_at_Ok (data : table) (crypto : string) (day : nat)
  (pick : list DailyRecord -> DailyRecord) :
  (forall crypto records, In (crypto, records) data ->
                          list_index records day = Ok (pick records)) ->
  In crypto (map fst data) ->
  exists records, dict_get crypto data = Some records
                  /\ change_at data crypto day = Ok (change (pick records)).
Proof.
  intros P I; destruct (dict_get_key crypto data I) as (records & G).
  exists records; split; [exact G|].
  unfold change_at, dict_index; rewrite G; cbn [bind].
  rewrite (P _ _ (dict_get_In _ _ _ G)); reflexivity.
Qed.

Lemma map_fst_values {V W : Type} (h : V -> W) (d : dict string V) :
  map fst (map (fun e => (fst e, h (snd e))) d) = map fst d.
Proof. rewrite map_map; reflexivity. Qed.

Lemma nonempty_keys {V : Type} (d : dict string V) (k : string) :
  In k (map fst d) -> d <> [].
Proof. destruct d; [contradiction | discriminate]. Qed.

Lemma map_nonempty {A B : Type} (f : A -> B) (l : list A) : l <> [] -> map f l <> [].
Proof. destruct l; [contradiction | discriminate]. Qed.

(** *** The first day and the later days of each strategy *)

Section Days.

Variable data : table.
Variable day : nat.
Hypothesis enough : has_records data (S day).

Lemma highest_day_unheld (v : float) :
  candidates data <> [] ->
  exists leader, highest_day data (v, "") day = Ok (v, leader).
Proof.
  intro NE; destruct (day_values_Ok data day enough) as (pick & P & DV).
  unfold highest_day; rewrite !DV; cbn [bind].
  destruct (max_key_total _ (map_nonempty (fun e => (fst e, change (pick (snd e)))) _ NE))
    as (leader & M).
  rewrite M; cbn [bind]; exists leader; reflexivity.
Qed.

Lemma lowest_day_unheld (v : float) :
  candidates data <> [] ->
  exists leader, lowest_day data (v, "") day = Ok (v, leader).
Proof.
  intro NE; destruct (day_values_Ok data day enough) as (pick & P & DV).
  unfold lowest_day; rewrite !DV; cbn [bind].
  destruct (min_key_total _ (map_nonempty (fun e => (fst e, change (pick (snd e)))) _ NE))
    as (leader & M).
  rewrite M; cbn [bind]; exists leader; reflexivity.
Qed.

Lemma highest_day_held (v : float) (held : string) :
  In held (map fst (candidates data)) -> held <> "" ->
  exists ch leader,
    change_at data held day = Ok ch
    /\ highest_day data (v, held) day = Ok (one_day v ch held, leader).
Proof.
  intros I N; destruct (day_values_Ok data day enough) as (pick & P & DV).
  destruct (proj1 (candidates_key data held) I) as (Id & Nb).
  destruct (change_at_Ok data held day pick P Id) as (records & G & C).
  destruct (max_key_total _
              (map_nonempty (fun e => (fst e, change (pick (snd e)))) _
                            (nonempty_keys _ _ I))) as (leader & M).
  exists (change (pick records)), leader; split; [exact C|].
  unfold highest_day; rewrite !DV; cbn [bind]; rewrite M; cbn [bind].
  rewrite (proj2 (String.eqb_neq _ _) N).
  rewrite (calculate_portfolio_value_single v _ held (change (pick records)));
    [reflexivity|].
  rewrite (dict_get_map_values (fun records => change (pick records))).
  rewrite (dict_get_candidates data held Nb), G; reflexivity.
Qed.

Lemma lowest_day_held (v : float) (held : string) :
  In held (map fst (candidates data)) -> held <> "" ->
  exists ch leader,
    change_at data held day = Ok ch
    /\ lowest_day data (v, held) day = Ok (one_day v ch held, leader).
Proof.
  intros I N; destruct (day_values_Ok data day enough) as (pick & P & DV).
  destruct (proj1 (candidates_key data held) I) as (Id & Nb).
  destruct (change_at_Ok data held day pick P Id) as (records & G & C).
  destruct (min_key_total _
              (map_nonempty (fun e => (fst e, change (pick (snd e)))) _
                            (nonempty_keys _ _ I))) as (leader & M).
  exists (change (pick records)), leader; split; [exact C|].
  unfold lowest_day; rewrite !DV; cbn [bind]; rewrite M; cbn [bind].
  rewrite (proj2 (String.eqb_neq _ _) N).
  rewrite (calculate_portfolio_value_single v _ held (change (pick records)));
    [reflexivity|].
  rewrite (dict_get_map_values (fun records => change (pick records))).
  rewrite (dict_get_candidates data held Nb), G; reflexivity.
Qed.

(** The momentum table of the day exists and has the candidates' keys. *)
Lemma cumulative_changes_Ok :
  exists score : list DailyRecord -> float,
    cumulative_changes data day
    = Ok (map (fun e => (fst e, score (snd e))) (candidates data)).
Proof.
  set (blank := {| date := ""; change := 0; end_of_day_value := 0 |}).
  exists (fun records =>
            Py.sum (map (fun d => change (nth d records blank))
                        (range2 (Nat.max 0 (day - 2)) (day + 1)))).
  unfold cumulative_changes; apply comprehension_Ok; intros [crypto records] I.
  apply filter_In in I; destruct I as (I & _); cbn [fst snd].
  rewrite (comprehension_Ok _ (fun d => change (nth d records blank)));
    [reflexivity|].
  intros d Id; unfold range2 in Id; apply in_seq in Id.
  rewrite (list_index_nth records d blank); [reflexivity|].
  specialize (enough _ _ I); lia.
Qed.

Lemma wave_day_unheld (v : float) :
  candidates data <> [] ->
  exists ch leader,
    change_at data leader day = Ok ch
    /\ wave_day data (v, "") day = Ok (one_day v ch leader, leader).
Proof.
  intro NE; destruct (day_values_Ok data day enough) as (pick & P & _).
  destruct cumulative_changes_Ok as (score & CC).
  destruct (max_key_total _ (map_nonempty (fun e => (fst e, score (snd e))) _ NE))
    as (leader & M).
  assert (I : In leader (map fst (candidates data))).
  { apply max_key_In in M; rewrite (map_fst_values score) in M; exact M. }
  destruct (change_at_Ok data leader day pick P (proj1 (proj1 (candidates_key _ _) I)))
    as (records & _ & C).
  exists (change (pick records)), leader; split; [exact C|].
  unfold wave_day; rewrite CC; cbn [bind]; rewrite M; cbn [bind String.eqb].
  rewrite C; cbn [bind].
  rewrite (calculate_portfolio_value_single v _ leader (change (pick records)));
    [reflexivity|].
  cbn [dict_get]; rewrite keqb_refl; reflexivity.
Qed.

Lemma wave_day_held (v : float) (held : string) :
  In held (map fst (candidates data)) -> held <> "" ->
  exists ch ch' leader,
    change_at data held day = Ok ch
    /\ change_at data leader day = Ok ch'
    /\ wave_day data (v, held) day
       = Ok (one_day (one_day v ch held) ch' leader, leader).
Proof.
  intros Ih N; destruct (day_values_Ok data day enough) as (pick & P & _).
  destruct cumulative_changes_Ok as (score & CC).
  destruct (max_key_total _
              (map_nonempty (fun e => (fst e, score (snd e))) _ (nonempty_keys _ _ Ih)))
    as (leader & M).
  assert (I : In leader (map fst (candidates data))).
  { apply max_key_In in M; rewrite (map_fst_values score) in M; exact M. }
  destruct (change_at_Ok data leader day pick P (proj1 (proj1 (candidates_key _ _) I)))
    as (records & _ & C).
  destruct (change_at_Ok data held day pick P (proj1 (proj1 (candidates_key _ _) Ih)))
    as (records' & _ & C').
  exists (change (pick records')), (change (pick records)), leader.
  split; [exact C'|]; split; [exact C|].
  unfold wave_day; rewrite CC; cbn [bind]; rewrite M; cbn [bind].
  rewrite (proj2 (String.eqb_neq _ _) N), C'; cbn [bind].
  rewrite (calculate_portfolio_value_single v _ held (change (pick records')));
    [|cbn [dict_get]; rewrite keqb_refl; reflexivity].
  cbn [bind]; rewrite C; cbn [bind].
  rewrite (calculate_portfolio_value_single _ _ leader (change (pick records)));
    [reflexivity|].
  cbn [dict_get]; rewrite keqb_refl; reflexivity.
Qed.

End Days.

Lemma highest_day_leader (data : table) (state state' : float * string) (day : nat) :
  highest_day data state day = Ok state' -> In (snd state') (map fst (candidates data)).
Proof.
  destruct state as [v held]; unfold highest_day; intro E.
  apply bind_Ok in E; destruct E as (changes & DV & E).
  apply bind_Ok in E; destruct E as (prices & _ & E).
  apply bind_Ok in E; destruct E as (leader & M & E).
  apply bind_Ok in E; destruct E as (v' & _ & E); injection E as <-.
  apply max_key_In in M; rewrite (day_values_keys _ _ _ _ DV) in M; exact M.
Qed.

Lemma lowest_day_leader (data : table) (state state' : float * string) (day : nat) :
  lowest_day data state day = Ok state' -> In (snd state') (map fst (candidates data)).
Proof.
  destruct state as [v held]; unfold lowest_day; intro E.
  apply bind_Ok in E; destruct E as (changes & DV & E).
  apply bind_Ok in E; destruct E as (prices & _ & E).
  apply bind_Ok in E; destruct E as (leader & M & E).
  apply bind_Ok in E; destruct E as (v' & _ & E); injection E as <-.
  apply min_key_In in M; rewrite (day_values_keys _ _ _ _ DV) in M; exact M.
Qed.

Lemma cumulative_changes_keys (data : table) (day : nat) (scores : dict string float) :
  cumulative_changes data day = Ok scores -> map fst scores = map fst (candidates data).
Proof.
  unfold cumulative_changes; intro E; apply comprehension_Forall2 in E.
  induction E as [|[k recs] [k' v] l l' E F IH]; [reflexivity|].
  cbn [map fst]; rewrite IH; f_equal.
  apply bind_Ok in E; destruct E as (r & _ & E); injection E as -> _; reflexivity.
Qed.

Lemma wave_day_leader (data : table) (state state' : float * string) (day : nat) :
  wave_day data state day = Ok state' -> In (snd state') (map fst (candidates data)).
Proof.
  destruct state as [v held]; unfold wave_day; intro E.
  apply bind_Ok in E; destruct E as (scores & CC & E).
  apply bind_Ok in E; destruct E as (leader & M & E).
  apply bind_Ok in E; destruct E as (v' & _ & E).
  apply bind_Ok in E; destruct E as (ch & _ & E).
  apply bind_Ok in E; destruct E as (v'' & _ & E); injection E as <-.
  apply max_key_In in M; rewrite (cumulative_changes_keys _ _ _ CC) in M; exact M.
Qed.

(** After one day or more, the asset held is one of the table's candidates. *)
Lemma held_after_days
  (body : float * string -> nat -> result (float * string)) (keys : list string) :
  (forall state state' day, body state day = Ok state' -> In (snd state') keys) ->
  forall d state state',
    (1 <= d)%nat -> for_each body (seq 0 d) state = Ok state' -> In (snd state') keys.
Proof.
  intros L d state state' Hd E.
  destruct d as [|d]; [lia|].
  rewrite seq_S, for_each_app in E; cbn [plus] in E.
  apply bind_Ok in E; destruct E as (mid & _ & E).
  cbn [for_each] in E; apply bind_Ok in E; destruct E as (last & B & E).
  injection E as <-; exact (L _ _ _ B).
Qed.

Lemma range_first (days : Z) :
  (1 <= days)%Z -> range days = 0%nat :: seq 1 (Z.to_nat days - 1).
Proof.
  intro L; unfold range.
  destruct (Z.to_nat days) as [|n] eqn:E; [lia|].
  cbn [seq]; rewrite Nat.sub_succ, Nat.sub_0_r; reflexivity.
Qed.

(** C1, as the code has it.  (Over a table with some asset other than bitcoin
    and at least [days] records per asset, [days >= 1]: the first day of the
    'highest' and of the 'lowest' strategy leaves the portfolio value
    unchanged, no change and no fee applied, and the run goes on from that
    value; the first day of the 'wave' strategy applies to the value the
    day's change of the momentum leader it selects, one swap fee and one
    flat fee, floored at zero.) *)
Theorem first_day_of_each_strategy (data : table) (v : float) (days : Z) :
  (1 <= days)%Z ->
  has_records data (Z.to_nat days) ->
  candidates data <> [] ->
  (exists leader,
      highest_day data (v, "") 0 = Ok (v, leader)
      /\ forall t,
           highest_change_trading_strategy data v days t
           = (state <- for_each (highest_day data) (seq 1 (Z.to_nat days - 1)) (v, leader) ;;
              Ok (fst state)))
  /\ (exists leader,
         lowest_day data (v, "") 0 = Ok (v, leader)
         /\ forall t,
              lowest_change_trading_strategy data v days t
              = (state <- for_each (lowest_day data) (seq 1 (Z.to_nat days - 1)) (v, leader) ;;
                 Ok (fst state)))
  /\ (exists ch leader,
         change_at data leader 0 = Ok ch
         /\ wave_day data (v, "") 0 = Ok (one_day v ch leader, leader)
         /\ catch_the_wave_strategy data v days
            = (state <- for_each (wave_day data) (seq 1 (Z.to_nat days - 1))
                          (one_day v ch leader, leader) ;;
               Ok (fst state))).
Proof.
  intros Hd R NE.
  assert (R1 : has_records data 1) by (apply (has_records_le data (Z.to_nat days)); [lia | exact R]).
  split; [|split].
  - destruct (highest_day_unheld data 0 R1 v NE) as (leader & E).
    exists leader; split; [exact E|]; intro t.
    unfold highest_change_trading_strategy; rewrite (range_first days Hd).
    cbn [for_each]; rewrite E; reflexivity.
  - destruct (lowest_day_unheld data 0 R1 v NE) as (leader & E).
    exists leader; split; [exact E|]; intro t.
    unfold lowest_change_trading_strategy; rewrite (range_first days Hd).
    cbn [for_each]; rewrite E; reflexivity.
  - destruct (wave_day_unheld data 0 R1 v NE) as (ch & leader & C & E).
    exists ch, leader; split; [exact C|]; split; [exact E|].
    unfold catch_the_wave_strategy; rewrite (range_first days Hd).
    cbn [for_each]; rewrite E; reflexivity.
Qed.

Lemma nano_tron_records : has_records Examples.nano_tron 2.
Proof.
  intros crypto records [E|[E|[]]]; injection E as _ <-; cbn [List.length]; lia.
Qed.

Lemma first_day_of_each_strategy_witness :
  exists leader,
    highest_day Examples.nano_tron (100, "") 0 = Ok (100, leader)
    /\ forall t,
         highest_change_trading_strategy Examples.nano_tron 100 2 t
         = (state <- for_each (highest_day Examples.nano_tron) (seq 1 (Z.to_nat 2 - 1))
                       (100, leader) ;;
            Ok (fst state)).
Proof.
  apply (first_day_of_each_strategy Examples.nano_tron 100 2).
  - lia.
  - exact nano_tron_records.
  - discriminate.
Defined.

(** C1 fails for 'wave': on its first day the strategy already applies a
    change and both fees.  Over a flat nano (change 0, flat fee 0) a one-day
    run turns 100 into 99.9, the swap fee of the first day, where 'highest'
    and 'lowest' return 100. *)
Lemma wave_first_day_charges_the_swap_fee :
  has_records Examples.nano_flat 1
  /\ catch_the_wave_strategy Examples.nano_flat 100 1 = Ok 99.9
  /\ (99.9 <? 100) = true
  /\ highest_change_trading_strategy Examples.nano_flat 100 1 "" = Ok 100
  /\ lowest_change_trading_strategy Examples.nano_flat 100 1 "" = Ok 100.
Proof.
  split.
  - intros crypto records [E|[]]; injection E as _ <-; cbn [List.length]; lia.
  - repeat split; vm_compute; reflexivity.
Qed.

(** Each strategy runs its first [d] days without an exception over a
    table with a candidate asset and [d] records per asset, and holds a
    candidate (or nothing yet) afterwards. *)
Lemma run_total
  (body : float * string -> nat -> result (float * string)) (keys : list string)
  (d : nat) :
  (forall day state, (day < d)%nat ->
     snd state = "" \/ In (snd state) keys ->
     exists state', body state day = Ok state') ->
  (forall state state' day, body state day = Ok state' -> In (snd state') keys) ->
  forall state, snd state = "" \/ In (snd state) keys ->
    exists state', for_each body (seq 0 d) state = Ok state'.
Proof.
  intros T L state G; induction d as [|d IH]; [cbn [seq for_each]; eauto|].
  destruct IH as (mid & E); [intros day st Hd; apply T; lia|].
  assert (Gm : snd mid = "" \/ In (snd mid) keys).
  { destruct d as [|d]; [cbn [seq for_each] in E; injection E as <-; exact G|].
    right; exact (held_after_days body keys L (S d) _ _ (le_n_S _ _ (Nat.le_0_l d)) E). }
  destruct (T d mid (Nat.lt_succ_diag_r d) Gm) as (last & El).
  exists last; rewrite seq_S, for_each_app, E; cbn [bind plus for_each].
  rewrite El; reflexivity.
Qed.

Section Runs.

Variable data : table.
Variable d : nat.
Hypothesis enough : has_records data d.
Hypothesis tradable : candidates data <> [].

Lemma highest_run_total (v : float) :
  exists state, for_each (highest_day data) (seq 0 d) (v, "") = Ok state.
Proof.
  apply (run_total (highest_day data) (map fst (candidates data)));
    [|exact (highest_day_leader data)|left; reflexivity].
  intros day [value held] Hd G; cbn [snd] in G.
  assert (R : has_records data (S day)) by (apply (has_records_le data d); [lia | exact enough]).
  destruct (string_dec held "") as [->|N].
  - destruct (highest_day_unheld data day R value tradable) as (leader & E); eauto.
  - destruct G as [G|G]; [contradiction|].
    destruct (highest_day_held data day R value held G N) as (ch & leader & _ & E); eauto.
Qed.

Lemma lowest_run_total (v : float) :
  exists state, for_each (lowest_day data) (seq 0 d) (v, "") = Ok state.
Proof.
  apply (run_total (lowest_day data) (map fst (candidates data)));
    [|exact (lowest_day_leader data)|left; reflexivity].
  intros day [value held] Hd G; cbn [snd] in G.
  assert (R : has_records data (S day)) by (apply (has_records_le data d); [lia | exact enough]).
  destruct (string_dec held "") as [->|N].
  - destruct (lowest_day_unheld data day R value tradable) as (leader & E); eauto.
  - destruct G as [G|G]; [contradiction|].
    destruct (lowest_day_held data day R value held G N) as (ch & leader & _ & E); eauto.
Qed.

Lemma wave_run_total (v : float) :
  exists state, for_each (wave_day data) (seq 0 d) (v, "") = Ok state.
Proof.
  apply (run_total (wave_day data) (map fst (candidates data)));
    [|exact (wave_day_leader data)|left; reflexivity].
  intros day [value held] Hd G; cbn [snd] in G.
  assert (R : has_records data (S day)) by (apply (has_records_le data d); [lia | exact enough]).
  destruct (string_dec held "") as [->|N].
  - destruct (wave_day_unheld data day R value tradable) as (ch & leader & _ & E); eauto.
  - destruct G as [G|G]; [contradiction|].
    destruct (wave_day_held data day R value held G N) as (ch & ch' & leader & _ & _ & E).
    eauto.
Qed.

End Runs.

(** The three strategies return a value over a table with a candidate asset
    and [days] records per asset. *)
Lemma strategies_return (data : table) (v : float) (days : Z) (t : string) :
  has_records data (Z.to_nat days) ->
  candidates data <> [] ->
  (exists value, highest_change_trading_strategy data v days t = Ok value)
  /\ (exists value, lowest_change_trading_strategy data v days t = Ok value)
  /\ (exists value, catch_the_wave_strategy data v days = Ok value).
Proof.
  intros R T; split; [|split].
  - destruct (highest_run_total data _ R T v) as (state & E).
    exists (fst state); unfold highest_change_trading_strategy, range; rewrite E.
    reflexivity.
  - destruct (lowest_run_total data _ R T v) as (state & E).
    exists (fst state); unfold lowest_change_trading_strategy, range; rewrite E.
    reflexivity.
  - destruct (wave_run_total data _ R T v) as (state & E).
    exists (fst state); unfold catch_the_wave_strategy, range; rewrite E.
    reflexivity.
Qed.

(** C2, as the code has it.  (Over a table with an asset other than bitcoin,
    no asset named by the empty string and more than [d] records per asset,
    the run of every strategy reaches every day [d >= 1], holding an asset.
    On that day 'highest' and 'lowest' apply to the value exactly one update:
    the day's change of the asset held (not of the leader they select that
    day), then one swap fee and one flat fee of the asset held, floored at
    zero.  'wave' applies that update for the asset held and then a second
    update of the same form, change and both fees, for the momentum leader it
    selects that day.) *)
Theorem later_days_of_each_strategy (data : table) (v : float) (d : nat) :
  (1 <= d)%nat ->
  has_records data (S d) ->
  candidates data <> [] ->
  ~ In "" (map fst data) ->
  (exists value held ch leader,
      for_each (highest_day data) (seq 0 d) (v, "") = Ok (value, held)
      /\ change_at data held d = Ok ch
      /\ highest_day data (value, held) d = Ok (one_day value ch held, leader))
  /\ (exists value held ch leader,
         for_each (lowest_day data) (seq 0 d) (v, "") = Ok (value, held)
         /\ change_at data held d = Ok ch
         /\ lowest_day data (value, held) d = Ok (one_day value ch held, leader))
  /\ (exists value held ch ch' leader,
         for_each (wave_day data) (seq 0 d) (v, "") = Ok (value, held)
         /\ change_at data held d = Ok ch
         /\ change_at data leader d = Ok ch'
         /\ wave_day data (value, held) d
            = Ok (one_day (one_day value ch held) ch' leader, leader)).
Proof.
  intros Hd R T NE.
  assert (N : forall held, In held (map fst (candidates data)) -> held <> "").
  { intros held I ->; apply NE; apply (candidates_key data ""); exact I. }
  assert (R' : has_records data d) by (apply (has_records_le data (S d)); [lia | exact R]).
  split; [|split].
  - destruct (highest_run_total data d R' T v) as ([value held] & E).
    pose proof (held_after_days _ _ (highest_day_leader data) d _ _ Hd E) as I.
    destruct (highest_day_held data d R value held I (N _ I)) as (ch & leader & C & S).
    exists value, held, ch, leader; auto.
  - destruct (lowest_run_total data d R' T v) as ([value held] & E).
    pose proof (held_after_days _ _ (lowest_day_leader data) d _ _ Hd E) as I.
    destruct (lowest_day_held data d R value held I (N _ I)) as (ch & leader & C & S).
    exists value, held, ch, leader; auto.
  - destruct (wave_run_total data d R' T v) as ([value held] & E).
    pose proof (held_after_days _ _ (wave_day_leader data) d _ _ Hd E) as I.
    destruct (wave_day_held data d R value held I (N _ I))
      as (ch & ch' & leader & C & C' & S).
    exists value, held, ch, ch', leader; auto.
Qed.

Lemma later_days_of_each_strategy_witness :
  exists value held ch leader,
    for_each (highest_day Examples.nano_tron) (seq 0 1) (100, "") = Ok (value, held)
    /\ change_at Examples.nano_tron held 1 = Ok ch
    /\ highest_day Examples.nano_tron (value, held) 1
       = Ok (one_day value ch held, leader).
Proof.
  apply (later_days_of_each_strategy Examples.nano_tron 100 1).
  - lia.
  - exact nano_tron_records.
  - discriminate.
  - cbn; intros [E|[E|[]]]; discriminate E.
Defined.

Example second_day_values :
  change_at Examples.nano_tron "tron" 1 = Ok (-3)
  /\ highest_day Examples.nano_tron (100, "tron") 1 = Ok (one_day 100 (-3) "tron", "nano")
  /\ wave_day Examples.nano_flat (100, "nano") 1
     = Ok (one_day (one_day 100 0 "nano") 0 "nano", "nano").
Proof. repeat split; vm_compute; reflexivity. Qed.

(** C2 fails for 'wave': on a later day the strategy applies two updates.
    Over a flat nano the run enters day 1 with 99.9 held in nano; one update
    (change 0, swap fee, no flat fee) would leave 99.8001, the day leaves
    99.7002999, the swap fee taken twice. *)
Lemma wave_later_day_applies_two_updates :
  for_each (wave_day Examples.nano_flat) (seq 0 1) (100, "") = Ok (99.9, "nano")
  /\ change_at Examples.nano_flat "nano" 1 = Ok 0
  /\ one_day 99.9 0 "nano" = 99.8001
  /\ wave_day Examples.nano_flat (99.9, "nano") 1 = Ok (99.700299900000005, "nano")
  /\ (99.700299900000005 <? 99.8001) = true.
Proof. repeat split; vm_compute; reflexivity. Qed.

(** *** The calendar of the sample inputs *)

Example calendar_samples :
  Calendar.strftime 19723 = "Mon 01 Jan 2024"
  /\ Calendar.strftime 19724 = "Tue 02 Jan 2024"
  /\ Calendar.strftime 0 = "Thu 01 Jan 1970"
  /\ Calendar.strftime 19782 = "Thu 29 Feb 2024"
  /\ Calendar.strftime 20088 = "Tue 31 Dec 2024"
  /\ Calendar.strptime "Mon 01 Jan 2024" = Some 19723%Z
  /\ Calendar.strptime "Thu 29 Feb 2024" = Some 19782%Z
  /\ Calendar.strptime "today" = None.
Proof. repeat split; vm_compute; reflexivity. Qed.

(** ** invest.py: the month of four weeks *)

Section Month.
Import InvestFetch.

Variable strftime : Z -> string.
Variable get_prices : string -> Z -> Z -> option (list (Z * float)).

Abbreviation fetch :=
  (fetch_daily_weekly_percentage_changes_and_end_of_day_values strftime get_prices).

(** A week whose fetch brings no data is skipped: the total is kept and the
    loop moves on to the next week. *)
Lemma simulate_week_skips
  (crypto_ids : list string) (seed : float)
  (strategy_function : table -> float -> Z -> result float)
  (total : float) (current_date : Z) (week : nat) :
  fetch crypto_ids current_date (current_date + 6)%Z = Ok [] ->
  simulate_week strftime get_prices crypto_ids seed strategy_function
    (total, current_date) week
  = Ok (total, (current_date + 7)%Z).
Proof. intro E; unfold simulate_week; rewrite E; reflexivity. Qed.

(** C3. (When the four weeks fetch no data, every week is skipped, the run
    ends normally with total portfolio value 0 and reports the profit
    [0 - seed * 4], minus four times the weekly seed; the call itself
    evaluates to [None], the function having no [return] statement.) *)
Theorem month_without_data
  (crypto_ids : list string) (start_of_month : Z) (seed : float) (strategy : string) :
  (forall week : Z, (0 <= week < 4)%Z ->
     fetch crypto_ids (start_of_month + 7 * week)%Z (start_of_month + 7 * week + 6)%Z
     = Ok []) ->
  simulate_weekly_investments strftime get_prices crypto_ids start_of_month seed strategy
  = Ok ({| total_portfolio_value := 0; profit := 0 - seed * 4 |}, None).
Proof.
  intro E; unfold simulate_weekly_investments.
  change (range 4) with [0; 1; 2; 3]%nat.
  set (f := match dict_get strategy strategy_functions with
            | Some f => f
            | None => _
            end).
  assert (W : forall (k : Z) (week : nat) (total : float), (0 <= k < 4)%Z ->
              simulate_week strftime get_prices crypto_ids seed f
                (total, (start_of_month + 7 * k)%Z) week
              = Ok (total, (start_of_month + 7 * (k + 1))%Z)).
  { intros k week total Hk; rewrite simulate_week_skips; [|apply E; exact Hk].
    do 2 f_equal; lia. }
  replace start_of_month with (start_of_month + 7 * 0)%Z at 1 by lia.
  cbn [for_each].
  rewrite W by lia; cbn [bind Z.add Pos.add Pos.succ].
  rewrite W by lia; cbn [bind Z.add Pos.add Pos.succ].
  rewrite W by lia; cbn [bind Z.add Pos.add Pos.succ].
  rewrite W by lia; cbn [bind fst].
  reflexivity.
Qed.

End Month.

Lemma month_without_data_witness :
  InvestFetch.simulate_weekly_investments Calendar.strftime (fun _ _ _ => None)
    ["monero"; "nano"; "tron"] 19723 100 "highest"
  = Ok ({| InvestFetch.total_portfolio_value := 0; InvestFetch.profit := -400 |}, None).
Proof.
  apply (month_without_data Calendar.strftime (fun _ _ _ => None)
           ["monero"; "nano"; "tron"] 19723 100 "highest").
  intros week _; reflexivity.
Defined.

(** ** The grouping by day *)

Section DictExtend.

Context {K V : Type} `{Key K}.

Lemma dict_get_extend (d : dict K (list V)) (k k' : K) (vs : list V) :
  dict_get k' (dict_extend d k vs)
  = if keqb k k' then
      Some (match dict_get k' d with Some old => (old ++ vs)%list | None => vs end)
    else dict_get k' d.
Proof.
  induction d as [|[k0 old] d IH]; cbn [dict_extend dict_get].
  - destruct (keqb k k'); reflexivity.
  - destruct (keqb k0 k) eqn:E0.
    + apply keqb_eq in E0; subst k0; cbn [dict_get].
      destruct (keqb k k'); reflexivity.
    + cbn [dict_get]; destruct (keqb k0 k') eqn:E1; [|exact IH].
      apply keqb_eq in E1; subst k0.
      rewrite (keqb_neq k k'); [reflexivity|].
      intros ->; rewrite keqb_refl in E0; discriminate E0.
Qed.

Lemma dict_extend_keys (d : dict K (list V)) (k : K) (vs : list V) :
  (In k (map fst d) /\ map fst (dict_extend d k vs) = map fst d)
  \/ (~ In k (map fst d) /\ map fst (dict_extend d k vs) = (map fst d ++ [k])%list).
Proof.
  induction d as [|[k0 old] d IH]; cbn [dict_extend map fst].
  - right; split; [intros [] | reflexivity].
  - destruct (keqb k0 k) eqn:E0.
    + apply keqb_eq in E0; subst k0; left; split; [left; reflexivity | reflexivity].
    + assert (N : k0 <> k) by (intro E; apply keqb_eq in E; congruence).
      destruct IH as [(I & E)|(I & E)]; cbn [map fst app]; rewrite E.
      * left; split; [right; exact I | reflexivity].
      * right; split; [intros [J|J]; [exact (N J) | exact (I J)] | reflexivity].
Qed.

Lemma dict_extend_NoDup (d : dict K (list V)) (k : K) (vs : list V) :
  NoDup (map fst d) -> NoDup (map fst (dict_extend d k vs)).
Proof.
  intro N; destruct (dict_extend_keys d k vs) as [(_ & E)|(I & E)]; rewrite E.
  - exact N.
  - apply NoDup_app; [exact N | repeat constructor; intros [] |].
    intros x Ix [<-|[]]; exact (I Ix).
Qed.

Lemma dict_get_NoDup {W : Type} (d : dict K W) (k : K) (v : W) :
  NoDup (map fst d) -> In (k, v) d -> dict_get k d = Some v.
Proof.
  induction d as [|[k0 v0] d IH]; cbn [map fst dict_get]; [intros _ []|].
  intros N [E|I]; inversion N as [|? ? N0 N1]; subst.
  - injection E as -> ->; rewrite keqb_refl; reflexivity.
  - destruct (keqb k0 k) eqn:E0; [|exact (IH N1 I)].
    apply keqb_eq in E0; subst k0; exfalso; apply N0.
    apply in_map_iff; exists (k, v); split; [reflexivity | exact I].
Qed.

End DictExtend.

Import Daily.

Lemma grouped_snoc (prices : list (Z * float)) (sample : Z * float) :
  grouped (prices ++ [sample])
  = dict_extend (grouped prices) (utc_day (fst sample)) [snd sample].
Proof. unfold grouped; rewrite fold_left_app; reflexivity. Qed.

Lemma day_samples_snoc (day : Z) (prices : list (Z * float)) (sample : Z * float) :
  day_samples day (prices ++ [sample])
  = (day_samples day prices
     ++ (if (utc_day (fst sample) =? day)%Z then [snd sample] else []))%list.
Proof.
  unfold day_samples; rewrite filter_app, map_app; cbn [filter].
  destruct (utc_day (fst sample) =? day)%Z; reflexivity.
Qed.

(** The dictionary built by the grouping loop holds, for each day with a
    sample, that day's prices in input order, and no other day. *)
Lemma grouped_get (prices : list (Z * float)) (day : Z) :
  dict_get day (grouped prices)
  = match day_samples day prices with
    | [] => None
    | samples => Some samples
    end.
Proof.
  induction prices as [|sample prices IH] using rev_ind; [reflexivity|].
  rewrite grouped_snoc, dict_get_extend, day_samples_snoc, IH.
  cbn [keqb Z_Key].
  destruct (utc_day (fst sample) =? day)%Z.
  - destruct (day_samples day prices); reflexivity.
  - rewrite app_nil_r; reflexivity.
Qed.

Lemma grouped_NoDup (prices : list (Z * float)) :
  NoDup (map fst (grouped prices)).
Proof.
  induction prices as [|sample prices IH] using rev_ind; [constructor|].
  rewrite grouped_snoc; apply dict_extend_NoDup; exact IH.
Qed.

Lemma day_samples_nonempty (day : Z) (prices : list (Z * float)) :
  day_samples day prices <> []
  <-> exists sample, In sample prices /\ utc_day (fst sample) = day.
Proof.
  unfold day_samples; split.
  - intro NE.
    destruct (filter _ prices) as [|sample rest] eqn:F; [contradiction NE; reflexivity|].
    assert (I : In sample (filter (fun sample => (utc_day (fst sample) =? day)%Z) prices))
      by (rewrite F; left; reflexivity).
    apply filter_In in I; destruct I as (I & E); apply Z.eqb_eq in E; eauto.
  - intros (sample & I & E) N.
    apply map_eq_nil in N.
    assert (J : In sample (filter (fun sample => (utc_day (fst sample) =? day)%Z) prices))
      by (apply filter_In; split; [exact I | apply Z.eqb_eq; exact E]).
    rewrite N in J; exact J.
Qed.

Lemma grouped_item (prices : list (Z * float)) (day : Z) (samples : list float) :
  In (day, samples) (grouped prices)
  <-> samples = day_samples day prices /\ samples <> [].
Proof.
  split.
  - intro I; apply (dict_get_NoDup _ _ _ (grouped_NoDup prices)) in I.
    rewrite grouped_get in I.
    destruct (day_samples day prices); [discriminate|].
    injection I as <-; split; [reflexivity | discriminate].
  - intros (-> & NE); apply dict_get_In; rewrite grouped_get.
    destruct (day_samples day prices); [contradiction | reflexivity].
Qed.

(** The grouping loop returns that dictionary when every timestamp has a
    date, and stops with the exception of the first that has none. *)
Lemma group_by_day_from (prices : list (Z * float)) (d : dict Z (list float)) :
  for_each
    (fun daily_data sample =>
       date <- date_of_timestamp (fst sample) ;;
       Ok (dict_extend daily_data date [snd sample]))
    prices d
  = if forallb (fun sample => in_date_range (fst sample)) prices
    then Ok (fold_left
               (fun daily_data sample =>
                  dict_extend daily_data (utc_day (fst sample)) [snd sample])
               prices d)
    else Raise TimestampError.
Proof.
  revert d; induction prices as [|sample prices IH]; intro d;
    cbn [for_each forallb fold_left]; [reflexivity|].
  unfold date_of_timestamp at 1.
  destruct (in_date_range (fst sample)); cbn [bind andb]; [apply IH | reflexivity].
Qed.

Lemma datable_forallb (prices : list (Z * float)) :
  datable prices <-> forallb (fun sample => in_date_range (fst sample)) prices = true.
Proof. unfold datable; rewrite forallb_forall; tauto. Qed.

Lemma group_by_day_Ok (prices : list (Z * float)) (d : dict Z (list float)) :
  group_by_day prices = Ok d <-> datable prices /\ d = grouped prices.
Proof.
  unfold group_by_day; rewrite group_by_day_from, datable_forallb.
  fold (grouped prices).
  destruct (forallb _ prices); split.
  - intro E; injection E as <-; auto.
  - intros (_ & ->); reflexivity.
  - discriminate.
  - intros (E & _); discriminate E.
Qed.

Lemma group_by_day_Raise (prices : list (Z * float)) (e : exn) :
  group_by_day prices = Raise e <-> ~ datable prices /\ e = TimestampError.
Proof.
  unfold group_by_day; rewrite group_by_day_from, datable_forallb.
  destruct (forallb _ prices); split.
  - discriminate.
  - intros (N & _); contradiction N; reflexivity.
  - intro E; injection E as <-; split; [discriminate | reflexivity].
  - intros (_ & ->); reflexivity.
Qed.

(** *** The order of the days *)

Lemma insert_item_Permutation (item : Z * list float) (l : list (Z * list float)) :
  Permutation (insert_item item l) (item :: l).
Proof.
  induction l as [|item' l IH]; cbn [insert_item]; [apply Permutation_refl|].
  destruct (fst item <=? fst item')%Z; [apply Permutation_refl|].
  apply Permutation_trans with (item' :: item :: l);
    [apply perm_skip; exact IH | apply perm_swap].
Qed.

Lemma sorted_items_Permutation (d : dict Z (list float)) :
  Permutation (sorted_items d) d.
Proof.
  induction d as [|item d IH]; cbn [sorted_items fold_right]; [constructor|].
  apply Permutation_trans with (item :: sorted_items d);
    [apply insert_item_Permutation | apply perm_skip; exact IH].
Qed.

Lemma insert_item_sorted (item : Z * list float) (l : list (Z * list float)) :
  StronglySorted key_le l -> StronglySorted key_le (insert_item item l).
Proof.
  induction 1 as [|item' l S IH F]; cbn [insert_item]; [repeat constructor|].
  destruct (Z.leb_spec (fst item) (fst item')) as [L|L].
  - constructor; [constructor; assumption|].
    constructor; [exact L|].
    apply (Forall_impl (key_le item)) in F; [exact F|].
    intros b Hb; unfold key_le in *; lia.
  - constructor; [exact IH|].
    apply (Permutation_Forall (Permutation_sym (insert_item_Permutation item l))).
    constructor; [unfold key_le; lia | exact F].
Qed.

Lemma sorted_items_sorted (d : dict Z (list float)) :
  StronglySorted key_le (sorted_items d).
Proof.
  induction d as [|item d IH]; cbn [sorted_items fold_right]; [constructor|].
  apply insert_item_sorted; exact IH.
Qed.

Lemma sorted_keys_strict (l : list (Z * list float)) :
  StronglySorted key_le l -> NoDup (map fst l) -> StronglySorted Z.lt (map fst l).
Proof.
  induction 1 as [|item l S IH F]; cbn [map]; intro N; [constructor|].
  inversion N as [|? ? N0 N1]; subst.
  constructor; [exact (IH N1)|].
  apply Forall_forall; intros k Ik.
  apply in_map_iff in Ik; destruct Ik as (b & <- & Ib).
  pose proof (proj1 (Forall_forall _ _) F b Ib) as L; unfold key_le in L.
  assert (fst item <> fst b); [|lia].
  intro E; apply N0; rewrite E; apply in_map; exact Ib.
Qed.

(** The items the records are computed from: one per sample day, in
    increasing order of the days, each with the prices of its day. *)
Lemma sorted_items_days (prices : list (Z * float)) :
  sample_days prices (map fst (sorted_items (grouped prices)))
  /\ forall item, In item (sorted_items (grouped prices)) ->
                  snd item = day_samples (fst item) prices.
Proof.
  pose proof (sorted_items_Permutation (grouped prices)) as P.
  split; [split|].
  - apply sorted_keys_strict; [apply sorted_items_sorted|].
    apply (Permutation_NoDup (Permutation_map fst (Permutation_sym P))).
    apply grouped_NoDup.
  - intro day; rewrite <- day_samples_nonempty; split.
    + intro I; apply in_map_iff in I; destruct I as ([day' samples] & <- & I).
      apply (Permutation_in _ P), grouped_item in I; cbn [fst].
      destruct I as (<- & NE); exact NE.
    + intro NE; apply in_map_iff; exists (day, day_samples day prices).
      split; [reflexivity|].
      apply (Permutation_in _ (Permutation_sym P)), grouped_item; auto.
  - intros [day samples] I.
    apply (Permutation_in _ P), grouped_item in I; cbn [fst snd]; tauto.
Qed.

Lemma list_last_last {A : Type} (l : list A) (x d : A) :
  list_last l = Ok x -> last l d = x.
Proof.
  induction l as [|a l IH]; [discriminate|].
  destruct l as [|b l]; [intro E; injection E as <-; reflexivity|].
  intro E; cbn [last]; apply IH.
  unfold list_last in *; cbn [List.length Nat.sub] in *.
  rewrite Nat.sub_0_r in *; exact E.
Qed.

Lemma daily_change_spec (samples : list float) (percentage closing : float) :
  daily_change samples = Ok (percentage, closing) ->
  day_change samples percentage closing.
Proof.
  unfold daily_change; intro E.
  apply bind_Ok in E; destruct E as (opening & O & E).
  apply bind_Ok in E; destruct E as (closing' & C & E).
  apply bind_Ok in E; destruct E as (ratio & D & E).
  injection E as <- <-.
  exists opening; split; [|split].
  - destruct samples; [discriminate | injection O as ->; reflexivity].
  - apply list_last_last; exact C.
  - unfold Py.div in D; destruct (PrimFloat.eqb opening 0); [discriminate|].
    injection D as <-; reflexivity.
Qed.

(** The records are emitted whenever no day opens at a zero price. *)
Lemma daily_change_total (samples : list float) (opening : float) :
  hd_error samples = Some opening -> PrimFloat.eqb opening 0 = false ->
  exists percentage closing, daily_change samples = Ok (percentage, closing).
Proof.
  intros O NZ; unfold daily_change.
  destruct samples as [|a samples]; [discriminate|]; injection O as ->.
  cbn [list_index nth_error bind].
  assert (L : exists closing, list_last (opening :: samples) = Ok closing).
  { unfold list_last, list_index.
    destruct (nth_error (opening :: samples) (List.length (opening :: samples) - 1))
      eqn:E; [eauto|].
    apply nth_error_None in E; cbn [List.length] in E; lia. }
  destruct L as (closing & ->); cbn [bind].
  unfold Py.div; rewrite NZ; cbn [bind]; eauto.
Qed.

Lemma Forall2_In_right {A B : Type} (R : A -> B -> Prop) (l : list A) (l' : list B) (b : B) :
  Forall2 R l l' -> In b l' -> exists a, In a l /\ R a b.
Proof.
  induction 1 as [|a b' l l' Rab F IH]; [intros []|].
  intros [<-|I]; [exists a; split; [left; reflexivity | exact Rab]|].
  destruct (IH I) as (a' & Ia & Ra); exists a'; split; [right; exact Ia | exact Ra].
Qed.

Lemma Forall2_map_left {A B C : Type} (f : A -> C) (R : C -> B -> Prop)
  (l : list A) (l' : list B) :
  Forall2 (fun a b => R (f a) b) l l' -> Forall2 R (map f l) l'.
Proof. induction 1; cbn [map]; constructor; assumption. Qed.

Lemma Forall2_impl_In {A B : Type} (R R' : A -> B -> Prop) (l : list A) (l' : list B) :
  (forall a b, In a l -> R a b -> R' a b) -> Forall2 R l l' -> Forall2 R' l l'.
Proof.
  intros I F; induction F as [|a b l l' Rab F IH]; constructor.
  - apply I; [left; reflexivity | exact Rab].
  - apply IH; intros a' b' Ia; apply I; right; exact Ia.
Qed.

Lemma for_each_invariant {A S : Type} (Inv : S -> Prop) (body : S -> A -> result S) :
  (forall s a s', Inv s -> body s a = Ok s' -> Inv s') ->
  forall l s s', Inv s -> for_each body l s = Ok s' -> Inv s'.
Proof.
  intros Step l; induction l as [|a l IH]; intros s s' I E; cbn [for_each] in E.
  - injection E as <-; exact I.
  - apply bind_Ok in E; destruct E as (mid & B & E).
    exact (IH _ _ (Step _ _ _ I B) E).
Qed.

Lemma dict_extend_In {K V : Type} `{Key K} (d : dict K (list V)) (k k' : K)
  (vs vs' : list V) :
  In (k', vs') (dict_extend d k vs) ->
  In (k', vs') d
  \/ (k' = k /\ exists old, vs' = (old ++ vs)%list /\ (In (k, old) d \/ old = [])).
Proof.
  induction d as [|[k0 old] d IH]; cbn [dict_extend].
  - intros [E|[]]; injection E as <- <-.
    right; split; [reflexivity|]; exists []; auto.
  - destruct (keqb k0 k) eqn:E0.
    + apply keqb_eq in E0; subst k0; intros [E|I].
      * injection E as <- <-; right; split; [reflexivity|].
        exists old; split; [reflexivity | left; left; reflexivity].
      * left; right; exact I.
    + intros [E|I]; [left; left; exact E|].
      destruct (IH I) as [J|(-> & old' & -> & [J|J])].
      * left; right; exact J.
      * right; split; [reflexivity|]; exists old'; split; [reflexivity|].
        left; right; exact J.
      * subst old'; right; split; [reflexivity|]; exists []; auto.
Qed.

(** ** The daily percentage change *)

Section DailyChange.

Variable strftime : Z -> string.
Variable get_prices : string -> Z -> Z -> option (list (Z * float)).

Lemma formatted_data_spec (prices : list (Z * float)) (records : list DailyRecord) :
  InvestFetch.formatted_data strftime prices = Ok records ->
  exists days,
    sample_days prices days
    /\ Forall2 (fun day r =>
                  date r = strftime day
                  /\ day_change (day_samples day prices) (change r) (end_of_day_value r))
               days records.
Proof.
  intro E; unfold InvestFetch.formatted_data in E.
  apply bind_Ok in E; destruct E as (daily_data & G & E).
  apply group_by_day_Ok in G; destruct G as (_ & ->).
  destruct (sorted_items_days prices) as (D & I).
  exists (map fst (sorted_items (grouped prices))); split; [exact D|].
  apply Forall2_map_left.
  apply comprehension_Forall2 in E.
  apply (fun S => Forall2_impl_In _ _ _ _ S E); intros item r Ii Er.
  apply bind_Ok in Er; destruct Er as ([percentage closing] & C & Er).
  injection Er as <-; cbn [date change end_of_day_value].
  split; [reflexivity|].
  rewrite <- (I _ Ii); apply daily_change_spec; exact C.
Qed.

Lemma formatted_changes_spec (prices : list (Z * float))
  (changes : list Cryptolog.DailyChange) :
  Cryptolog.formatted_changes strftime prices = Ok changes ->
  exists days,
    sample_days prices days
    /\ Forall2 (fun day r =>
                  Cryptolog.date r = strftime day
                  /\ exists closing,
                       day_change (day_samples day prices) (Cryptolog.change r) closing)
               days changes.
Proof.
  intro E; unfold Cryptolog.formatted_changes in E.
  apply bind_Ok in E; destruct E as (daily_changes & G & E).
  apply group_by_day_Ok in G; destruct G as (_ & ->).
  destruct (sorted_items_days prices) as (D & I).
  exists (map fst (sorted_items (grouped prices))); split; [exact D|].
  apply Forall2_map_left.
  apply comprehension_Forall2 in E.
  apply (fun S => Forall2_impl_In _ _ _ _ S E); intros item r Ii Er.
  apply bind_Ok in Er; destruct Er as ([percentage closing] & C & Er).
  injection Er as <-; cbn [Cryptolog.date Cryptolog.change].
  split; [reflexivity|]; exists closing.
  rewrite <- (I _ Ii); apply daily_change_spec; exact C.
Qed.

Lemma fetch_records (crypto_ids : list string) (start_date end_date : Z) (fetched : table) :
  InvestFetch.fetch_daily_weekly_percentage_changes_and_end_of_day_values
    strftime get_prices crypto_ids start_date end_date = Ok fetched ->
  forall crypto records r,
    In (crypto, records) fetched -> In r records ->
    fetched_record strftime get_prices start_date end_date crypto r.
Proof.
  unfold InvestFetch.fetch_daily_weekly_percentage_changes_and_end_of_day_values.
  apply (for_each_invariant
           (fun t : table => forall crypto records r,
                In (crypto, records) t -> In r records ->
                fetched_record strftime get_prices start_date end_date crypto r));
    [|intros ? ? ? []].
  intros t crypto_id t' Inv E crypto records r I Ir.
  unfold InvestFetch.fetch_one in E.
  destruct (get_prices crypto_id start_date end_date) as [[|sample prices]|] eqn:G;
    try (injection E as <-; exact (Inv _ _ _ I Ir)).
  apply bind_Ok in E; destruct E as (new & F & E); injection E as <-.
  apply dict_extend_In in I; destruct I as [I|(-> & old & -> & O)];
    [exact (Inv _ _ _ I Ir)|].
  apply in_app_or in Ir; destruct Ir as [Ir|Ir].
  - destruct O as [O|O]; [exact (Inv _ _ _ O Ir) | subst old; destruct Ir].
  - destruct (formatted_data_spec _ _ F) as (days & _ & F2).
    destruct (Forall2_In_right _ _ _ _ F2 Ir) as (day & _ & Ed & C).
    exists (sample :: prices), day; split; [exact G|]; split; [discriminate|].
    split; assumption.
Qed.

End DailyChange.

Lemma comprehension_total {A B : Type} (f : A -> result B) (l : list A) :
  (forall a, In a l -> exists b, f a = Ok b) -> exists bs, comprehension f l = Ok bs.
Proof.
  induction l as [|a l IH]; intro T; cbn [comprehension]; [eauto|].
  destruct (T a (or_introl eq_refl)) as (b & ->).
  destruct (IH (fun a' I => T a' (or_intror I))) as (bs & ->).
  cbn [bind]; eauto.
Qed.

(** C5. (Each daily record emitted for an asset's price list carries the
    percentage change [((closing - opening) / opening) * 100], opening being
    the first and closing the last price sample of the record's calendar day
    in input order: in the records of invest.py, one per sample day in
    increasing order of the days, in those of cryptolog.py, and in every
    record of the table the fetcher of invest.py returns.  The records are
    emitted whenever every timestamp is of a day of the years 1 to 9999 and
    no day opens at a zero price.) *)
Theorem percentage_change_of_each_day
  (strftime : Z -> string)
  (get_prices : string -> Z -> Z -> option (list (Z * float)))
  (prices : list (Z * float)) :
  (forall records,
      InvestFetch.formatted_data strftime prices = Ok records ->
      exists days,
        sample_days prices days
        /\ Forall2 (fun day r =>
                      date r = strftime day
                      /\ day_change (day_samples day prices)
                           (change r) (end_of_day_value r))
                   days records)
  /\ (forall changes,
         Cryptolog.formatted_changes strftime prices = Ok changes ->
         exists days,
           sample_days prices days
           /\ Forall2 (fun day r =>
                         Cryptolog.date r = strftime day
                         /\ exists closing,
                              day_change (day_samples day prices)
                                (Cryptolog.change r) closing)
                      days changes)
  /\ (forall crypto_ids start_date end_date fetched,
         InvestFetch.fetch_daily_weekly_percentage_changes_and_end_of_day_values
           strftime get_prices crypto_ids start_date end_date = Ok fetched ->
         forall crypto records r,
           In (crypto, records) fetched -> In r records ->
           fetched_record strftime get_prices start_date end_date crypto r)
  /\ (datable prices ->
      (forall day opening,
          hd_error (day_samples day prices) = Some opening ->
          PrimFloat.eqb opening 0 = false) ->
      exists records, InvestFetch.formatted_data strftime prices = Ok records).
Proof.
  split; [exact (formatted_data_spec strftime prices)|].
  split; [exact (formatted_changes_spec strftime prices)|].
  split; [exact (fetch_records strftime get_prices)|].
  intros DT NZ; unfold InvestFetch.formatted_data.
  rewrite (proj2 (group_by_day_Ok prices _) (conj DT eq_refl)); cbn [bind].
  apply comprehension_total; intros item I.
  destruct (sorted_items_days prices) as ((_ & D) & S).
  pose proof (proj1 (D (fst item)) (in_map fst _ _ I)) as NE.
  apply day_samples_nonempty in NE; rewrite <- (S _ I) in NE.
  destruct (snd item) as [|opening rest] eqn:E; [contradiction NE; reflexivity|].
  destruct (daily_change_total (opening :: rest) opening eq_refl) as (pc & closing & C).
  { apply (NZ (fst item)); rewrite <- (S _ I), E; reflexivity. }
  rewrite C; cbn [bind]; eauto.
Qed.

Lemma percentage_change_of_each_day_witness :
  exists days,
    sample_days Examples.two_days_of_prices days
    /\ Forall2 (fun day r =>
                  date r = Calendar.strftime day
                  /\ day_change (day_samples day Examples.two_days_of_prices)
                       (change r) (end_of_day_value r))
               days
               [ {| date := "Mon 01 Jan 2024"; change := 10; end_of_day_value := 110 |};
                 {| date := "Tue 02 Jan 2024"; change := -10; end_of_day_value := 99 |} ].
Proof.
  apply (proj1 (percentage_change_of_each_day Calendar.strftime (fun _ _ _ => None)
                  Examples.two_days_of_prices)).
  vm_compute; reflexivity.
Defined.

(** ** crypto_recommendation.py: the selectors *)

Section SelectorFacts.
Import CryptoRecommendation.

Variable strptime : string -> option Z.
Variable strftime : Z -> string.

Abbreviation latest_entry := (CryptoRecommendation.latest_entry strptime).
Abbreviation latest_asset := (CryptoRecommendation.latest_asset strptime).

(** *** The most recent date *)

Lemma latest_asset_flat (data : table) (latest : option Z) :
  for_each latest_asset data latest = for_each latest_entry (records_of data) latest.
Proof.
  revert latest; induction data as [|[crypto records] data IH]; intro latest;
    [reflexivity|].
  cbn [for_each records_of flat_map snd]; rewrite for_each_app.
  unfold CryptoRecommendation.latest_asset at 1; cbn [snd].
  destruct (for_each latest_entry records latest); cbn [bind]; [apply IH | reflexivity].
Qed.

Lemma latest_entries_raise (records : list DailyRecord) (latest : option Z) (e : exn) :
  for_each latest_entry records latest = Raise e ->
  exists r, In r records /\ strptime (date r) = None.
Proof.
  revert latest; induction records as [|r records IH]; intro latest; [discriminate|].
  cbn [for_each]; unfold CryptoRecommendation.latest_entry at 1.
  destruct (strptime (date r)) as [d|] eqn:P.
  - destruct latest as [l|]; [destruct (l <? d)%Z|]; cbn [bind]; intro E;
      destruct (IH _ E) as (r' & I & N); exists r'; split; auto; right; exact I.
  - intros _; exists r; split; [left; reflexivity | exact P].
Qed.

Lemma latest_entries_Ok (records : list DailyRecord) (latest result : option Z) :
  for_each latest_entry records latest = Ok result ->
  (forall r, In r records -> strptime (date r) <> None)
  /\ (result = None <-> latest = None /\ records = [])
  /\ forall top, result = Some top ->
       (latest = Some top \/ exists r, In r records /\ strptime (date r) = Some top)
       /\ (forall l, latest = Some l -> (l <= top)%Z)
       /\ forall r d, In r records -> strptime (date r) = Some d -> (d <= top)%Z.
Proof.
  revert latest; induction records as [|r records IH]; intro latest.
  - intro E; injection E as <-; split; [intros r []|]; split.
    + split; [auto | tauto].
    + intros top E; split; [left; exact E|]; split.
      * intros l El; rewrite El in E; injection E as <-; lia.
      * intros r d [].
  - cbn [for_each]; unfold CryptoRecommendation.latest_entry at 1.
    destruct (strptime (date r)) as [d|] eqn:P; [|discriminate].
    set (next := match latest with
                 | Some l => if (l <? d)%Z then Some d else Some l
                 | None => Some d
                 end).
    assert (N : exists n, next = Some n /\ (d <= n)%Z
                          /\ (forall l, latest = Some l -> (l <= n)%Z)
                          /\ (n = d \/ latest = Some n)).
    { subst next; destruct latest as [l|].
      - destruct (Z.ltb_spec l d).
        + exists d; repeat split; [lia | intros ? [= <-]; lia | auto].
        + exists l; repeat split; [lia | intros ? [= <-]; lia | auto].
      - exists d; repeat split; [lia | discriminate | auto]. }
    destruct N as (n & En & Ld & Ll & Src).
    replace (match latest with
             | Some l => if (l <? d)%Z then Ok (Some d) else Ok (Some l)
             | None => Ok (Some d)
             end) with (Ok next)
      by (subst next; destruct latest as [l|]; [destruct (l <? d)%Z|]; reflexivity).
    cbn [bind]; intro E; destruct (IH _ E) as (Pr & Rn & Rt).
    split; [intros r' [<-|I]; [rewrite P; discriminate | exact (Pr _ I)]|]; split.
    + split; [|intros (_ & ?); discriminate].
      intro Er; apply Rn in Er; destruct Er as (Er & _); congruence.
    + intros top Et; destruct (Rt _ Et) as (S & Lt & Dt).
      pose proof (Lt _ En) as Lnt.
      split; [|split].
      * destruct S as [S|(r' & I & S)].
        -- rewrite En in S; injection S as ->.
           destruct Src as [->|Src]; [right; exists r; split; [left; reflexivity | exact P]
                                    | left; exact Src].
        -- right; exists r'; split; [right; exact I | exact S].
      * intros l El; specialize (Ll _ El); lia.
      * intros r' d' [<-|I] P'; [rewrite P in P'; injection P' as <-; lia|].
        exact (Dt _ _ I P').
Qed.

(** With dates that can all be read, the first loops end with the most
    recent date, or with [None] when the table has no record. *)
Lemma latest_date_spec (data : table) :
  dates_parse strptime data ->
  exists result,
    for_each latest_asset data None = Ok result
    /\ (result = None <-> records_of data = [])
    /\ forall top, result = Some top -> most_recent strptime data top.
Proof.
  intro DP; rewrite latest_asset_flat.
  destruct (for_each latest_entry (records_of data) None) as [result|e] eqn:E.
  - exists result; split; [reflexivity|].
    destruct (latest_entries_Ok _ _ _ E) as (_ & Rn & Rt); split.
    + rewrite Rn; tauto.
    + intros top Et; destruct (Rt _ Et) as ([S|S] & _ & D); [discriminate|].
      split; assumption.
  - destruct (latest_entries_raise _ _ _ E) as (r & I & N).
    exfalso; exact (DP r I N).
Qed.

Lemma most_recent_unique (data : table) (a b : Z) :
  most_recent strptime data a -> most_recent strptime data b -> a = b.
Proof.
  intros ((ra & Ia & Pa) & Ma) ((rb & Ib & Pb) & Mb).
  pose proof (Ma _ _ Ib Pb); pose proof (Mb _ _ Ia Pa); lia.
Qed.

(** *** The scan for the best value *)

Abbreviation scan_all better s data best :=
  (fold_left (fun running (item : string * list DailyRecord) =>
                scan_entries better s (fst item) (snd item) running)
             data best).

Section Scan.

Variable better : float -> float -> bool.
Variable start : float.
Variable s : string.

Lemma scan_entries_find (crypto : string) (records : list DailyRecord)
  (best : float * option string) :
  scan_entries better s crypto records best
  = match find (fun entry => (date entry =? s)%string) records with
    | Some entry =>
        if better (end_of_day_value entry) (fst best)
        then (end_of_day_value entry, Some crypto)
        else best
    | None => best
    end.
Proof.
  induction records as [|entry records IH]; cbn [scan_entries find]; [reflexivity|].
  destruct (date entry =? s)%string; [reflexivity | exact IH].
Qed.

Lemma find_dated (records : list DailyRecord) :
  has_dated s records
  <-> exists entry, find (fun entry => (date entry =? s)%string) records = Some entry.
Proof.
  split.
  - intros (r & I & E).
    destruct (find (fun entry => (date entry =? s)%string) records) as [entry|] eqn:F;
      [eauto|].
    pose proof (find_none _ _ F r I) as N; cbn beta in N.
    rewrite E, String.eqb_refl in N; discriminate N.
  - intros (entry & F); apply find_some in F; destruct F as (I & E).
    exists entry; split; [exact I | apply String.eqb_eq; exact E].
Qed.

Lemma scan_all_key (data : table) (best : float * option string) (crypto : string) :
  snd (scan_all better s data best) = Some crypto ->
  snd best = Some crypto
  \/ exists records, In (crypto, records) data /\ has_dated s records.
Proof.
  revert best; induction data as [|[c records] data IH]; intro best;
    cbn [fold_left fst snd]; [auto|].
  intro E; destruct (IH _ E) as [B|(records' & I & D)];
    [|right; exists records'; split; [right; exact I | exact D]].
  rewrite scan_entries_find in B.
  destruct (find _ records) as [entry|] eqn:F; [|left; exact B].
  destruct (better _ _); [|left; exact B].
  cbn [snd] in B; injection B as ->; right; exists records.
  split; [left; reflexivity | apply find_dated; eauto].
Qed.

Lemma scan_all_None (data : table) (best : float * option string) :
  (snd best = None -> fst best = start) ->
  snd (scan_all better s data best) = None
  <-> snd best = None
      /\ forall crypto records entry,
           In (crypto, records) data ->
           find (fun entry => (date entry =? s)%string) records = Some entry ->
           better (end_of_day_value entry) start = false.
Proof.
  revert best; induction data as [|[c records] data IH]; intros best J;
    cbn [fold_left fst snd].
  - split; [intro E; split; [exact E | intros ? ? ? []] | tauto].
  - rewrite scan_entries_find.
    destruct (find _ records) as [entry|] eqn:F.
    + destruct (better (end_of_day_value entry) (fst best)) eqn:B.
      * rewrite IH by discriminate; cbn [snd]; split; [intros (? & _); discriminate|].
        intros (N & A); specialize (A c records entry (or_introl eq_refl) F).
        rewrite (J N) in B; congruence.
      * rewrite (IH _ J); split; intros (N & A); (split; [exact N|]).
        -- intros c' records' entry' [E|I] F'; [|exact (A _ _ _ I F')].
           injection E as <- <-; rewrite F in F'; injection F' as <-.
           rewrite <- (J N); exact B.
        -- intros c' records' entry' I; apply (A c' records' entry'); right; exact I.
    + rewrite (IH _ J); split; intros (N & A); (split; [exact N|]).
      * intros c' records' entry' [E|I] F'; [|exact (A _ _ _ I F')].
        injection E as <- <-; rewrite F in F'; discriminate F'.
      * intros c' records' entry' I; apply (A c' records' entry'); right; exact I.
Qed.

End Scan.

Lemma records_of_In (data : table) (r : DailyRecord) :
  In r (records_of data) <-> exists crypto records, In (crypto, records) data /\ In r records.
Proof.
  unfold records_of; rewrite in_flat_map; split.
  - intros ([crypto records] & I & Ir); eauto.
  - intros (crypto & records & I & Ir); exists (crypto, records); auto.
Qed.

(** An asset returned is a key of the table. *)
Lemma select_key (better : float -> float -> bool) (start : float)
  (data : table) (crypto : string) :
  select strptime strftime better start data = Ok crypto -> In crypto (map fst data).
Proof.
  unfold select; intro E.
  apply bind_Ok in E; destruct E as ([latest|] & _ & E); [|discriminate].
  destruct (snd (scan_all better (strftime latest) data (start, None))) as [c|] eqn:S;
    [|discriminate].
  injection E as <-.
  apply scan_all_key in S; destruct S as [S|(records & I & _)]; [discriminate|].
  apply in_map_iff; exists (c, records); auto.
Qed.

(** When every date can be read and every value beats the start value, the
    selector raises exactly on a table without records and on a table none
    of whose records carries the formatted most recent date; the asset it
    returns otherwise has a record carrying that date. *)
Lemma select_spec (better : float -> float -> bool) (start : float) (data : table) :
  dates_parse strptime data ->
  (forall r, In r (records_of data) -> better (end_of_day_value r) start = true) ->
  (raises (select strptime strftime better start data)
   <-> records_of data = []
       \/ exists latest,
            most_recent strptime data latest
            /\ forall r, In r (records_of data) -> date r <> strftime latest)
  /\ forall crypto,
       select strptime strftime better start data = Ok crypto ->
       exists latest records,
         most_recent strptime data latest
         /\ In (crypto, records) data
         /\ has_dated (strftime latest) records.
Proof.
  intros DP B; unfold select.
  destruct (latest_date_spec data DP) as ([latest|] & -> & Rn & Rt); cbn [bind].
  - pose proof (Rt _ eq_refl) as M.
    assert (NE : records_of data <> [])
      by (intro E; apply Rn in E; discriminate E).
    destruct (snd (scan_all better (strftime latest) data (start, None)))
      as [c|] eqn:S.
    + split.
      * split; [intros (e & E); discriminate E|].
        intros [E|(latest' & M' & A)]; [contradiction|].
        rewrite (most_recent_unique _ _ _ M' M) in A.
        apply scan_all_key in S; destruct S as [S|(records & I & r & Ir & D)];
          [discriminate|].
        exfalso; apply (A r); [apply records_of_In; eauto | exact D].
      * intros crypto E; injection E as <-.
        apply scan_all_key in S; destruct S as [S|(records & I & D)]; [discriminate|].
        exists latest, records; auto.
    + split; [|discriminate].
      split; [intros _; right | intros _; exists ValueError; reflexivity].
      exists latest; split; [exact M|]; intros r Ir D.
      apply (scan_all_None better start) in S; [|reflexivity].
      destruct S as (_ & A).
      apply records_of_In in Ir; destruct Ir as (crypto & records & I & Ir).
      destruct (proj1 (find_dated (strftime latest) records)) as (entry & F);
        [exists r; auto|].
      specialize (A _ _ _ I F); rewrite B in A; [discriminate A|].
      apply find_some in F; apply records_of_In; exists crypto, records; tauto.
  - split; [|discriminate].
    split; [intros _; left; apply Rn; reflexivity|].
    intros _; exists ValueError; reflexivity.
Qed.

End SelectorFacts.

Section SelectorClaims.
Import CryptoRecommendation.

Variable strptime : string -> option Z.
Variable strftime : Z -> string.

Lemma ordinary_beats_the_start (data : table) :
  values_ordinary data ->
  (forall r, In r (records_of data) ->
             (fun value highest_value => highest_value <? value)
               (end_of_day_value r) neg_infinity = true)
  /\ (forall r, In r (records_of data) ->
                (fun value lowest_value => value <? lowest_value)
                  (end_of_day_value r) infinity = true).
Proof. intro V; split; intros r I; apply (V r I). Qed.

Lemma select_returns (better : float -> float -> bool) (start : float)
  (data : table) (latest : Z) :
  dates_parse strptime data ->
  (forall r, In r (records_of data) -> better (end_of_day_value r) start = true) ->
  most_recent strptime data latest ->
  (exists r, In r (records_of data) /\ date r = strftime latest) ->
  exists crypto records,
    select strptime strftime better start data = Ok crypto
    /\ In (crypto, records) data
    /\ has_dated (strftime latest) records.
Proof.
  intros DP B M (r & I & D).
  destruct (select_spec strptime strftime better start data DP B) as (R & O).
  destruct (select strptime strftime better start data) as [crypto|e] eqn:E.
  - destruct (O crypto eq_refl) as (latest' & records & M' & Ic & Dc).
    rewrite (most_recent_unique strptime data _ _ M' M) in Dc.
    exists crypto, records; auto.
  - exfalso.
    destruct (proj1 R (ex_intro _ e eq_refl)) as [N|(latest' & M' & A)].
    + rewrite N in I; exact I.
    + rewrite (most_recent_unique strptime data _ _ M' M) in A; exact (A r I D).
Qed.

(** C6, as the code has it.  (Over a table whose dates can all be read and
    whose end-of-day values are all ordinary numbers, neither an infinity
    nor NaN, and in which some record has, as its date, the very string the
    selector formats the most recent date to: both selectors return an asset
    of the table; when exactly one asset has a record with that string as
    its date, both return that asset, whatever its value.  A record of the
    most recent day whose date is spelt otherwise does not count.) *)
Theorem selectors_return_an_asset_of_the_table (data : table) (latest : Z) :
  dates_parse strptime data ->
  values_ordinary data ->
  most_recent strptime data latest ->
  (exists r, In r (records_of data) /\ date r = strftime latest) ->
  (exists crypto,
      get_crypto_with_highest_end_of_day_value strptime strftime data = Ok crypto
      /\ In crypto (map fst data))
  /\ (exists crypto,
         get_crypto_with_lowest_end_of_day_value strptime strftime data = Ok crypto
         /\ In crypto (map fst data))
  /\ forall crypto,
       (forall crypto' records,
           In (crypto', records) data -> has_dated (strftime latest) records ->
           crypto' = crypto) ->
       get_crypto_with_highest_end_of_day_value strptime strftime data = Ok crypto
       /\ get_crypto_with_lowest_end_of_day_value strptime strftime data = Ok crypto.
Proof.
  intros DP V M R; destruct (ordinary_beats_the_start data V) as (BH & BL).
  destruct (select_returns (fun value highest_value => highest_value <? value)
              neg_infinity data latest DP BH M R) as (ch & rh & Eh & Ih & Dh).
  destruct (select_returns (fun value lowest_value => value <? lowest_value)
              infinity data latest DP BL M R) as (cl & rl & El & Il & Dl).
  unfold get_crypto_with_highest_end_of_day_value,
    get_crypto_with_lowest_end_of_day_value.
  split; [exists ch; split; [exact Eh | exact (select_key _ _ _ _ _ _ Eh)]|].
  split; [exists cl; split; [exact El | exact (select_key _ _ _ _ _ _ El)]|].
  intros crypto U.
  rewrite <- (U _ _ Ih Dh) at 1; rewrite <- (U _ _ Il Dl); auto.
Qed.

(** C7, as the code has it.  (Over a table whose dates can all be read and
    whose end-of-day values are all ordinary numbers, each selector raises an
    error exactly when the table has no record at all, or no record of any
    asset carries the most recent date as the selector formats it; in all
    other cases it returns.) *)
Theorem selectors_raise_exactly_without_data (data : table) :
  dates_parse strptime data ->
  values_ordinary data ->
  (raises (get_crypto_with_highest_end_of_day_value strptime strftime data)
   <-> records_of data = []
       \/ exists latest,
            most_recent strptime data latest
            /\ forall r, In r (records_of data) -> date r <> strftime latest)
  /\ (raises (get_crypto_with_lowest_end_of_day_value strptime strftime data)
      <-> records_of data = []
          \/ exists latest,
               most_recent strptime data latest
               /\ forall r, In r (records_of data) -> date r <> strftime latest).
Proof.
  intros DP V; destruct (ordinary_beats_the_start data V) as (BH & BL).
  split.
  - exact (proj1 (select_spec strptime strftime
                    (fun value highest_value => highest_value <? value)
                    neg_infinity data DP BH)).
  - exact (proj1 (select_spec strptime strftime
                    (fun value lowest_value => value <? lowest_value)
                    infinity data DP BL)).
Qed.

End SelectorClaims.

(** *** The selectors on the sample tables *)

Ltac each_record I :=
  unfold records_of in I; cbn [flat_map snd app Examples.one_recent
                                 Examples.three_assets Examples.closing_at] in I;
  repeat (destruct I as [<-|I]); try contradiction.

Lemma one_recent_well_formed :
  dates_parse Calendar.strptime Examples.one_recent
  /\ values_ordinary Examples.one_recent
  /\ most_recent Calendar.strptime Examples.one_recent 19724.
Proof.
  split; [|split].
  - intros r I; each_record I; vm_compute; discriminate.
  - intros r I; each_record I; split; vm_compute; reflexivity.
  - split.
    + exists {| date := "Tue 02 Jan 2024"; change := 5; end_of_day_value := 1.05 |}.
      split; [cbv [records_of flat_map snd app Examples.one_recent In];
              do 3 right; left; reflexivity
             | vm_compute; reflexivity].
    + intros r d I P; each_record I; vm_compute in P; injection P as <-; lia.
Qed.

Lemma one_recent_has_a_recent_record :
  exists r, In r (records_of Examples.one_recent) /\ date r = Calendar.strftime 19724.
Proof.
  exists {| date := "Tue 02 Jan 2024"; change := 5; end_of_day_value := 1.05 |}.
  split; [|vm_compute; reflexivity].
  cbv [records_of flat_map snd app Examples.one_recent In].
  do 3 right; left; reflexivity.
Qed.

Lemma three_assets_well_formed :
  dates_parse Calendar.strptime Examples.three_assets
  /\ values_ordinary Examples.three_assets.
Proof.
  split.
  - intros r I; each_record I; vm_compute; discriminate.
  - intros r I; each_record I; split; vm_compute; reflexivity.
Qed.

Lemma selectors_return_an_asset_of_the_table_witness :
  CryptoRecommendation.get_crypto_with_highest_end_of_day_value
    Calendar.strptime Calendar.strftime Examples.one_recent = Ok "nano"
  /\ CryptoRecommendation.get_crypto_with_lowest_end_of_day_value
       Calendar.strptime Calendar.strftime Examples.one_recent = Ok "nano".
Proof.
  apply (proj2 (proj2 (selectors_return_an_asset_of_the_table
                         Calendar.strptime Calendar.strftime Examples.one_recent 19724
                         (proj1 one_recent_well_formed)
                         (proj1 (proj2 one_recent_well_formed))
                         (proj2 (proj2 one_recent_well_formed))
                         one_recent_has_a_recent_record))).
  intros crypto' records I (r & Ir & D).
  destruct I as [E|[E|[E|[]]]]; injection E as <- <-; [| |reflexivity];
    destruct Ir as [<-|[]]; vm_compute in D; discriminate D.
Defined.

Lemma selectors_raise_exactly_without_data_witness :
  raises (CryptoRecommendation.get_crypto_with_highest_end_of_day_value
            Calendar.strptime Calendar.strftime Examples.three_assets)
  <-> records_of Examples.three_assets = []
      \/ exists latest,
           most_recent Calendar.strptime Examples.three_assets latest
           /\ forall r, In r (records_of Examples.three_assets) ->
                        date r <> Calendar.strftime latest.
Proof.
  exact (proj1 (selectors_raise_exactly_without_data
                  Calendar.strptime Calendar.strftime Examples.three_assets
                  (proj1 three_assets_well_formed) (proj2 three_assets_well_formed))).
Defined.

Example selectors_on_three_assets :
  CryptoRecommendation.get_crypto_with_highest_end_of_day_value
    Calendar.strptime Calendar.strftime Examples.three_assets = Ok "monero"
  /\ CryptoRecommendation.get_crypto_with_lowest_end_of_day_value
       Calendar.strptime Calendar.strftime Examples.three_assets = Ok "nano"
  /\ CryptoRecommendation.get_crypto_with_highest_end_of_day_value
       Calendar.strptime Calendar.strftime [] = Raise ValueError
  /\ CryptoRecommendation.get_crypto_with_lowest_end_of_day_value
       Calendar.strptime Calendar.strftime [("nano", [])] = Raise ValueError.
Proof. repeat split; vm_compute; reflexivity. Qed.

(** The date of a record counts by its spelling: a record whose date reads
    as the most recent day, and is not the string that day is formatted to,
    is passed over, and the selectors raise when it is the only record. *)
Lemma selectors_raise_on_another_spelling
  (strptime : string -> option Z) (strftime : Z -> string)
  (s : string) (d : Z) (value : float) :
  strptime s = Some d -> strftime d <> s ->
  CryptoRecommendation.get_crypto_with_highest_end_of_day_value strptime strftime
    [ ("nano", [ {| date := s; change := 0; end_of_day_value := value |} ]) ]
  = Raise ValueError
  /\ CryptoRecommendation.get_crypto_with_lowest_end_of_day_value strptime strftime
       [ ("nano", [ {| date := s; change := 0; end_of_day_value := value |} ]) ]
     = Raise ValueError.
Proof.
  intros P N.
  assert (E : (s =? strftime d)%string = false)
    by (apply String.eqb_neq; intro E; apply N; symmetry; exact E).
  unfold CryptoRecommendation.get_crypto_with_highest_end_of_day_value,
    CryptoRecommendation.get_crypto_with_lowest_end_of_day_value,
    CryptoRecommendation.select, CryptoRecommendation.latest_asset,
    CryptoRecommendation.latest_entry.
  cbn [for_each snd fst date bind fold_left CryptoRecommendation.scan_entries].
  rewrite P; cbn [bind fold_left CryptoRecommendation.scan_entries fst snd date].
  rewrite E; split; reflexivity.
Qed.

(** C6 fails at an infinite value: the only asset of the table has the only
    record, dated with the most recent date, and the selector for the highest
    value raises when that value is minus infinity, the one for the lowest
    when it is plus infinity; either value is returned by the other
    selector. *)
Lemma selectors_raise_on_an_infinite_value :
  Calendar.strptime "Mon 01 Jan 2024" = Some 19723%Z
  /\ Calendar.strftime 19723 = "Mon 01 Jan 2024"
  /\ CryptoRecommendation.get_crypto_with_highest_end_of_day_value
       Calendar.strptime Calendar.strftime (Examples.closing_at neg_infinity)
     = Raise ValueError
  /\ CryptoRecommendation.get_crypto_with_lowest_end_of_day_value
       Calendar.strptime Calendar.strftime (Examples.closing_at infinity)
     = Raise ValueError
  /\ CryptoRecommendation.get_crypto_with_lowest_end_of_day_value
       Calendar.strptime Calendar.strftime (Examples.closing_at neg_infinity)
     = Ok "nano"
  /\ CryptoRecommendation.get_crypto_with_highest_end_of_day_value
       Calendar.strptime Calendar.strftime (Examples.closing_at infinity)
     = Ok "nano".
Proof. repeat split; vm_compute; reflexivity. Qed.

(** C7 fails at a NaN value: the table has a record, which carries the most
    recent date, and both selectors raise. *)
Lemma selectors_raise_on_a_nan_value :
  records_of (Examples.closing_at nan)
  = [ {| date := "Mon 01 Jan 2024"; change := 0; end_of_day_value := nan |} ]
  /\ most_recent Calendar.strptime (Examples.closing_at nan) 19723
  /\ Calendar.strftime 19723 = "Mon 01 Jan 2024"
  /\ CryptoRecommendation.get_crypto_with_highest_end_of_day_value
       Calendar.strptime Calendar.strftime (Examples.closing_at nan)
     = Raise ValueError
  /\ CryptoRecommendation.get_crypto_with_lowest_end_of_day_value
       Calendar.strptime Calendar.strftime (Examples.closing_at nan)
     = Raise ValueError.
Proof.
  split; [reflexivity|].
  split; [|repeat split; vm_compute; reflexivity].
  split.
  - exists {| date := "Mon 01 Jan 2024"; change := 0; end_of_day_value := nan |}.
    split; [left; reflexivity | vm_compute; reflexivity].
  - intros r d I P; each_record I; vm_compute in P; injection P as <-; lia.
Qed.

(** * Further results *)

Import Terms.

(** ** The comparisons and two identities of binary64 arithmetic *)

Import FloatOrder.

Lemma SFltb_rank (x y : spec_float) :
  SFltb x y = true
  <-> x <> S754_nan /\ y <> S754_nan /\ lex_lt (rank x) (rank y).
Proof.
  unfold SFltb.
  destruct x as [sx|sx| |sx mx ex], y as [sy|sy| |sy my ey];
    try destruct sx; try destruct sy; cbn [SFcompare rank lex_lt];
    try (split; [discriminate | intros (A & B & C); try congruence; lia]);
    try (split; [intros _; repeat split; try discriminate; lia | reflexivity]).
  all: rewrite Pos.compare_cont_spec; cbn [Pos.switch_Eq].
  all: destruct (Z.compare_spec ex ey); destruct (Pos.compare_spec mx my); cbn [CompOpp];
    try (split; [discriminate | intros (A & B & C); try congruence; lia]);
    try (split; [intros _; repeat split; try discriminate; lia | reflexivity]).
Qed.

Lemma ltb_rank (x y : float) :
  (x <? y) = true
  <-> is_number x /\ is_number y /\ lex_lt (rank (Prim2SF x)) (rank (Prim2SF y)).
Proof. rewrite ltb_spec; apply SFltb_rank. Qed.

Lemma lex_lt_irrefl (a : Z * Z * Z) : ~ lex_lt a a.
Proof. destruct a as [[c e] m]; cbn; lia. Qed.

Lemma lex_lt_trans (a b c : Z * Z * Z) : lex_lt a b -> lex_lt b c -> lex_lt a c.
Proof. destruct a as [[? ?] ?], b as [[? ?] ?], c as [[? ?] ?]; cbn; lia. Qed.

Lemma lex_lt_total (a b : Z * Z * Z) : lex_lt a b \/ a = b \/ lex_lt b a.
Proof.
  destruct a as [[c1 e1] m1], b as [[c2 e2] m2]; cbn.
  destruct (Z.lt_trichotomy c1 c2) as [?|[->|?]]; [lia| |lia].
  destruct (Z.lt_trichotomy e1 e2) as [?|[->|?]]; [lia| |lia].
  destruct (Z.lt_trichotomy m1 m2) as [?|[->|?]]; [lia|auto|lia].
Qed.

Lemma ltb_irrefl (x : float) : (x <? x) = false.
Proof.
  destruct (x <? x) eqn:E; [|reflexivity].
  apply ltb_rank in E; destruct E as (_ & _ & L); destruct (lex_lt_irrefl _ L).
Qed.

Lemma ltb_trans (x y z : float) : (x <? y) = true -> (y <? z) = true -> (x <? z) = true.
Proof.
  rewrite !ltb_rank; intros (A & B & L) (_ & C & L').
  repeat split; [assumption | assumption | exact (lex_lt_trans _ _ _ L L')].
Qed.

(** Among numbers, a value that is not below another one is above it or
    ranks with it, and then stands below whatever the other one stands
    below. *)
Lemma ltb_le_trans (x y z : float) :
  is_number x -> is_number y ->
  (y <? x) = false -> (y <? z) = true -> (x <? z) = true.
Proof.
  intros Nx Ny F L; apply ltb_rank in L; destruct L as (_ & Nz & L).
  apply ltb_rank; repeat split; [assumption | assumption|].
  destruct (lex_lt_total (rank (Prim2SF y)) (rank (Prim2SF x))) as [T|[T|T]].
  - assert (E : (y <? x) = true) by (apply ltb_rank; auto).
    rewrite E in F; discriminate F.
  - rewrite <- T; exact L.
  - exact (lex_lt_trans _ _ _ T L).
Qed.

Lemma ltb_number (x y : float) : (x <? y) = true -> is_number x /\ is_number y.
Proof. intro L; apply ltb_rank in L; tauto. Qed.

(** [0 + x] compares with zero as [x] does. *)
Lemma zero_add_ltb_zero (x : float) : (0 + x <? 0) = (x <? 0).
Proof.
  rewrite !ltb_spec, add_spec.
  change (Prim2SF 0) with (S754_zero false).
  destruct (Prim2SF x) as [s|s| |s m e]; try destruct s; reflexivity.
Qed.

(** [x - 0] is [x], bit for bit. *)
Lemma sub_zero (x : float) : x - 0 = x.
Proof.
  apply Prim2SF_inj; rewrite sub_spec.
  change (Prim2SF 0) with (S754_zero false).
  destruct (Prim2SF x) as [s|s| |s m e]; try destruct s; reflexivity.
Qed.

(** ** invest.py: further results on the fee model and the strategies *)

Lemma floor_is_not_negative (x : float) : (0 + max2 x 0 <? 0) = false.
Proof.
  rewrite zero_add_ltb_zero; unfold max2.
  destruct (x <? 0) eqn:E; [reflexivity | exact E].
Qed.

Lemma calculate_portfolio_value_one (value : float) (changes : dict string float)
  (crypto : string) (split r : float) :
  calculate_portfolio_value value changes [crypto] split = Ok r ->
  exists x, r = 0 + max2 x 0.
Proof.
  unfold calculate_portfolio_value; cbn [calculate_portfolio_value_loop]; intro E.
  apply bind_Ok in E; destruct E as (pc & _ & E).
  apply bind_Ok in E; destruct E as (share & _ & E).
  injection E as <-; eauto.
Qed.

Lemma last_day {S : Type} (body : S -> nat -> result S) (n : nat) (s s' : S) :
  for_each body (seq 0 (Datatypes.S n)) s = Ok s' ->
  exists mid, for_each body (seq 0 n) s = Ok mid /\ body mid n = Ok s'.
Proof.
  rewrite seq_S, for_each_app; cbn [plus]; intro E.
  apply bind_Ok in E; destruct E as (mid & M & E); exists mid; split; [exact M|].
  cbn [for_each] in E; apply bind_Ok in E; destruct E as (last & B & E).
  injection E as <-; exact B.
Qed.

Lemma highest_day_floor (data : table) (v : float) (held : string) (day : nat)
  (state : float * string) :
  highest_day data (v, held) day = Ok state -> held <> "" -> (fst state <? 0) = false.
Proof.
  unfold highest_day; intros E N.
  apply bind_Ok in E; destruct E as (changes & _ & E).
  apply bind_Ok in E; destruct E as (prices & _ & E).
  apply bind_Ok in E; destruct E as (leader & _ & E).
  apply bind_Ok in E; destruct E as (v' & C & E); injection E as <-; cbn [fst].
  rewrite (proj2 (String.eqb_neq _ _) N) in C.
  apply calculate_portfolio_value_one in C; destruct C as (x & ->).
  apply floor_is_not_negative.
Qed.

Lemma lowest_day_floor (data : table) (v : float) (held : string) (day : nat)
  (state : float * string) :
  lowest_day data (v, held) day = Ok state -> held <> "" -> (fst state <? 0) = false.
Proof.
  unfold lowest_day; intros E N.
  apply bind_Ok in E; destruct E as (changes & _ & E).
  apply bind_Ok in E; destruct E as (prices & _ & E).
  apply bind_Ok in E; destruct E as (leader & _ & E).
  apply bind_Ok in E; destruct E as (v' & C & E); injection E as <-; cbn [fst].
  rewrite (proj2 (String.eqb_neq _ _) N) in C.
  apply calculate_portfolio_value_one in C; destruct C as (x & ->).
  apply floor_is_not_negative.
Qed.

Lemma wave_day_floor (data : table) (state state' : float * string) (day : nat) :
  wave_day data state day = Ok state' -> (fst state' <? 0) = false.
Proof.
  destruct state as [v held]; unfold wave_day; intro E.
  apply bind_Ok in E; destruct E as (scores & _ & E).
  apply bind_Ok in E; destruct E as (leader & _ & E).
  apply bind_Ok in E; destruct E as (v' & _ & E).
  apply bind_Ok in E; destruct E as (ch & _ & E).
  apply bind_Ok in E; destruct E as (v'' & C & E); injection E as <-; cbn [fst].
  apply calculate_portfolio_value_one in C; destruct C as (x & ->).
  apply floor_is_not_negative.
Qed.

(** X1. (A value that went through [calculate_portfolio_value] for one asset
    is never below zero, whatever the change, the fees and the split; so the
    'wave' strategy run for a day or more, and the 'highest' and 'lowest'
    strategies run for two days or more over a table without an asset named
    by the empty string, never return a value below zero, even from a
    negative initial value.) *)
Theorem traded_value_is_never_negative :
  (forall value changes crypto split r,
      calculate_portfolio_value value changes [crypto] split = Ok r ->
      (r <? 0) = false)
  /\ (forall data v days r,
         (1 <= days)%Z ->
         catch_the_wave_strategy data v days = Ok r -> (r <? 0) = false)
  /\ (forall data v days t r,
         (2 <= days)%Z -> ~ In "" (map fst data) ->
         highest_change_trading_strategy data v days t = Ok r
         \/ lowest_change_trading_strategy data v days t = Ok r ->
         (r <? 0) = false).
Proof.
  split; [|split].
  - intros value changes crypto split r E.
    apply calculate_portfolio_value_one in E; destruct E as (x & ->).
    apply floor_is_not_negative.
  - intros data v days r Hd E; unfold catch_the_wave_strategy, range in E.
    apply bind_Ok in E; destruct E as (state & E & R); injection R as <-.
    destruct (Z.to_nat days) as [|n] eqn:En; [lia|].
    apply last_day in E; destruct E as (mid & _ & E).
    exact (wave_day_floor _ _ _ _ E).
  - intros data v days t r Hd NE E.
    assert (N : forall held, In held (map fst (candidates data)) -> held <> "").
    { intros held I ->; apply NE; apply (candidates_key data ""); exact I. }
    destruct (Z.to_nat days) as [|[|n]] eqn:En; [lia|lia|].
    destruct E as [E|E].
    + unfold highest_change_trading_strategy, range in E; rewrite En in E.
      apply bind_Ok in E; destruct E as (state & E & R); injection R as <-.
      apply last_day in E; destruct E as ([value held] & M & E).
      apply (highest_day_floor _ _ _ _ _ E), N.
      exact (held_after_days _ _ (highest_day_leader data) (S n) _ _
               (le_n_S _ _ (Nat.le_0_l n)) M).
    + unfold lowest_change_trading_strategy, range in E; rewrite En in E.
      apply bind_Ok in E; destruct E as (state & E & R); injection R as <-.
      apply last_day in E; destruct E as ([value held] & M & E).
      apply (lowest_day_floor _ _ _ _ _ E), N.
      exact (held_after_days _ _ (lowest_day_leader data) (S n) _ _
               (le_n_S _ _ (Nat.le_0_l n)) M).
Qed.

Lemma traded_value_is_never_negative_witness :
  highest_change_trading_strategy Examples.nano_tron (-100) 2 "" = Ok 0
  /\ (0 <? 0) = false.
Proof.
  split; [vm_compute; reflexivity|].
  apply (proj2 (proj2 traded_value_is_never_negative)
           Examples.nano_tron (-100) 2%Z "" 0).
  - lia.
  - cbn; intros [E|[E|[]]]; discriminate E.
  - left; vm_compute; reflexivity.
Defined.

(** X2. (The three strategies never hold bitcoin: after a day or more of a
    run that went through, the asset held is an asset of the table other
    than bitcoin.) *)
Theorem strategies_never_hold_bitcoin (data : table) (v : float) (d : nat)
  (value : float) (held : string) :
  (1 <= d)%nat ->
  for_each (highest_day data) (seq 0 d) (v, "") = Ok (value, held)
  \/ for_each (lowest_day data) (seq 0 d) (v, "") = Ok (value, held)
  \/ for_each (wave_day data) (seq 0 d) (v, "") = Ok (value, held) ->
  In held (map fst data) /\ held <> "bitcoin".
Proof.
  intros Hd [E|[E|E]]; apply candidates_key.
  - exact (held_after_days _ _ (highest_day_leader data) d _ _ Hd E).
  - exact (held_after_days _ _ (lowest_day_leader data) d _ _ Hd E).
  - exact (held_after_days _ _ (wave_day_leader data) d _ _ Hd E).
Qed.

Lemma strategies_never_hold_bitcoin_witness :
  In "tron" (map fst Examples.nano_tron) /\ "tron" <> "bitcoin".
Proof.
  apply (strategies_never_hold_bitcoin Examples.nano_tron 100 1 100 "tron").
  - lia.
  - left; vm_compute; reflexivity.
Defined.

(** X3. (Over a table with no asset other than bitcoin, the empty table
    included, each strategy run for a day or more raises [ValueError]: the
    [max] or [min] of the first day has nothing to choose from.) *)
Theorem no_candidate_raises_ValueError (data : table) (v : float) (days : Z)
  (t : string) :
  candidates data = [] ->
  (1 <= days)%Z ->
  highest_change_trading_strategy data v days t = Raise ValueError
  /\ lowest_change_trading_strategy data v days t = Raise ValueError
  /\ catch_the_wave_strategy data v days = Raise ValueError.
Proof.
  intros C Hd.
  unfold highest_change_trading_strategy, lowest_change_trading_strategy,
    catch_the_wave_strategy.
  rewrite (range_first days Hd); cbn [for_each].
  unfold highest_day, lowest_day, wave_day, day_values, cumulative_changes.
  rewrite C; repeat split.
Qed.

Lemma no_candidate_raises_ValueError_witness :
  highest_change_trading_strategy
    [("bitcoin", [ {| date := "Mon 01 Jan 2024"; change := 1; end_of_day_value := 1 |} ])]
    100 7 "" = Raise ValueError
  /\ lowest_change_trading_strategy
       [("bitcoin", [ {| date := "Mon 01 Jan 2024"; change := 1; end_of_day_value := 1 |} ])]
       100 7 "" = Raise ValueError
  /\ catch_the_wave_strategy
       [("bitcoin", [ {| date := "Mon 01 Jan 2024"; change := 1; end_of_day_value := 1 |} ])]
       100 7 = Raise ValueError.
Proof.
  apply (no_candidate_raises_ValueError
           [("bitcoin", [ {| date := "Mon 01 Jan 2024"; change := 1;
                             end_of_day_value := 1 |} ])] 100 7 "").
  - reflexivity.
  - lia.
Defined.

(** *** The strategies read the candidates only *)

Lemma candidates_idem (data : table) : candidates (candidates data) = candidates data.
Proof.
  unfold candidates; induction data as [|entry data IH]; [reflexivity|].
  cbn [filter]; destruct (negb (fst entry =? "bitcoin")%string) eqn:E; [|exact IH].
  cbn [filter]; rewrite E, IH; reflexivity.
Qed.

Lemma highest_day_candidates (data : table) (state : float * string) (day : nat) :
  highest_day (candidates data) state day = highest_day data state day.
Proof.
  destruct state; unfold highest_day, day_values; rewrite candidates_idem; reflexivity.
Qed.

Lemma lowest_day_candidates (data : table) (state : float * string) (day : nat) :
  lowest_day (candidates data) state day = lowest_day data state day.
Proof.
  destruct state; unfold lowest_day, day_values; rewrite candidates_idem; reflexivity.
Qed.

Lemma change_at_candidates (data : table) (crypto : string) (day : nat) :
  crypto <> "bitcoin" -> change_at (candidates data) crypto day = change_at data crypto day.
Proof.
  intro N; unfold change_at, dict_index; rewrite (dict_get_candidates data crypto N).
  reflexivity.
Qed.

Lemma wave_day_candidates (data : table) (state : float * string) (day : nat) :
  snd state <> "bitcoin" ->
  wave_day (candidates data) state day = wave_day data state day.
Proof.
  destruct state as [v held]; cbn [snd]; intro N.
  unfold wave_day, cumulative_changes; rewrite candidates_idem.
  fold (cumulative_changes data day).
  destruct (cumulative_changes data day) as [scores|e] eqn:CC; [|reflexivity].
  cbn [bind]; destruct (max_key scores) as [leader|e] eqn:M; [|reflexivity].
  cbn [bind].
  assert (Nl : leader <> "bitcoin").
  { apply max_key_In in M; rewrite (cumulative_changes_keys _ _ _ CC) in M.
    apply candidates_key in M; tauto. }
  rewrite (change_at_candidates data leader day Nl).
  rewrite (change_at_candidates data held day N); reflexivity.
Qed.

Lemma for_each_ext {A S : Type} (body body' : S -> A -> result S) (l : list A) (s : S) :
  (forall s a, body s a = body' s a) -> for_each body l s = for_each body' l s.
Proof.
  intro E; revert s; induction l as [|a l IH]; intro s; cbn [for_each]; [reflexivity|].
  rewrite E; destruct (body' s a); cbn [bind]; [apply IH | reflexivity].
Qed.

Lemma wave_run_candidates (data : table) (l : list nat) (state : float * string) :
  snd state <> "bitcoin" ->
  for_each (wave_day (candidates data)) l state = for_each (wave_day data) l state.
Proof.
  revert state; induction l as [|day l IH]; intros state N; cbn [for_each];
    [reflexivity|].
  rewrite (wave_day_candidates data state day N).
  destruct (wave_day data state day) as [state'|e] eqn:E; cbn [bind]; [|reflexivity].
  apply IH; apply wave_day_leader, candidates_key in E; tauto.
Qed.

(** X4. (The records of bitcoin have no part in any strategy: run over the
    table without its bitcoin entry, each strategy gives the same result,
    value or exception.) *)
Theorem bitcoin_records_are_never_read (data : table) (v : float) (days : Z)
  (t : string) :
  highest_change_trading_strategy (candidates data) v days t
  = highest_change_trading_strategy data v days t
  /\ lowest_change_trading_strategy (candidates data) v days t
     = lowest_change_trading_strategy data v days t
  /\ catch_the_wave_strategy (candidates data) v days
     = catch_the_wave_strategy data v days.
Proof.
  unfold highest_change_trading_strategy, lowest_change_trading_strategy,
    catch_the_wave_strategy.
  rewrite (for_each_ext _ _ (range days) (v, "") (highest_day_candidates data)).
  rewrite (for_each_ext _ _ (range days) (v, "") (lowest_day_candidates data)).
  rewrite (wave_run_candidates data (range days) (v, "")) by discriminate.
  repeat split.
Qed.

(** *** A table that is too short *)

Lemma comprehension_raise {A B : Type} (f : A -> result B) (l : list A) (e : exn) :
  (forall a, In a l -> (exists b, f a = Ok b) \/ f a = Raise e) ->
  (exists a, In a l /\ f a = Raise e) ->
  comprehension f l = Raise e.
Proof.
  induction l as [|a l IH]; intros T (a' & I & R); [destruct I|].
  cbn [comprehension].
  destruct (T a (or_introl eq_refl)) as [(b & Fa)|Fa]; rewrite Fa; [|reflexivity].
  cbn [bind]; rewrite IH; [reflexivity | intros; apply T; right; assumption|].
  destruct I as [E|I]; [subst a'; congruence | eauto].
Qed.

Lemma shortest_records (l : table) :
  l <> [] ->
  exists m, has_records l m
            /\ exists crypto records, In (crypto, records) l /\ List.length records = m.
Proof.
  induction l as [|[c r] l IH]; [contradiction|]; intros _.
  destruct l as [|entry l].
  - exists (List.length r); split; [|exists c, r; split; [left|]; reflexivity].
    intros c' r' [E|[]]; injection E as <- <-; lia.
  - destruct IH as (m & R & c' & r' & I & L); [discriminate|].
    destruct (Nat.le_gt_cases m (List.length r)) as [Le|Gt].
    + exists m; split; [|exists c', r'; split; [right; exact I | exact L]].
      intros c'' r'' [E|J]; [injection E as <- <-; exact Le | exact (R _ _ J)].
    + exists (List.length r); split; [|exists c, r; split; [left|]; reflexivity].
      intros c'' r'' [E|J]; [injection E as <- <-; lia|].
      specialize (R _ _ J); lia.
Qed.

Lemma list_index_short {A : Type} (l : list A) (i : nat) :
  (List.length l <= i)%nat -> list_index l i = Raise IndexError.
Proof.
  intro L; unfold list_index; rewrite (proj2 (nth_error_None l i) L); reflexivity.
Qed.

Lemma list_index_long {A : Type} (l : list A) (i : nat) :
  (i < List.length l)%nat -> exists a, list_index l i = Ok a.
Proof.
  intro L; unfold list_index.
  destruct (nth_error l i) eqn:E; [eauto|].
  apply nth_error_None in E; lia.
Qed.

Section Short.

Variable data : table.
Variable m : nat.
Hypothesis enough : has_records (candidates data) m.
Variable crypto : string.
Variable records : list DailyRecord.
Hypothesis short : In (crypto, records) (candidates data).
Hypothesis exactly : List.length records = m.

Lemma day_values_short (field : DailyRecord -> float) :
  day_values field data m = Raise IndexError.
Proof.
  unfold day_values; apply comprehension_raise.
  - intros [c r] I; cbn [snd fst].
    destruct (Nat.eq_dec (List.length r) m) as [E|N].
    + right; rewrite list_index_short by lia; reflexivity.
    + left; destruct (list_index_long r m) as (a & ->);
        [specialize (enough _ _ I); lia | cbn [bind]; eauto].
  - exists (crypto, records); split; [exact short|]; cbn [snd].
    rewrite list_index_short by lia; reflexivity.
Qed.

Lemma cumulative_changes_short : cumulative_changes data m = Raise IndexError.
Proof.
  unfold cumulative_changes; apply comprehension_raise.
  - intros [c r] I; cbn [snd fst].
    destruct (Nat.eq_dec (List.length r) m) as [E|N].
    + right; rewrite (comprehension_raise _ _ IndexError); [reflexivity| |].
      * intros d Id; unfold range2 in Id; apply in_seq in Id.
        destruct (Nat.eq_dec d m) as [->|Nd].
        -- right; rewrite list_index_short by lia; reflexivity.
        -- left; destruct (list_index_long r d) as (a & ->); [lia | cbn [bind]; eauto].
      * exists m; split; [unfold range2; apply in_seq; lia|].
        rewrite list_index_short by lia; reflexivity.
    + left; destruct (comprehension_total
                        (fun d => record <- list_index r d ;; Ok (change record))
                        (range2 (Nat.max 0 (m - 2)) (m + 1))) as (terms & ->);
        [|cbn [bind]; eauto].
      intros d Id; unfold range2 in Id; apply in_seq in Id.
      destruct (list_index_long r d) as (a & ->);
        [specialize (enough _ _ I); lia | cbn [bind]; eauto].
  - exists (crypto, records); split; [exact short|]; cbn [snd].
    rewrite (comprehension_raise _ _ IndexError); [reflexivity| |].
    + intros d Id; unfold range2 in Id; apply in_seq in Id.
      destruct (Nat.eq_dec d m) as [->|Nd].
      * right; rewrite list_index_short by lia; reflexivity.
      * left; destruct (list_index_long records d) as (a & ->);
          [lia | cbn [bind]; eauto].
    + exists m; split; [unfold range2; apply in_seq; lia|].
      rewrite list_index_short by lia; reflexivity.
Qed.

End Short.

Lemma range_split (days : Z) (m : nat) :
  (m < Z.to_nat days)%nat ->
  range days = (seq 0 m ++ m :: seq (S m) (Z.to_nat days - S m))%list.
Proof.
  intro L; unfold range.
  replace (Z.to_nat days) with (m + S (Z.to_nat days - S m))%nat at 1 by lia.
  rewrite seq_app; reflexivity.
Qed.

(** The run goes through the days every asset has and stops, with
    [IndexError], at the first day one of them lacks. *)
Lemma short_table_stops_the_strategies (data : table) (v : float) (days : Z)
  (t : string) (crypto : string) (records : list DailyRecord) :
  In (crypto, records) (candidates data) ->
  (List.length records < Z.to_nat days)%nat ->
  highest_change_trading_strategy data v days t = Raise IndexError
  /\ lowest_change_trading_strategy data v days t = Raise IndexError
  /\ catch_the_wave_strategy data v days = Raise IndexError.
Proof.
  intros I L.
  assert (NE : candidates data <> []) by (intro E; rewrite E in I; destruct I).
  destruct (shortest_records (candidates data) NE) as (m & R & c & r & Ic & Lc).
  pose proof (R _ _ I) as Lm.
  assert (NE' : candidates (candidates data) <> []) by (rewrite candidates_idem; exact NE).
  unfold highest_change_trading_strategy, lowest_change_trading_strategy,
    catch_the_wave_strategy.
  rewrite (range_split days m) by lia; rewrite !for_each_app.
  split; [|split].
  - destruct (highest_run_total (candidates data) m R NE' v) as ([value held] & E).
    rewrite (for_each_ext _ _ _ _ (highest_day_candidates data)) in E.
    rewrite E; cbn [bind for_each]; unfold highest_day.
    rewrite (day_values_short data m R c r Ic Lc); reflexivity.
  - destruct (lowest_run_total (candidates data) m R NE' v) as ([value held] & E).
    rewrite (for_each_ext _ _ _ _ (lowest_day_candidates data)) in E.
    rewrite E; cbn [bind for_each]; unfold lowest_day.
    rewrite (day_values_short data m R c r Ic Lc); reflexivity.
  - destruct (wave_run_total (candidates data) m R NE' v) as ([value held] & E).
    rewrite (wave_run_candidates data) in E by discriminate.
    rewrite E; cbn [bind for_each]; unfold wave_day.
    rewrite (cumulative_changes_short data m R c r Ic Lc); reflexivity.
Qed.

(** X6. ([calculate_portfolio_value] over no asset is [0], even with a zero
    [split]; with a non-zero [split] it raises [KeyError] as soon as one of
    the assets has no entry in the table of changes; with a zero [split] and
    a first asset that has an entry it raises [ZeroDivisionError].) *)
Theorem calculate_portfolio_value_errors
  (value : float) (changes : dict string float) (split : float) :
  calculate_portfolio_value value changes [] split = Ok 0
  /\ (forall cryptos crypto,
         PrimFloat.eqb split 0 = false ->
         In crypto cryptos -> dict_get crypto changes = None ->
         calculate_portfolio_value value changes cryptos split = Raise KeyError)
  /\ (forall crypto rest pc,
         PrimFloat.eqb split 0 = true ->
         dict_get crypto changes = Some pc ->
         calculate_portfolio_value value changes (crypto :: rest) split
         = Raise ZeroDivisionError).
Proof.
  split; [reflexivity|]; split.
  - intros cryptos crypto Hs I G; unfold calculate_portfolio_value.
    generalize 0 as daily_value.
    induction cryptos as [|c cryptos IH]; intro daily_value; [destruct I|].
    cbn [calculate_portfolio_value_loop]; unfold dict_index.
    destruct (dict_get c changes) as [pc|] eqn:Gc; [|reflexivity].
    cbn [bind]; unfold Py.div; rewrite Hs; cbn [bind].
    destruct I as [->|I]; [congruence | apply IH; exact I].
  - intros crypto rest pc Hs G; unfold calculate_portfolio_value.
    cbn [calculate_portfolio_value_loop]; unfold dict_index; rewrite G; cbn [bind].
    unfold Py.div; rewrite Hs; reflexivity.
Qed.

Lemma calculate_portfolio_value_errors_witness :
  calculate_portfolio_value 100 [("nano", 1)] ["nano"; "tron"] 2 = Raise KeyError.
Proof.
  apply (proj1 (proj2 (calculate_portfolio_value_errors 100 [("nano", 1)] 2))
           ["nano"; "tron"] "tron").
  - reflexivity.
  - right; left; reflexivity.
  - reflexivity.
Defined.

(** *** The asset [max] and [min] select *)

Lemma ltb_lt_le_trans (x y z : float) :
  is_number x -> is_number y ->
  (x <? y) = false -> (z <? y) = true -> (z <? x) = true.
Proof.
  intros Nx Ny F L; apply ltb_rank in L; destruct L as (Nz & _ & L).
  apply ltb_rank; repeat split; [assumption | assumption|].
  destruct (lex_lt_total (rank (Prim2SF x)) (rank (Prim2SF y))) as [T|[T|T]].
  - assert (E : (x <? y) = true) by (apply ltb_rank; auto).
    rewrite E in F; discriminate F.
  - rewrite T; exact L.
  - exact (lex_lt_trans _ _ _ L T).
Qed.

Section Pick.

Variable K : Type.

(** [replace best candidate]: the test on which the candidate takes the place
    of the best value so far. *)
Variable replace : float -> float -> bool.
Hypothesis replace_irrefl : forall x, replace x x = false.
Hypothesis replace_trans :
  forall x y z, replace x y = true -> replace y z = true -> replace x z = true.
Hypothesis replace_le_trans :
  forall x y z, is_number x -> is_number y ->
                replace y x = false -> replace y z = true -> replace x z = true.

Abbreviation pick_step :=
  (fun best cand : K * float => if replace (snd best) (snd cand) then cand else best).

Lemma pick_invariant (rest before after : dict K float) (best : K * float) :
  (forall e, In e (before ++ best :: after)%list -> replace (snd best) (snd e) = false) ->
  ((forall e, In e (before ++ best :: after ++ rest)%list -> is_number (snd e)) ->
   forall e, In e before -> replace (snd e) (snd best) = true) ->
  exists before' after',
    (before ++ best :: after ++ rest)%list
    = (before' ++ fold_left pick_step rest best :: after')%list
    /\ (forall e, In e (before ++ best :: after ++ rest)%list ->
                  replace (snd (fold_left pick_step rest best)) (snd e) = false)
    /\ ((forall e, In e (before ++ best :: after ++ rest)%list -> is_number (snd e)) ->
        forall e, In e before' ->
                  replace (snd e) (snd (fold_left pick_step rest best)) = true).
Proof.
  revert before after best; induction rest as [|c rest IH]; intros before after best M F.
  - exists before, after; cbn [fold_left]; rewrite app_nil_r in *; auto.
  - cbn [fold_left]; destruct (replace (snd best) (snd c)) eqn:R.
    + destruct (IH (before ++ best :: after)%list [] c) as (b' & a' & E & M' & F').
      * intros e I; apply in_app_or in I; destruct I as [I|[<-|[]]];
          [|apply replace_irrefl].
        destruct (replace (snd c) (snd e)) eqn:Rc; [|reflexivity].
        pose proof (replace_trans _ _ _ R Rc) as T.
        rewrite (M e I) in T; discriminate T.
      * intros N e I.
        assert (N' : forall e, In e (before ++ best :: after ++ c :: rest)%list ->
                               is_number (snd e)).
        { intros e' I'; apply N; rewrite <- app_assoc; exact I'. }
        apply in_app_or in I; destruct I as [I|[<-|I]]; [|exact R|].
        -- apply (replace_trans _ (snd best)); [|exact R].
           apply F; [exact N' | exact I].
        -- apply (replace_le_trans _ (snd best)); [| | |exact R].
           ++ apply N'; apply in_or_app; right; right; apply in_or_app; left; exact I.
           ++ apply N'; apply in_or_app; right; left; reflexivity.
           ++ apply M; apply in_or_app; right; right; exact I.
      * exists b', a'; rewrite <- E, <- !app_assoc; cbn [app].
        rewrite <- !app_assoc in M', F'; cbn [app] in M', F'; auto.
    + destruct (IH before (after ++ [c])%list best) as (b' & a' & E & M' & F').
      * intros e I; apply in_app_or in I; destruct I as [I|[<-|I]].
        -- apply M; apply in_or_app; left; exact I.
        -- apply M; apply in_or_app; right; left; reflexivity.
        -- apply in_app_or in I; destruct I as [I|[<-|[]]]; [|exact R].
           apply M; apply in_or_app; right; right; exact I.
      * intros N; apply F; intros e I; apply N.
        rewrite <- app_assoc; exact I.
      * exists b', a'; rewrite <- E, <- !app_assoc; cbn [app].
        rewrite <- !app_assoc in M', F'; cbn [app] in M', F'; auto.
Qed.

Lemma pick_spec (d : dict K float) (kv : K * float) (rest : dict K float) :
  d = kv :: rest ->
  exists before after,
    d = (before ++ fold_left pick_step rest kv :: after)%list
    /\ (forall e, In e d -> replace (snd (fold_left pick_step rest kv)) (snd e) = false)
    /\ ((forall e, In e d -> is_number (snd e)) ->
        forall e, In e before -> replace (snd e) (snd (fold_left pick_step rest kv)) = true).
Proof.
  intros ->.
  destruct (pick_invariant rest [] [] kv) as (b & a & E & M & F).
  - intros e [<-|[]]; apply replace_irrefl.
  - intros _ e [].
  - exists b, a; cbn [app] in E, M, F; auto.
Qed.

End Pick.

Lemma max_key_spec {K : Type} (d : dict K float) (k : K) :
  max_key d = Ok k ->
  exists before v after,
    d = (before ++ (k, v) :: after)%list
    /\ (forall e, In e d -> (v <? snd e) = false)
    /\ ((forall e, In e d -> is_number (snd e)) ->
        forall e, In e before -> (snd e <? v) = true).
Proof.
  destruct d as [|kv rest]; [discriminate|]; cbn [max_key]; intro E.
  injection E as <-.
  destruct (pick_spec K (fun best cand => best <? cand) ltb_irrefl ltb_trans ltb_le_trans
              (kv :: rest) kv rest eq_refl) as (b & a & E & M & F).
  exists b, (snd (fold_left (fun best cand => if snd best <? snd cand then cand else best)
                            rest kv)), a.
  rewrite <- surjective_pairing; auto.
Qed.

Lemma min_key_spec {K : Type} (d : dict K float) (k : K) :
  min_key d = Ok k ->
  exists before v after,
    d = (before ++ (k, v) :: after)%list
    /\ (forall e, In e d -> (snd e <? v) = false)
    /\ ((forall e, In e d -> is_number (snd e)) ->
        forall e, In e before -> (v <? snd e) = true).
Proof.
  destruct d as [|kv rest]; [discriminate|]; cbn [min_key]; intro E.
  injection E as <-.
  destruct (pick_spec K (fun best cand => cand <? best) ltb_irrefl
              (fun x y z A B => ltb_trans z y x B A)
              (fun x y z Nx Ny A B => ltb_lt_le_trans x y z Nx Ny A B)
              (kv :: rest) kv rest eq_refl) as (b & a & E & M & F).
  exists b, (snd (fold_left (fun best cand => if snd cand <? snd best then cand else best)
                            rest kv)), a.
  rewrite <- surjective_pairing; auto.
Qed.

Lemma Forall2_In_left {A B : Type} (R : A -> B -> Prop) (l : list A) (l' : list B) (a : A) :
  Forall2 R l l' -> In a l -> exists b, In b l' /\ R a b.
Proof.
  induction 1 as [|a' b l l' Rab F IH]; [intros []|].
  intros [<-|I]; [exists b; split; [left; reflexivity | exact Rab]|].
  destruct (IH I) as (b' & Ib & Rb); exists b'; split; [right; exact Ib | exact Rb].
Qed.

Lemma day_values_entries (field : DailyRecord -> float) (data : table) (day : nat)
  (values : dict string float) :
  day_values field data day = Ok values ->
  Forall2 (fun (entry : string * list DailyRecord) (kv : string * float) =>
             exists r, nth_error (snd entry) day = Some r
                       /\ kv = (fst entry, field r))
          (candidates data) values.
Proof.
  unfold day_values; intro E; apply comprehension_Forall2 in E.
  apply (fun S => Forall2_impl_In _ _ _ _ S E); intros entry kv _ Er.
  apply bind_Ok in Er; destruct Er as (r & L & Er); injection Er as <-.
  exists r; split; [|reflexivity].
  unfold list_index in L; destruct (nth_error (snd entry) day); [|discriminate].
  injection L as ->; reflexivity.
Qed.

Section Leader.

Variable data : table.
Variable day : nat.
Variable values : dict string float.
Hypothesis computed : day_values change data day = Ok values.

(** The changes of the day among the entries [entries] of the table. *)
Abbreviation all_changes entries P :=
  (forall c records r, In (c, records) entries -> nth_error records day = Some r ->
                       P (change r)).

Lemma values_of_entries (entries : table) (part : dict string float) (P : float -> Prop) :
  Forall2 (fun (entry : string * list DailyRecord) (kv : string * float) =>
             exists r, nth_error (snd entry) day = Some r
                       /\ kv = (fst entry, change r))
          entries part ->
  (forall e, In e part -> P (snd e)) <-> all_changes entries P.
Proof.
  intro F; split.
  - intros A c records r I N.
    destruct (Forall2_In_left _ _ _ _ F I) as (kv & Ik & r' & N' & ->).
    cbn [snd] in N'; rewrite N in N'; injection N' as <-; exact (A _ Ik).
  - intros A kv Ik.
    destruct (Forall2_In_right _ _ _ _ F Ik) as ([c records] & I & r & N & ->).
    exact (A _ _ _ I N).
Qed.

Lemma leader_entry (before after : dict string float) (leader : string) (v : float) :
  values = (before ++ (leader, v) :: after)%list ->
  exists cb records ca r,
    candidates data = (cb ++ (leader, records) :: ca)%list
    /\ nth_error records day = Some r
    /\ change r = v
    /\ Forall2 (fun (entry : string * list DailyRecord) (kv : string * float) =>
                  exists r, nth_error (snd entry) day = Some r
                            /\ kv = (fst entry, change r))
               cb before.
Proof.
  intro E; pose proof (day_values_entries _ _ _ _ computed) as F.
  rewrite E in F; apply Forall2_app_inv_r in F.
  destruct F as (cb & cr & Fb & Fr & Ec).
  inversion Fr as [|[c records] kv ca va (r & N & Ek) Fa]; subst.
  cbn [fst snd] in N, Ek; injection Ek as E1 E2; subst c.
  exists cb, records, ca, r; auto.
Qed.

End Leader.

(** X7. (The leader 'highest' selects on a day is the first asset of the
    table, bitcoin apart, with the greatest change of that day: no asset has
    a change above the leader's, and, when no change of the day is NaN,
    every asset listed before the leader has a change below the leader's.
    The leader of 'lowest' is the first asset with the least change, in the
    same sense.) *)
Theorem leader_is_the_first_extreme (data : table) (v : float) (held : string)
  (day : nat) (v' : float) (leader : string) :
  (highest_day data (v, held) day = Ok (v', leader) ->
   exists before records after r,
     candidates data = (before ++ (leader, records) :: after)%list
     /\ nth_error records day = Some r
     /\ (forall c records' r',
            In (c, records') (candidates data) -> nth_error records' day = Some r' ->
            (change r <? change r') = false)
     /\ ((forall c records' r',
             In (c, records') (candidates data) -> nth_error records' day = Some r' ->
             is_number (change r')) ->
         forall c records' r',
           In (c, records') before -> nth_error records' day = Some r' ->
           (change r' <? change r) = true))
  /\ (lowest_day data (v, held) day = Ok (v', leader) ->
      exists before records after r,
        candidates data = (before ++ (leader, records) :: after)%list
        /\ nth_error records day = Some r
        /\ (forall c records' r',
               In (c, records') (candidates data) -> nth_error records' day = Some r' ->
               (change r' <? change r) = false)
        /\ ((forall c records' r',
                In (c, records') (candidates data) -> nth_error records' day = Some r' ->
                is_number (change r')) ->
            forall c records' r',
              In (c, records') before -> nth_error records' day = Some r' ->
              (change r <? change r') = true)).
Proof.
  split; intro E; [unfold highest_day in E | unfold lowest_day in E].
  - apply bind_Ok in E; destruct E as (values & DV & E).
    apply bind_Ok in E; destruct E as (prices & _ & E).
    apply bind_Ok in E; destruct E as (leader' & M & E).
    apply bind_Ok in E; destruct E as (v'' & _ & E); injection E as _ ->.
    apply max_key_spec in M; destruct M as (vb & x & va & Ev & Top & First).
    destruct (leader_entry data day values DV vb va leader x Ev)
      as (cb & records & ca & r & Ec & N & <- & Fb).
    pose proof (day_values_entries _ _ _ _ DV) as F.
    exists cb, records, ca, r; split; [exact Ec|]; split; [exact N|]; split.
    + apply (values_of_entries day _ _ (fun x => (change r <? x) = false) F), Top.
    + intro Num.
      apply (values_of_entries day _ _ (fun x => (x <? change r) = true) Fb), First.
      apply (values_of_entries day _ _ is_number F), Num.
  - apply bind_Ok in E; destruct E as (values & DV & E).
    apply bind_Ok in E; destruct E as (prices & _ & E).
    apply bind_Ok in E; destruct E as (leader' & M & E).
    apply bind_Ok in E; destruct E as (v'' & _ & E); injection E as _ ->.
    apply min_key_spec in M; destruct M as (vb & x & va & Ev & Top & First).
    destruct (leader_entry data day values DV vb va leader x Ev)
      as (cb & records & ca & r & Ec & N & <- & Fb).
    pose proof (day_values_entries _ _ _ _ DV) as F.
    exists cb, records, ca, r; split; [exact Ec|]; split; [exact N|]; split.
    + apply (values_of_entries day _ _ (fun x => (x <? change r) = false) F), Top.
    + intro Num.
      apply (values_of_entries day _ _ (fun x => (change r <? x) = true) Fb), First.
      apply (values_of_entries day _ _ is_number F), Num.
Qed.

Lemma leader_is_the_first_extreme_witness :
  exists before records after r,
    candidates Examples.nano_tron = (before ++ ("tron", records) :: after)%list
    /\ nth_error records 0 = Some r
    /\ (forall c records' r',
           In (c, records') (candidates Examples.nano_tron) ->
           nth_error records' 0 = Some r' ->
           (change r <? change r') = false)
    /\ ((forall c records' r',
            In (c, records') (candidates Examples.nano_tron) ->
            nth_error records' 0 = Some r' ->
            is_number (change r')) ->
        forall c records' r',
          In (c, records') before -> nth_error records' 0 = Some r' ->
          (change r' <? change r) = true).
Proof.
  apply (proj1 (leader_is_the_first_extreme Examples.nano_tron 100 "" 0 100 "tron")).
  vm_compute; reflexivity.
Defined.

(** ** invest.py: further results on the fetcher and on the month *)

Section FetchFacts.

Variable strftime : Z -> string.
Variable get_prices : string -> Z -> Z -> option (list (Z * float)).

Abbreviation formatted := (InvestFetch.formatted_data strftime).
Abbreviation fetch_all :=
  (InvestFetch.fetch_daily_weekly_percentage_changes_and_end_of_day_values
     strftime get_prices).

Lemma comprehension_Raise_inv {A B : Type} (f : A -> result B) (l : list A) (e : exn) :
  comprehension f l = Raise e -> exists a, In a l /\ f a = Raise e.
Proof.
  induction l as [|a l IH]; [discriminate|]; cbn [comprehension].
  destruct (f a) as [b|e'] eqn:Fa; cbn [bind].
  - destruct (comprehension f l) as [bs|e'] eqn:C; cbn [bind]; [discriminate|].
    intro E; injection E as ->.
    destruct (IH eq_refl) as (a' & I & R); exists a'; split; [right|]; assumption.
  - intro E; injection E as ->; exists a; split; [left; reflexivity | exact Fa].
Qed.

Lemma daily_change_outcome (samples : list float) (opening : float) :
  hd_error samples = Some opening ->
  if PrimFloat.eqb opening 0
  then daily_change samples = Raise ZeroDivisionError
  else exists percentage closing, daily_change samples = Ok (percentage, closing).
Proof.
  intro O; destruct (PrimFloat.eqb opening 0) eqn:Z;
    [|exact (daily_change_total samples opening O Z)].
  destruct samples as [|a samples]; [discriminate|]; injection O as ->.
  unfold daily_change; cbn [list_index nth_error bind].
  destruct (list_index_long (opening :: samples)
              (List.length (opening :: samples) - 1)) as (closing & L);
    [cbn [List.length]; lia|].
  unfold list_last; rewrite L; cbn [bind]; unfold Py.div; rewrite Z; reflexivity.
Qed.

Lemma item_opening (prices : list (Z * float)) (item : Z * list float) :
  In item (sorted_items (grouped prices)) ->
  exists opening, hd_error (snd item) = Some opening
                  /\ hd_error (day_samples (fst item) prices) = Some opening.
Proof.
  intro I; destruct (sorted_items_days prices) as ((_ & D) & S).
  pose proof (proj1 (D (fst item)) (in_map fst _ _ I)) as NE.
  apply day_samples_nonempty in NE; rewrite <- (S _ I) in *.
  destruct (snd item) as [|opening rest]; [contradiction NE; reflexivity|].
  exists opening; split; reflexivity.
Qed.

Lemma for_each_Raise_inv {A S : Type} (body : S -> A -> result S) (l : list A)
  (s : S) (e : exn) :
  for_each body l s = Raise e -> exists s' a, In a l /\ body s' a = Raise e.
Proof.
  revert s; induction l as [|a l IH]; intro s; [discriminate|]; cbn [for_each].
  destruct (body s a) as [s'|e'] eqn:B; cbn [bind].
  - intro E; destruct (IH _ E) as (s'' & a' & I & R); exists s'', a'.
    split; [right; exact I | exact R].
  - intro E; injection E as ->; exists s, a; split; [left; reflexivity | exact B].
Qed.

Lemma formatted_data_raises (prices : list (Z * float)) (e : exn) :
  formatted prices = Raise e <-> breaks prices e.
Proof.
  unfold InvestFetch.formatted_data, breaks.
  destruct (group_by_day prices) as [daily_data|e'] eqn:G; cbn [bind].
  - apply group_by_day_Ok in G; destruct G as (DT & ->); split.
    + intro E; apply comprehension_Raise_inv in E; destruct E as (item & I & E).
      destruct (item_opening prices item I) as (opening & O & O').
      pose proof (daily_change_outcome (snd item) opening O) as C.
      destruct (PrimFloat.eqb opening 0) eqn:Z.
      * rewrite C in E; injection E as <-; right; split; [reflexivity|].
        split; [exact DT|]; exists (fst item), opening; auto.
      * destruct C as (pc & closing & C); rewrite C in E; discriminate E.
    + intros [(_ & N)|(-> & _ & day & opening & O & Z)]; [contradiction|].
      assert (I : In (day, day_samples day prices) (sorted_items (grouped prices))).
      { apply (Permutation_in _ (Permutation_sym (sorted_items_Permutation _))).
        apply grouped_item; split; [reflexivity|].
        destruct (day_samples day prices); [discriminate O | discriminate]. }
      apply comprehension_raise.
      * intros item Ii; destruct (item_opening prices item Ii) as (o & Oi & _).
        pose proof (daily_change_outcome (snd item) o Oi) as C.
        destruct (PrimFloat.eqb o 0); [right; rewrite C; reflexivity|].
        destruct C as (pc & closing & ->); left; cbn [bind]; eauto.
      * exists (day, day_samples day prices); split; [exact I|]; cbn [snd].
        pose proof (daily_change_outcome _ opening O) as C; rewrite Z in C.
        rewrite C; reflexivity.
  - apply group_by_day_Raise in G; destruct G as (N & ->); split.
    + intro E; injection E as <-; left; auto.
    + intros [(-> & _)|(_ & DT & _)]; [reflexivity | contradiction].
Qed.

Lemma datable_dec (prices : list (Z * float)) : datable prices \/ ~ datable prices.
Proof.
  rewrite datable_forallb.
  destruct (forallb _ prices); [left; reflexivity | right; discriminate].
Qed.

Lemma clean_breaks (prices : list (Z * float)) :
  clean prices <-> forall e, ~ breaks prices e.
Proof.
  unfold clean, breaks; split.
  - intros (DT & NZ) e [(_ & N)|(_ & _ & Z)]; contradiction.
  - intro NB; destruct (datable_dec prices) as [DT|N].
    + split; [exact DT|]; intro Z; apply (NB ZeroDivisionError); right; auto.
    + exfalso; apply (NB TimestampError); left; auto.
Qed.

Lemma fetch_one_raises (start_date end_date : Z) (t : table) (crypto_id : string)
  (e : exn) :
  InvestFetch.fetch_one strftime get_prices start_date end_date t crypto_id = Raise e
  <-> exists prices, get_prices crypto_id start_date end_date = Some prices
                     /\ breaks prices e.
Proof.
  unfold InvestFetch.fetch_one.
  destruct (get_prices crypto_id start_date end_date) as [[|sample prices]|].
  - split; [discriminate|].
    intros (prices & E & B); injection E as <-; exfalso.
    destruct B as [(_ & N)|(_ & _ & day & opening & O & _)];
      [apply N; intros sample [] | discriminate O].
  - destruct (formatted (sample :: prices)) as [records|e'] eqn:F; cbn [bind].
    + split; [discriminate|]; intros (prices' & E & B); injection E as <-.
      apply formatted_data_raises in B; rewrite F in B; discriminate B.
    + apply formatted_data_raises in F; split.
      * intro E; injection E as <-; eauto.
      * intros (prices' & E & B); injection E as <-.
        destruct F as [(-> & N)|(-> & DT & _)], B as [(-> & N')|(-> & DT' & _)];
          try reflexivity; contradiction.
  - split; [discriminate | intros (prices & E & _); discriminate E].
Qed.

Lemma fetch_one_returns (start_date end_date : Z) (t : table) (crypto_id : string) :
  (exists t', InvestFetch.fetch_one strftime get_prices start_date end_date t crypto_id
              = Ok t')
  <-> forall prices, get_prices crypto_id start_date end_date = Some prices -> clean prices.
Proof.
  split.
  - intros (t' & E) prices G; apply clean_breaks; intros e B.
    assert (R : InvestFetch.fetch_one strftime get_prices start_date end_date t crypto_id
                = Raise e) by (apply fetch_one_raises; eauto).
    rewrite E in R; discriminate R.
  - intro C.
    destruct (InvestFetch.fetch_one strftime get_prices start_date end_date t crypto_id)
      as [t'|e] eqn:E; [eauto|].
    apply fetch_one_raises in E; destruct E as (prices & G & B).
    exfalso; exact (proj1 (clean_breaks prices) (C prices G) e B).
Qed.

(** X8. (The fetcher of invest.py raises exactly when the API returned, for
    one of the asset ids, prices with a timestamp that is of no day of the
    years 1 to 9999, or prices of which some calendar day opens at a zero
    price.  The exception is that of the first such id in the order of the
    ids: the exception of [utcfromtimestamp] when one of its timestamps has
    no date, [ZeroDivisionError] otherwise; the handler of request failures
    catches neither.  A failed request or an empty price list never makes the
    fetcher raise.) *)
Theorem fetch_raises_on_unusable_prices
  (crypto_ids : list string) (start_date end_date : Z) (e : exn) :
  fetch_all crypto_ids start_date end_date = Raise e
  <-> exists before crypto after prices,
        crypto_ids = (before ++ crypto :: after)%list
        /\ (forall c p, In c before -> get_prices c start_date end_date = Some p -> clean p)
        /\ get_prices crypto start_date end_date = Some prices
        /\ breaks prices e.
Proof.
  unfold InvestFetch.fetch_daily_weekly_percentage_changes_and_end_of_day_values.
  generalize (@nil (string * list DailyRecord)) as t.
  induction crypto_ids as [|c ids IH]; intro t; cbn [for_each].
  - split; [discriminate|].
    intros (before & crypto & after & prices & E & _); destruct before; discriminate E.
  - destruct (InvestFetch.fetch_one strftime get_prices start_date end_date t c)
      as [t'|e'] eqn:F; cbn [bind].
    + pose proof (proj1 (fetch_one_returns start_date end_date t c)
                    (ex_intro _ t' F)) as C.
      rewrite IH; split.
      * intros (before & crypto & after & prices & -> & Cb & G & B).
        exists (c :: before), crypto, after, prices.
        split; [reflexivity|]; split; [|auto].
        intros c' p [<-|I] Gp; [exact (C p Gp) | exact (Cb c' p I Gp)].
      * intros (before & crypto & after & prices & E & Cb & G & B).
        destruct before as [|c' before]; cbn [app] in E; injection E as <- ->.
        -- exfalso; exact (proj1 (clean_breaks prices) (C prices G) e B).
        -- exists before, crypto, after, prices.
           split; [reflexivity|]; split; [|auto].
           intros c'' p I Gp; exact (Cb c'' p (or_intror I) Gp).
    + split.
      * intro E; injection E as <-.
        apply fetch_one_raises in F; destruct F as (prices & G & B).
        exists [], c, ids, prices; split; [reflexivity|]; split; [intros ? ? []|auto].
      * intros (before & crypto & after & prices & E & Cb & G & B).
        destruct before as [|c' before]; cbn [app] in E; injection E as <- ->.
        -- assert (R : InvestFetch.fetch_one strftime get_prices start_date end_date t c
                       = Raise e) by (apply fetch_one_raises; eauto).
           rewrite F in R; exact R.
        -- exfalso.
           destruct (proj2 (fetch_one_returns start_date end_date t c)
                       (fun p Gp => Cb c p (or_introl eq_refl) Gp)) as (t' & R).
           rewrite F in R; discriminate R.
Qed.

Lemma dict_extend_fresh {K V : Type} `{Key K} (d : dict K (list V)) (k : K)
  (vs : list V) :
  ~ In k (map fst d) -> dict_extend d k vs = (d ++ [(k, vs)])%list.
Proof.
  induction d as [|[k' old] d IH]; cbn [dict_extend map fst app]; intro N;
    [reflexivity|].
  rewrite keqb_neq by (intro E; apply N; left; exact E).
  rewrite IH by (intro I; apply N; right; exact I); reflexivity.
Qed.

Lemma formatted_data_nonempty (prices : list (Z * float)) (records : list DailyRecord) :
  prices <> [] -> formatted prices = Ok records -> records <> [].
Proof.
  intros NE F; apply formatted_data_spec in F; destruct F as (days & (_ & D) & F2).
  destruct prices as [|sample prices]; [contradiction|].
  assert (I : In (utc_day (fst sample)) days)
    by (apply D; exists sample; split; [left|]; reflexivity).
  intros ->; inversion F2; subst; destruct I.
Qed.

Lemma fetch_loop_contents (start_date end_date : Z) (ids : list string) (t0 t : table) :
  NoDup ids ->
  (forall c, In c ids -> ~ In c (map fst t0)) ->
  for_each (InvestFetch.fetch_one strftime get_prices start_date end_date) ids t0 = Ok t ->
  exists new,
    t = (t0 ++ new)%list
    /\ map fst new = filter (has_prices get_prices start_date end_date) ids
    /\ forall c records,
         In (c, records) new ->
         records <> []
         /\ exists prices, get_prices c start_date end_date = Some prices
                           /\ formatted prices = Ok records.
Proof.
  revert t0; induction ids as [|c ids IH]; intros t0 N D E; cbn [for_each] in E.
  - injection E as <-; exists []; rewrite app_nil_r.
    split; [reflexivity|]; split; [reflexivity | intros ? ? []].
  - inversion N as [|? ? Nc N']; subst.
    apply bind_Ok in E; destruct E as (t1 & F & E).
    unfold InvestFetch.fetch_one in F; cbn [filter]; unfold has_prices at 1.
    destruct (get_prices c start_date end_date) as [[|sample prices]|] eqn:G.
    + injection F as <-.
      apply IH in E; [exact E | exact N' | intros c' I; apply D; right; exact I].
    + apply bind_Ok in F; destruct F as (records & F & E1); injection E1 as <-.
      rewrite (dict_extend_fresh t0 c records) in E
        by (apply D; left; reflexivity).
      apply IH in E; [|exact N'|].
      * destruct E as (new & -> & Keys & Each).
        exists ((c, records) :: new); rewrite <- app_assoc; cbn [app map fst].
        split; [reflexivity|]; split; [rewrite Keys; reflexivity|].
        intros c' records' [J|J]; [|exact (Each _ _ J)].
        injection J as <- <-; split;
          [apply (formatted_data_nonempty (sample :: prices)); [discriminate | exact F]|].
        exists (sample :: prices); auto.
      * intros c' I; rewrite map_app; cbn [map fst]; intro J.
        apply in_app_or in J; destruct J as [J|[<-|[]]];
          [exact (D c' (or_intror I) J) | exact (Nc I)].
    + injection F as <-.
      apply IH in E; [exact E | exact N' | intros c' I; apply D; right; exact I].
Qed.

(** X9. (For distinct asset ids, the table the fetcher of invest.py returns
    lists, in the order of the ids, exactly the assets whose request brought
    at least one price sample; an asset whose request failed or brought no
    price is absent.  The records of each asset listed are the daily records
    of the prices returned for it, and there is at least one.) *)
Theorem fetched_table_contents
  (crypto_ids : list string) (start_date end_date : Z) (fetched : table) :
  NoDup crypto_ids ->
  fetch_all crypto_ids start_date end_date = Ok fetched ->
  map fst fetched = filter (has_prices get_prices start_date end_date) crypto_ids
  /\ forall crypto records,
       In (crypto, records) fetched ->
       records <> []
       /\ exists prices, get_prices crypto start_date end_date = Some prices
                         /\ formatted prices = Ok records.
Proof.
  intros N E.
  destruct (fetch_loop_contents start_date end_date crypto_ids [] fetched N) as
    (new & -> & Keys & Each); [intros c _ [] | exact E | auto].
Qed.

End FetchFacts.

Lemma fetched_table_contents_witness :
  map fst [ ("nano", [ {| date := "Mon 01 Jan 2024"; change := 10; end_of_day_value := 110 |};
                       {| date := "Tue 02 Jan 2024"; change := -10; end_of_day_value := 99 |} ]) ]
  = filter (has_prices
              (fun crypto _ _ =>
                 if (crypto =? "nano")%string then Some Examples.two_days_of_prices
                 else if (crypto =? "tron")%string then Some [] else None)
              19723 19729)
           ["monero"; "nano"; "tron"]
  /\ forall crypto records,
       In (crypto, records)
          [ ("nano", [ {| date := "Mon 01 Jan 2024"; change := 10; end_of_day_value := 110 |};
                       {| date := "Tue 02 Jan 2024"; change := -10; end_of_day_value := 99 |} ]) ] ->
       records <> []
       /\ exists prices,
            (fun crypto (_ _ : Z) =>
               if (crypto =? "nano")%string then Some Examples.two_days_of_prices
               else if (crypto =? "tron")%string then Some [] else None)
              crypto 19723%Z 19729%Z = Some prices
            /\ InvestFetch.formatted_data Calendar.strftime prices = Ok records.
Proof.
  apply (fetched_table_contents Calendar.strftime
           (fun crypto _ _ =>
              if (crypto =? "nano")%string then Some Examples.two_days_of_prices
              else if (crypto =? "tron")%string then Some [] else None)
           ["monero"; "nano"; "tron"] 19723 19729).
  - repeat constructor; cbn; intuition discriminate.
  - vm_compute; reflexivity.
Defined.

Example fetcher_stops_on_unusable_prices :
  InvestFetch.fetch_daily_weekly_percentage_changes_and_end_of_day_values
    Calendar.strftime
    (fun crypto _ _ =>
       if (crypto =? "nano")%string then Some [ (253402300800000%Z, 1) ] else None)
    ["monero"; "nano"] 19723 19729
  = Raise TimestampError
  /\ InvestFetch.fetch_daily_weekly_percentage_changes_and_end_of_day_values
       Calendar.strftime
       (fun crypto _ _ =>
          if (crypto =? "nano")%string
          then Some [ (1704067200000%Z, 0); (1704100000000%Z, 5) ] else None)
       ["monero"; "nano"] 19723 19729
     = Raise ZeroDivisionError
  /\ Daily.date_of_timestamp 253402300799999 = Ok 2932896%Z
  /\ Daily.date_of_timestamp (-62135596800000) = Ok (-719162)%Z
  /\ Daily.date_of_timestamp (-62135596800001) = Raise TimestampError.
Proof. repeat split; vm_compute; reflexivity. Qed.

Section MonthFacts.
Import InvestFetch.

Variable strftime : Z -> string.
Variable get_prices : string -> Z -> Z -> option (list (Z * float)).

Abbreviation fetch_week :=
  (fetch_daily_weekly_percentage_changes_and_end_of_day_values strftime get_prices).
Abbreviation simulate := (simulate_weekly_investments strftime get_prices).

Lemma chosen_cases (strategy : string) :
  chosen strategy = (fun data initial_btc days =>
                       highest_change_trading_strategy data initial_btc days "")
  \/ chosen strategy = (fun data initial_btc days =>
                          lowest_change_trading_strategy data initial_btc days "")
  \/ chosen strategy = catch_the_wave_strategy.
Proof.
  unfold chosen, strategy_functions; cbn [dict_get keqb string_Key].
  destruct ("highest" =? strategy)%string; [auto|].
  destruct ("lowest" =? strategy)%string; [auto|].
  destruct ("wave" =? strategy)%string; auto.
Qed.

Lemma simulate_unfold (crypto_ids : list string) (start_of_month : Z) (seed : float)
  (strategy : string) :
  simulate crypto_ids start_of_month seed strategy
  = (state <- for_each (simulate_week strftime get_prices crypto_ids seed (chosen strategy))
                [0; 1; 2; 3]%nat (0, start_of_month) ;;
     Ok ({| total_portfolio_value := fst state; profit := fst state - seed * 4 |}, None)).
Proof. reflexivity. Qed.

(** X5. (When some asset of the table other than bitcoin has fewer than
    [days] daily records, each strategy raises [IndexError]: the run goes
    through the days every such asset has and stops at the first day one of
    them lacks.  In [simulate_weekly_investments] a week whose table has such
    an asset, with fewer than seven records, is not skipped: once the loop
    reaches it the whole month ends with [IndexError], whatever the
    strategy.) *)
Theorem short_table_raises_IndexError
  (data : table) (crypto : string) (records : list DailyRecord) (days : Z) :
  In (crypto, records) (candidates data) ->
  (List.length records < Z.to_nat days)%nat ->
  (forall v t,
      highest_change_trading_strategy data v days t = Raise IndexError
      /\ lowest_change_trading_strategy data v days t = Raise IndexError
      /\ catch_the_wave_strategy data v days = Raise IndexError)
  /\ (days = 7%Z ->
      forall crypto_ids start_of_month seed strategy week total current_date,
        (week < 4)%nat ->
        for_each (simulate_week strftime get_prices crypto_ids seed (chosen strategy))
          (seq 0 week) (0, start_of_month) = Ok (total, current_date) ->
        fetch_week crypto_ids current_date (current_date + 6)%Z = Ok data ->
        simulate crypto_ids start_of_month seed strategy = Raise IndexError).
Proof.
  intros I L; split.
  - intros v t; exact (short_table_stops_the_strategies data v days t crypto records I L).
  - intros -> crypto_ids start_of_month seed strategy week total current_date Hw R F.
    rewrite simulate_unfold.
    change [0; 1; 2; 3]%nat with (seq 0 4).
    replace 4%nat with (week + S (3 - week))%nat by lia.
    rewrite seq_app, for_each_app, R; cbn [bind plus seq for_each].
    unfold simulate_week at 1; rewrite F; cbn [bind].
    destruct data as [|entry data]; [destruct I|].
    pose proof (short_table_stops_the_strategies (entry :: data) seed 7 "" crypto records I L)
      as (H & Lo & W).
    destruct (chosen_cases strategy) as [E|[E|E]]; rewrite E; cbn beta;
      [rewrite H | rewrite Lo | rewrite W]; reflexivity.
Qed.

(** X10. (Every week is simulated over seven days from the weekly seed, not
    from the outcome of the week before, on the table fetched for the seven
    days from the week's start; the weeks start 0, 7, 14 and 21 days after the
    start of the month.  The total the run prints is the sum, from 0 and in
    the order of the weeks, of the values of the weeks whose table is not
    empty, the profit is that total minus four times the seed, and the call
    evaluates to [None].) *)
Theorem month_total
  (crypto_ids : list string) (start_of_month : Z) (seed : float) (strategy : string)
  (tables : Z -> table) (values : Z -> float) :
  (forall week, (0 <= week < 4)%Z ->
     fetch_week crypto_ids (start_of_month + 7 * week)%Z (start_of_month + 7 * week + 6)%Z
     = Ok (tables week)) ->
  (forall week, (0 <= week < 4)%Z -> tables week <> [] ->
     chosen strategy (tables week) seed 7%Z = Ok (values week)) ->
  simulate crypto_ids start_of_month seed strategy
  = Ok ({| total_portfolio_value :=
             add_week tables values 3
               (add_week tables values 2
                  (add_week tables values 1 (add_week tables values 0 0)));
           profit :=
             add_week tables values 3
               (add_week tables values 2
                  (add_week tables values 1 (add_week tables values 0 0)))
             - seed * 4 |}, None).
Proof.
  intros F V; rewrite simulate_unfold.
  assert (W : forall (k : Z) (week : nat) (total : float), (0 <= k < 4)%Z ->
              simulate_week strftime get_prices crypto_ids seed (chosen strategy)
                (total, (start_of_month + 7 * k)%Z) week
              = Ok (add_week tables values k total, (start_of_month + 7 * (k + 1))%Z)).
  { intros k week total Hk; unfold simulate_week, add_week.
    rewrite (F k Hk); cbn [bind].
    destruct (tables k) as [|entry rest] eqn:T; [do 2 f_equal; lia|].
    rewrite <- T, (V k Hk) by (rewrite T; discriminate); cbn [bind].
    do 2 f_equal; lia. }
  replace start_of_month with (start_of_month + 7 * 0)%Z at 1 by lia.
  cbn [for_each].
  rewrite W by lia; cbn [bind Z.add Pos.add Pos.succ].
  rewrite W by lia; cbn [bind Z.add Pos.add Pos.succ].
  rewrite W by lia; cbn [bind Z.add Pos.add Pos.succ].
  rewrite W by lia; cbn [bind fst].
  reflexivity.
Qed.

(** X11. (A strategy name other than 'lowest' and 'wave', whatever its
    spelling, runs the month with the 'highest' strategy.) *)
Theorem unknown_strategy_runs_highest
  (crypto_ids : list string) (start_of_month : Z) (seed : float) (strategy : string) :
  strategy <> "lowest" -> strategy <> "wave" ->
  simulate_weekly_investments strftime get_prices crypto_ids start_of_month seed strategy
  = simulate_weekly_investments strftime get_prices crypto_ids start_of_month seed "highest".
Proof.
  intros NL NW; rewrite !simulate_unfold.
  replace (chosen strategy) with (chosen "highest"); [reflexivity|].
  unfold chosen, strategy_functions; cbn [dict_get keqb string_Key].
  destruct ("highest" =? strategy)%string; [reflexivity|].
  rewrite (proj2 (String.eqb_neq "lowest" strategy)) by congruence.
  rewrite (proj2 (String.eqb_neq "wave" strategy)) by congruence.
  reflexivity.
Qed.

End MonthFacts.

Lemma short_table_raises_IndexError_witness :
  highest_change_trading_strategy Examples.nano_tron 100 7 "" = Raise IndexError
  /\ lowest_change_trading_strategy Examples.nano_tron 100 7 "" = Raise IndexError
  /\ catch_the_wave_strategy Examples.nano_tron 100 7 = Raise IndexError.
Proof.
  apply (short_table_raises_IndexError Calendar.strftime (fun _ _ _ => None)
           Examples.nano_tron "nano"
           [ {| date := "Mon 01 Jan 2024"; change := 1; end_of_day_value := 1 |};
             {| date := "Tue 02 Jan 2024"; change := 5; end_of_day_value := 1.05 |} ] 7).
  - left; reflexivity.
  - cbn; lia.
Defined.

Example first_week_of_nano_value :
  highest_change_trading_strategy (Samples.january_tables 0) 100 7 ""
  = Ok 99.401498001499419.
Proof. vm_compute; reflexivity. Qed.

Lemma month_total_witness :
  InvestFetch.simulate_weekly_investments Calendar.strftime Samples.first_week_of_nano
    ["nano"] 19723 100 "highest"
  = Ok ({| InvestFetch.total_portfolio_value := 99.401498001499419;
           InvestFetch.profit := 99.401498001499419 - 100 * 4 |}, None).
Proof.
  apply (month_total Calendar.strftime Samples.first_week_of_nano
           ["nano"] 19723 100 "highest"
           Samples.january_tables (fun _ => 99.401498001499419)).
  - intros week Hw.
    assert (C : (week = 0 \/ week = 1 \/ week = 2 \/ week = 3)%Z) by lia.
    destruct C as [E|[E|[E|E]]]; subst week; vm_compute; reflexivity.
  - intros week Hw NE.
    assert (C : (week = 0 \/ week = 1 \/ week = 2 \/ week = 3)%Z) by lia.
    destruct C as [E|[E|[E|E]]]; subst week; try (contradiction NE; reflexivity).
    vm_compute; reflexivity.
Defined.

Lemma unknown_strategy_runs_highest_witness :
  InvestFetch.simulate_weekly_investments Calendar.strftime Samples.first_week_of_nano
    ["nano"] 19723 100 "momentum"
  = InvestFetch.simulate_weekly_investments Calendar.strftime Samples.first_week_of_nano
      ["nano"] 19723 100 "highest".
Proof.
  apply (unknown_strategy_runs_highest Calendar.strftime Samples.first_week_of_nano
           ["nano"] 19723 100 "momentum"); discriminate.
Defined.

(** ** The ranges the fetchers of cryptolog.py and crypto_recommendation.py request *)

Import Clock.

Lemma weekday_bounds (datetime : Z) : (0 <= weekday datetime < 7)%Z.
Proof. unfold weekday; apply Z.mod_pos_bound; lia. Qed.

Lemma weekday_shift (datetime n : Z) :
  weekday (datetime - days n) = ((weekday datetime - n) mod 7)%Z.
Proof.
  unfold weekday, days.
  replace (datetime - n * 86400)%Z with (datetime + (- n) * 86400)%Z by lia.
  rewrite Z.div_add by lia.
  rewrite Zminus_mod_idemp_l; f_equal; lia.
Qed.

(** X12. (The bounds of the requests of [fetch_weekly_percentage_changes],
    as the naive datetimes the function computes from [utcnow()]: whatever
    the time of the call and the week, [last_monday] is a Monday and
    [last_sunday] the Sunday six days after it; [last_sunday] of the first
    week is the time of the call moved back by a whole number of days, from
    one to seven, and seven exactly when the call is on a Sunday; the bounds
    of each further week are those of the week before it moved back seven
    days.  The request carries the timestamps of these datetimes as the
    local time of the host reads them; the statement is about the datetimes,
    not about that reading.) *)
Theorem cryptolog_weeks_run_monday_to_sunday (today : Z) (week : nat) :
  weekday (CryptologFetch.last_monday today week) = 0%Z
  /\ weekday (CryptologFetch.last_sunday today week) = 6%Z
  /\ CryptologFetch.last_sunday today week
     = (CryptologFetch.last_monday today week + days 6)%Z
  /\ (exists n, (1 <= n <= 7)%Z
                /\ CryptologFetch.last_sunday today 0 = (today - days n)%Z
                /\ (n = 7%Z <-> weekday today = 6%Z))
  /\ CryptologFetch.last_sunday today (S week)
     = (CryptologFetch.last_sunday today week - days 7)%Z
  /\ CryptologFetch.last_monday today (S week)
     = (CryptologFetch.last_monday today week - days 7)%Z.
Proof.
  pose proof (weekday_bounds today) as B.
  assert (S : weekday (CryptologFetch.last_sunday today week) = 6%Z).
  { unfold CryptologFetch.last_sunday; rewrite !weekday_shift.
    rewrite Zminus_mod_idemp_l.
    replace (weekday today - (weekday today + 1) - 7 * Z.of_nat week)%Z
      with (6 + (- 1 - Z.of_nat week) * 7)%Z by lia.
    rewrite Z.mod_add by lia; reflexivity. }
  split; [|split; [exact S|]].
  - unfold CryptologFetch.last_monday; rewrite weekday_shift, S; reflexivity.
  - unfold CryptologFetch.last_monday, CryptologFetch.last_sunday, days.
    split; [lia|]; split; [|split; lia].
    exists (weekday today + 1)%Z; repeat split; lia.
Qed.

(** X13. (The bounds of the request of the fetcher of
    crypto_recommendation.py, as the naive datetimes the function computes
    from [utcnow()]: [start_date] is a Wednesday, the time of the call moved
    back by a whole number of days from none to six, and it is the time of
    the call itself exactly when the call is on a Wednesday; both bounds of
    the request are then the same datetime.  The request carries the
    timestamps of the two datetimes as the local time of the host reads
    them; the statement is about the datetimes, not about that reading.) *)
Theorem recommendation_range_starts_on_wednesday (today : Z) :
  weekday (Recommendation.start_date today) = 2%Z
  /\ (exists n, (0 <= n <= 6)%Z /\ Recommendation.start_date today = (today - days n)%Z)
  /\ (weekday today = 2%Z <-> Recommendation.start_date today = today).
Proof.
  pose proof (weekday_bounds today) as B.
  unfold Recommendation.start_date, Recommendation.days_since_last_wednesday.
  pose proof (Z.mod_pos_bound (weekday today - 2) 7 ltac:(lia)) as M.
  split; [|split].
  - rewrite weekday_shift.
    rewrite (Z.mod_eq (weekday today - 2) 7) by lia.
    replace (weekday today - (weekday today - 2 - 7 * ((weekday today - 2) / 7)))%Z
      with (2 + ((weekday today - 2) / 7) * 7)%Z by lia.
    rewrite Z.mod_add by lia; reflexivity.
  - exists ((weekday today - 2) mod 7)%Z; split; [lia | reflexivity].
  - unfold days; split.
    + intros ->; cbn; lia.
    + intro E.
      assert (Z0 : ((weekday today - 2) mod 7 = 0)%Z) by lia.
      apply Z.mod_divide in Z0; [|lia]; destruct Z0 as (q & Q); lia.
Qed.

(** ** cryptolog.py: the table of the fetcher *)

Section CryptologFacts.
Import CryptologFetch.

Variable strftime : Z -> string.
Variable get_prices : string -> Z -> Z -> option (list (Z * float)).
Variable today : Z.

Abbreviation contribution := (week_changes strftime get_prices today).

Lemma formatted_changes_nonempty (prices : list (Z * float))
  (changes : list Cryptolog.DailyChange) :
  prices <> [] -> Cryptolog.formatted_changes strftime prices = Ok changes ->
  changes <> [].
Proof.
  intros NE F; apply formatted_changes_spec in F; destruct F as (days & (_ & D) & F2).
  destruct prices as [|sample prices]; [contradiction|].
  assert (I : In (utc_day (fst sample)) days)
    by (apply D; exists sample; split; [left|]; reflexivity).
  intros ->; inversion F2; subst; destruct I.
Qed.

Lemma cryptolog_fetch_one_get (week : nat)
  (t t' : dict string (list Cryptolog.DailyChange)) (c k : string) :
  fetch_one strftime get_prices (last_monday today week) (last_sunday today week) t c
  = Ok t' ->
  dict_get k t' = if (c =? k)%string then append_opt (dict_get k t) (contribution c week)
                  else dict_get k t.
Proof.
  unfold fetch_one, week_changes.
  destruct (get_prices c (last_monday today week) (last_sunday today week))
    as [[|sample prices]|].
  - intro E; injection E as <-; destruct (c =? k)%string; reflexivity.
  - intro E; apply bind_Ok in E; destruct E as (changes & F & E); injection E as <-.
    rewrite F, dict_get_extend; cbn [keqb string_Key].
    destruct (c =? k)%string; [|reflexivity].
    assert (NE : changes <> [])
      by (apply (formatted_changes_nonempty (sample :: prices)); [discriminate | exact F]).
    destruct changes; [contradiction | reflexivity].
  - intro E; injection E as <-; destruct (c =? k)%string; reflexivity.
Qed.

Lemma cryptolog_fetch_week_get (week : nat) (ids : list string)
  (t t' : dict string (list Cryptolog.DailyChange)) (k : string) :
  NoDup ids ->
  fetch_week strftime get_prices today ids t week = Ok t' ->
  (In k ids -> dict_get k t' = append_opt (dict_get k t) (contribution k week))
  /\ (~ In k ids -> dict_get k t' = dict_get k t).
Proof.
  unfold fetch_week; revert t; induction ids as [|c ids IH]; intros t N E;
    cbn [for_each] in E.
  - injection E as <-; split; [intros [] | reflexivity].
  - inversion N as [|? ? Nc N']; subst.
    apply bind_Ok in E; destruct E as (t1 & F & E).
    destruct (IH t1 N' E) as (Iin & Iout).
    pose proof (cryptolog_fetch_one_get week t t1 c k F) as G.
    destruct (String.eqb_spec c k) as [->|Nk]; split.
    + intros _; rewrite (Iout Nc); exact G.
    + intro A; contradiction A; left; reflexivity.
    + intros [A|A]; [contradiction|]; rewrite (Iin A), G; reflexivity.
    + intro A; rewrite Iout, G; [reflexivity | intro B; apply A; right; exact B].
Qed.

Lemma append_opt_concat {R : Type} (parts : list (list R)) (listed : option (list R)) :
  fold_left append_opt parts listed
  = match listed with
    | Some old => Some (old ++ List.concat parts)%list
    | None => match List.concat parts with [] => None | l => Some l end
    end.
Proof.
  revert listed; induction parts as [|part parts IH]; intro listed; cbn [fold_left List.concat].
  - destruct listed; [rewrite app_nil_r|]; reflexivity.
  - rewrite IH; destruct part as [|r part]; cbn [append_opt app]; [reflexivity|].
    destruct listed as [old|]; [rewrite <- app_assoc|]; reflexivity.
Qed.

Lemma cryptolog_fetch_weeks_get (weeks : list nat) (ids : list string)
  (t t' : dict string (list Cryptolog.DailyChange)) (k : string) :
  NoDup ids ->
  for_each (fetch_week strftime get_prices today ids) weeks t = Ok t' ->
  (In k ids ->
   dict_get k t' = fold_left append_opt (map (contribution k) weeks) (dict_get k t))
  /\ (~ In k ids -> dict_get k t' = dict_get k t).
Proof.
  intro N; revert t; induction weeks as [|week weeks IH]; intros t E; cbn [for_each] in E.
  - injection E as <-; split; reflexivity.
  - apply bind_Ok in E; destruct E as (t1 & F & E).
    destruct (IH t1 E) as (Iin & Iout).
    destruct (cryptolog_fetch_week_get week ids t t1 k N F) as (Win & Wout).
    split; intro A; [rewrite (Iin A), (Win A) | rewrite (Iout A), (Wout A)]; reflexivity.
Qed.

(** X14. (For distinct asset ids, the table [fetch_weekly_percentage_changes]
    returns lists for each id the daily changes of its weeks one after the
    other in the order of the loop, the most recent week first and each
    earlier week after it, so that over two weeks or more the changes of an
    asset are not in the order of their dates; an id none of whose weeks
    brought a price, and every other name, is absent from the table.) *)
Theorem cryptolog_lists_the_latest_week_first
  (crypto_ids : list string) (num_weeks : Z)
  (fetched : dict string (list Cryptolog.DailyChange)) (crypto : string) :
  NoDup crypto_ids ->
  fetch_weekly_percentage_changes strftime get_prices today crypto_ids num_weeks
  = Ok fetched ->
  (In crypto crypto_ids ->
   dict_get crypto fetched
   = match List.concat (map (contribution crypto) (range num_weeks)) with
     | [] => None
     | changes => Some changes
     end)
  /\ (~ In crypto crypto_ids -> dict_get crypto fetched = None).
Proof.
  intros N E; unfold fetch_weekly_percentage_changes in E.
  destruct (cryptolog_fetch_weeks_get (range num_weeks) crypto_ids [] fetched crypto N E)
    as (Iin & Iout).
  split; intro A; [|exact (Iout A)].
  rewrite (Iin A), append_opt_concat; reflexivity.
Qed.

End CryptologFacts.

Lemma cryptolog_lists_the_latest_week_first_witness :
  dict_get "nano" Samples.two_mondays
  = match List.concat
            (map (week_changes Calendar.strftime Samples.opening_sample
                    (19739 * 86400 + 43200) "nano")
                 (range 2)) with
    | [] => None
    | changes => Some changes
    end.
Proof.
  apply (proj1 (cryptolog_lists_the_latest_week_first
                  Calendar.strftime Samples.opening_sample (19739 * 86400 + 43200)
                  ["nano"; "tron"] 2 Samples.two_mondays "nano"
                  ltac:(repeat constructor; cbv [In]; intuition discriminate)
                  ltac:(vm_compute; reflexivity))).
  left; reflexivity.
Defined.

(** ** crypto_recommendation.py: the three-day selector *)

Section ThreeDayFacts.
Import Recommendation.

Variable strptime : string -> option Z.
Variable today : Z.

Abbreviation three := (today - 3)%Z.
Abbreviation scan_one := (scan_entry strptime three).
Abbreviation scan_item := (scan_asset strptime three).

Lemma scan_entries_spec (records : list DailyRecord)
  (prior0 latest0 : option float) (recent0 : option Z)
  (prior latest : option float) (recent : option Z) :
  for_each scan_one records (prior0, latest0, recent0) = Ok (prior, latest, recent) ->
  (forall r d, In r records -> strptime (date r) = Some d ->
               exists m, recent = Some m /\ (d <= m)%Z)
  /\ (forall m0, recent0 = Some m0 -> exists m, recent = Some m /\ (m0 <= m)%Z)
  /\ (prior = prior0 \/ exists r, In r records /\ strptime (date r) = Some three)
  /\ (latest = latest0
      \/ exists r d, In r records /\ strptime (date r) = Some d
                     /\ forall m0, recent0 = Some m0 -> (m0 < d)%Z).
Proof.
  revert prior0 latest0 recent0; induction records as [|e records IH];
    intros prior0 latest0 recent0 E; cbn [for_each] in E.
  - injection E as <- <- <-; split; [intros r d []|].
    split; [intros m0 ->; exists m0; split; [reflexivity | lia]|].
    split; left; reflexivity.
  - apply bind_Ok in E; destruct E as ([[prior1 latest1] recent1] & S & E).
    unfold scan_entry in S.
    destruct (strptime (date e)) as [d|] eqn:P; [|discriminate].
    destruct (IH _ _ _ E) as (R1 & R2 & R3 & R4); clear IH E.
    assert (M : exists m1, recent1 = Some m1 /\ (d <= m1)%Z
                           /\ (forall m0, recent0 = Some m0 -> (m0 <= m1)%Z)
                           /\ (latest1 = latest0
                               \/ forall m0, recent0 = Some m0 -> (m0 < d)%Z)
                           /\ (prior1 = prior0 \/ d = three)).
    { assert (T : prior1 = (if (d =? three)%Z then Some (end_of_day_value e) else prior0)
                  -> prior1 = prior0 \/ d = three).
      { intros ->; destruct (Z.eqb_spec d three); auto. }
      destruct recent0 as [m0|].
      - destruct (Z.ltb_spec m0 d); injection S as S1 S2 S3; subst latest1 recent1.
        + exists d; repeat split; [lia | intros ? [= <-]; lia | | auto].
          right; intros ? [= <-]; lia.
        + exists m0; repeat split; [lia | intros ? [= <-]; lia | auto | auto].
      - injection S as S1 S2 S3; subst latest1 recent1.
        exists d; repeat split; [lia | discriminate | | auto].
        right; discriminate. }
    destruct M as (m1 & -> & Ld & L0 & L & T).
    destruct (R2 m1 eq_refl) as (m & -> & Lm).
    split; [|split; [|split]].
    + intros r d' [<-|I] P'; [|exact (R1 _ _ I P')].
      rewrite P in P'; injection P' as <-; exists m; split; [reflexivity | lia].
    + intros m0 E0; exists m; split; [reflexivity | specialize (L0 _ E0); lia].
    + destruct R3 as [->|(r & I & P')]; [|right; exists r; split; [right|]; assumption].
      destruct T as [->| ->]; [left; reflexivity|].
      right; exists e; split; [left; reflexivity | exact P].
    + destruct R4 as [->|(r & d' & I & P' & G)].
      * destruct L as [->|L]; [left; reflexivity|].
        right; exists e, d; split; [left; reflexivity|]; split; assumption.
      * right; exists r, d'; split; [right; exact I|]; split; [exact P'|].
        intros m0 E0; specialize (L0 _ E0); specialize (G m1 eq_refl); lia.
Qed.

Lemma records_of_app (a b : table) :
  records_of (a ++ b)%list = (records_of a ++ records_of b)%list.
Proof. unfold records_of; apply flat_map_app. Qed.

Lemma scan_asset_kept (seen : table) (state state' : asset_state)
  (item : string * list DailyRecord) :
  kept strptime today seen state -> scan_item state item = Ok state' ->
  kept strptime today (seen ++ [item])%list state'.
Proof.
  destruct state as [[recent0 largest0] crypto0], item as [c records].
  intros (B & C) E; unfold scan_asset in E; cbn [fst snd] in E.
  apply bind_Ok in E; destruct E as ([[prior latest] recent] & S & E).
  apply scan_entries_spec in S; destruct S as (R1 & R2 & R3 & R4).
  assert (Bound : forall r d, In r (records_of (seen ++ [(c, records)])%list) ->
                    strptime (date r) = Some d ->
                    exists m, recent = Some m /\ (d <= m)%Z).
  { intros r d I P; rewrite records_of_app in I; apply in_app_or in I.
    destruct I as [I|I].
    - destruct (B _ _ I P) as (m0 & E0 & L0); destruct (R2 _ E0) as (m & -> & Lm).
      exists m; split; [reflexivity | lia].
    - cbn [records_of flat_map snd] in I; rewrite app_nil_r in I; exact (R1 _ _ I P). }
  assert (Old : forall crypto, crypto0 = Some crypto ->
                  exists before records' after,
                    (seen ++ [(c, records)])%list
                    = (before ++ (crypto, records') :: after)%list
                    /\ three_day_candidate strptime today (records_of before) records').
  { intros crypto E0; destruct (C _ E0) as (before & records' & after & -> & Q).
    exists before, records', (after ++ [(c, records)])%list.
    rewrite <- app_assoc; auto. }
  assert (New : prior <> None -> latest <> None ->
                exists before records' after,
                  (seen ++ [(c, records)])%list
                  = (before ++ (c, records') :: after)%list
                  /\ three_day_candidate strptime today (records_of before) records').
  { intros Np Nl; exists seen, records, []; split; [reflexivity|]; split.
    - destruct R3 as [->|R3]; [contradiction | exact R3].
    - destruct R4 as [->|(r & d & I & P & G)]; [contradiction|].
      exists r, d; split; [exact I|]; split; [exact P|].
      intros r' d' I' P'; destruct (B _ _ I' P') as (m0 & E0 & L0).
      specialize (G _ E0); lia. }
  destruct prior as [p|]; [destruct latest as [l|]|].
  - apply bind_Ok in E; destruct E as (ratio & _ & E).
    destruct (largest0 <? ratio * 100); injection E as <-; split; try exact Bound.
    + intros crypto E0; injection E0 as <-; apply New; discriminate.
    + exact Old.
  - injection E as <-; split; [exact Bound | exact Old].
  - injection E as <-; split; [exact Bound | exact Old].
Qed.

Lemma scan_assets_kept (rest seen : table) (state state' : asset_state) :
  kept strptime today seen state -> for_each scan_item rest state = Ok state' ->
  kept strptime today (seen ++ rest)%list state'.
Proof.
  revert seen state; induction rest as [|item rest IH]; intros seen state K E;
    cbn [for_each] in E.
  - injection E as <-; rewrite app_nil_r; exact K.
  - apply bind_Ok in E; destruct E as (mid & S & E).
    replace (seen ++ item :: rest)%list with ((seen ++ [item]) ++ rest)%list
      by (rewrite <- app_assoc; reflexivity).
    exact (IH _ _ (scan_asset_kept _ _ _ _ K S) E).
Qed.

Lemma three_day_selection (data : table) (crypto : string) :
  get_crypto_with_largest_percentage_change_from_3_days_prior strptime today data
  = Ok crypto ->
  exists before records after,
    data = (before ++ (crypto, records) :: after)%list
    /\ three_day_candidate strptime today (records_of before) records.
Proof.
  unfold get_crypto_with_largest_percentage_change_from_3_days_prior; intro E.
  apply bind_Ok in E; destruct E as ([[recent largest] [c|]] & S & E); [|discriminate].
  injection E as <-.
  apply (scan_assets_kept data []) in S; [|split; [intros r d [] | discriminate]].
  destruct S as (_ & C); exact (C c eq_refl).
Qed.

(** X15. (The asset [get_crypto_with_largest_percentage_change_from_3_days_prior]
    returns is an asset of the table that has a record dated three days
    before today and a record dated after every record of the assets listed
    before it, the most recent date being shared by the assets.  So, over a
    table in which every asset carries dates that the first asset carries
    too, as when all assets were fetched for the same days, the first asset
    is the only one that can be returned, whatever the prices.) *)
Theorem three_day_selector_returns (data : table) (crypto : string) :
  get_crypto_with_largest_percentage_change_from_3_days_prior strptime today data
  = Ok crypto ->
  (exists before records after,
      data = (before ++ (crypto, records) :: after)%list
      /\ three_day_candidate strptime today (records_of before) records)
  /\ forall first records0 rest,
       data = (first, records0) :: rest ->
       (forall crypto' records' r',
           In (crypto', records') rest -> In r' records' ->
           exists r0, In r0 records0 /\ date r0 = date r') ->
       crypto = first.
Proof.
  intro E; pose proof (three_day_selection data crypto E) as S.
  split; [exact S|].
  intros first records0 rest E0 Same.
  destruct S as (before & records & after & Ed & _ & r & d & I & P & Later).
  rewrite E0 in Ed.
  destruct before as [|item before]; cbn [app] in Ed; [congruence|].
  injection Ed as Ei Er; subst item; exfalso.
  destruct (Same crypto records r) as (r0 & I0 & D0);
    [rewrite Er; apply in_or_app; right; left; reflexivity | exact I|].
  assert (L : (d < d)%Z); [|lia].
  apply (Later r0 d); [|rewrite D0; exact P].
  cbn [records_of flat_map snd]; apply in_or_app; left; exact I0.
Qed.

(** X16. (When no record of the table is dated three days before today,
    [get_crypto_with_largest_percentage_change_from_3_days_prior] raises
    [ValueError], whatever else the table holds.) *)
Theorem three_day_selector_needs_the_day (data : table) :
  (forall r, In r (records_of data) -> strptime (date r) <> Some three) ->
  get_crypto_with_largest_percentage_change_from_3_days_prior strptime today data
  = Raise ValueError.
Proof.
  intro No; unfold get_crypto_with_largest_percentage_change_from_3_days_prior.
  assert (A : forall state,
             snd state = None ->
             for_each scan_item data state = Raise ValueError
             \/ exists state', for_each scan_item data state = Ok state'
                               /\ snd state' = None).
  { induction data as [|[c records] rest IH]; intros state N; cbn [for_each].
    - right; exists state; auto.
    - assert (Nr : forall r, In r records -> strptime (date r) <> Some three).
      { intros r I; apply No; cbn [records_of flat_map snd]; apply in_or_app; auto. }
      assert (Nrest : forall r, In r (records_of rest) -> strptime (date r) <> Some three).
      { intros r I; apply No; cbn [records_of flat_map snd]; apply in_or_app; auto. }
      destruct state as [[recent0 largest0] crypto0]; cbn [snd] in N; subst crypto0.
      unfold scan_asset at 1 3; cbn [fst snd].
      destruct (for_each scan_one records (None, None, recent0))
        as [[[prior latest] recent]|e] eqn:S; cbn [bind].
      + apply scan_entries_spec in S; destruct S as (_ & _ & [->|(r & I & P)] & _);
          [|destruct (Nr r I P)].
        cbn [bind]; exact (IH Nrest (recent, largest0, None) eq_refl).
      + left; apply for_each_Raise_inv in S; destruct S as ([[p l] m] & r & _ & S).
        unfold scan_entry in S; destruct (strptime (date r)) as [d|]; [|congruence].
        destruct m as [m|]; [destruct (m <? d)%Z|]; discriminate S. }
  destruct (A (None, neg_infinity, None) eq_refl) as [->|([[m l] c] & -> & N)];
    [reflexivity|].
  cbn [snd] in N; subst c; reflexivity.
Qed.

End ThreeDayFacts.

Example three_day_selector_on_same_days :
  Recommendation.get_crypto_with_largest_percentage_change_from_3_days_prior
    Calendar.strptime 19726 Samples.same_days = Ok "monero"
  /\ Recommendation.get_crypto_with_largest_percentage_change_from_3_days_prior
       Calendar.strptime 19726 (rev Samples.same_days) = Ok "nano".
Proof. split; vm_compute; reflexivity. Qed.

Lemma three_day_selector_returns_witness :
  exists before records after,
    Samples.same_days = (before ++ ("monero", records) :: after)%list
    /\ three_day_candidate Calendar.strptime 19726 (records_of before) records.
Proof.
  apply (proj1 (three_day_selector_returns Calendar.strptime 19726
                  Samples.same_days "monero" ltac:(vm_compute; reflexivity))).
Defined.

Lemma three_day_selector_needs_the_day_witness :
  Recommendation.get_crypto_with_largest_percentage_change_from_3_days_prior
    Calendar.strptime 19730 Examples.three_assets = Raise ValueError.
Proof.
  apply (three_day_selector_needs_the_day Calendar.strptime 19730 Examples.three_assets).
  intros r I; each_record I; vm_compute; discriminate.
Defined.

(** ** crypto_recommendation.py: further results on the two selectors *)

Section SelectorOrder.
Import CryptoRecommendation.

Variable strptime : string -> option Z.
Variable strftime : Z -> string.

Abbreviation scan_all better s data best :=
  (fold_left (fun running (item : string * list DailyRecord) =>
                scan_entries better s (fst item) (snd item) running)
             data best).

Lemma scan_all_pick (better : float -> float -> bool) (s : string) (data : table)
  (best : float * option string) :
  scan_all better s data best
  = (let r := fold_left
                (fun (b c : option string * float) =>
                   if better (snd c) (snd b) then c else b)
                (dated_values s data) (snd best, fst best) in
     (snd r, fst r)).
Proof.
  revert best; induction data as [|[c records] data IH]; intro best;
    cbn [fold_left dated_values flat_map fst snd]; [destruct best; reflexivity|].
  rewrite fold_left_app, IH, scan_entries_find; unfold first_dated.
  destruct (find _ records) as [entry|]; cbn [fold_left fst snd]; [|reflexivity].
  destruct (better (end_of_day_value entry) (fst best)); reflexivity.
Qed.

Lemma dated_values_In (s : string) (data : table) (c : string) (v : float) :
  In (Some c, v) (dated_values s data)
  <-> exists records r, In (c, records) data /\ first_dated s records = Some r
                        /\ end_of_day_value r = v.
Proof.
  unfold dated_values; rewrite in_flat_map; split.
  - intros ([c' records] & I & J); cbn [fst snd] in J.
    destruct (first_dated s records) as [r|] eqn:F; [|destruct J].
    destruct J as [J|[]]; injection J as -> <-; eauto.
  - intros (records & r & I & F & <-); exists (c, records); split; [exact I|].
    cbn [fst snd]; rewrite F; left; reflexivity.
Qed.

Lemma dated_values_split (s : string) (data : table) (vb va : dict (option string) float)
  (c : string) (v : float) :
  dated_values s data = (vb ++ (Some c, v) :: va)%list ->
  exists before records after r,
    data = (before ++ (c, records) :: after)%list
    /\ first_dated s records = Some r
    /\ end_of_day_value r = v
    /\ dated_values s before = vb.
Proof.
  revert vb; induction data as [|[c0 records0] data IH]; intros vb E;
    cbn [dated_values flat_map fst snd] in E.
  - destruct vb; discriminate E.
  - fold (dated_values s data) in E.
    destruct (first_dated s records0) as [r0|] eqn:F; cbn [app] in E.
    + destruct vb as [|x vb]; cbn [app] in E.
      * injection E as -> <- _.
        exists [], records0, data, r0; repeat split; assumption.
      * injection E as <- E; destruct (IH _ E) as (b & rs & a & r & -> & Fr & Ev & Eb).
        exists ((c0, records0) :: b), rs, a, r; repeat split; try assumption.
        cbn [dated_values flat_map fst snd]; rewrite F.
        fold (dated_values s b); rewrite Eb; reflexivity.
    + destruct (IH _ E) as (b & rs & a & r & -> & Fr & Ev & Eb).
      exists ((c0, records0) :: b), rs, a, r; repeat split; try assumption.
      cbn [dated_values flat_map fst snd]; rewrite F.
      fold (dated_values s b); rewrite Eb; reflexivity.
Qed.

Lemma select_Ok_inv (better : float -> float -> bool) (start : float) (data : table)
  (crypto : string) :
  select strptime strftime better start data = Ok crypto ->
  exists latest,
    most_recent strptime data latest
    /\ snd (scan_all better (strftime latest) data (start, None)) = Some crypto.
Proof.
  unfold select; intro E.
  apply bind_Ok in E; destruct E as ([latest|] & L & E); [|discriminate].
  exists latest; split.
  - rewrite latest_asset_flat in L; apply latest_entries_Ok in L.
    destruct L as (_ & _ & T); destruct (T latest eq_refl) as ([S|S] & _ & D);
      [discriminate | split; assumption].
  - destruct (snd (scan_all better (strftime latest) data (start, None)));
      [injection E as <-; reflexivity | discriminate].
Qed.

Lemma scan_first_extreme (replace : float -> float -> bool) (start : float)
  (s : string) (data : table) (crypto : string) :
  (forall x, replace x x = false) ->
  (forall x y z, replace x y = true -> replace y z = true -> replace x z = true) ->
  (forall x y z, is_number x -> is_number y ->
                 replace y x = false -> replace y z = true -> replace x z = true) ->
  is_number start ->
  snd (scan_all (fun value best => replace best value) s data (start, None)) = Some crypto ->
  first_extreme (fun a b => replace b a) s data crypto.
Proof.
  intros Ri Rt Rl Ns E; rewrite scan_all_pick in E; cbv beta zeta in E; cbn [fst snd] in E.
  destruct (pick_spec (option string) replace Ri Rt Rl
              ((None, start) :: dated_values s data) (None, start) (dated_values s data)
              eq_refl) as (vb & va & Ed & M & F).
  destruct (fold_left _ (dated_values s data) (None, start)) as [k v].
  cbn [fst snd] in E, M, F; subst k.
  destruct vb as [|x vb]; [discriminate Ed|]; cbn [app] in Ed.
  injection Ed as <- Ed.
  destruct (dated_values_split s data vb va crypto v Ed)
    as (before & records & after & r & Edata & Fr & Ev & Eb).
  exists before, records, after, r; subst v.
  split; [exact Edata|]; split; [exact Fr|]; split.
  - intros c' records' r' I F'; apply (M (Some c', end_of_day_value r')).
    right; apply dated_values_In; eauto.
  - intros N c' records' r' I F'.
    assert (N' : forall e, In e ((None, start) :: dated_values s data) -> is_number (snd e)).
    { intros e [<-|I']; [exact Ns|].
      destruct e as [[c0|] v0].
      - apply dated_values_In in I'; destruct I' as (records0 & r0 & I0 & F0 & <-).
        exact (N _ _ _ I0 F0).
      - unfold dated_values in I'; apply in_flat_map in I'.
        destruct I' as (item & _ & J); destruct (first_dated s (snd item)); cbn [In] in J;
          [destruct J as [J|[]]; discriminate J | destruct J]. }
    apply (F N' (Some c', end_of_day_value r')).
    right; rewrite <- Eb; apply dated_values_In; eauto.
Qed.

Lemma latest_entries_ValueError (records : list DailyRecord) (latest : option Z) (e : exn) :
  for_each (latest_entry strptime) records latest = Raise e -> e = ValueError.
Proof.
  revert latest; induction records as [|r records IH]; intro latest; [discriminate|].
  cbn [for_each]; unfold latest_entry at 1.
  destruct (strptime (date r)) as [d|]; [|intro E; injection E as <-; reflexivity].
  destruct latest as [l|]; [destruct (l <? d)%Z|]; cbn [bind]; apply IH.
Qed.

Lemma select_ValueError (better : float -> float -> bool) (start : float) (data : table)
  (e : exn) :
  select strptime strftime better start data = Raise e -> e = ValueError.
Proof.
  unfold select; rewrite latest_asset_flat.
  destruct (for_each (latest_entry strptime) (records_of data) None) as [[latest|]|e'] eqn:L;
    cbn [bind].
  - destruct (snd _); [discriminate | intro E; injection E as <-; reflexivity].
  - intro E; injection E as <-; reflexivity.
  - intro E; injection E as <-; exact (latest_entries_ValueError _ _ _ L).
Qed.

Lemma select_unread (better : float -> float -> bool) (start : float) (data : table) :
  (exists r, In r (records_of data) /\ strptime (date r) = None) ->
  select strptime strftime better start data = Raise ValueError.
Proof.
  intros (r & I & N).
  destruct (select strptime strftime better start data) as [crypto|e] eqn:E.
  - exfalso; unfold select in E; rewrite latest_asset_flat in E.
    apply bind_Ok in E; destruct E as (latest & L & _).
    apply latest_entries_Ok in L; destruct L as (P & _); exact (P r I N).
  - rewrite (select_ValueError _ _ _ _ E); reflexivity.
Qed.

Lemma select_start (better : float -> float -> bool) (start : float) (data : table)
  (latest : Z) :
  dates_parse strptime data ->
  most_recent strptime data latest ->
  select strptime strftime better start data = Raise ValueError
  <-> forall crypto records r,
        In (crypto, records) data -> first_dated (strftime latest) records = Some r ->
        better (end_of_day_value r) start = false.
Proof.
  intros DP M; unfold select.
  destruct (latest_date_spec strptime data DP) as (result & L & Rn & Rt); rewrite L.
  cbn [bind]; destruct result as [top|].
  - rewrite (most_recent_unique strptime data _ _ (Rt top eq_refl) M).
    pose proof (scan_all_None strptime better start (strftime latest) data (start, None)
                  (fun _ => eq_refl)) as S; cbn [fst snd] in S.
    destruct (snd (scan_all better (strftime latest) data (start, None))) as [c|].
    + split; [discriminate|]; intro A.
      pose proof (proj2 S (conj eq_refl A)) as C; discriminate C.
    + split; [intros _; exact (proj2 (proj1 S eq_refl)) | reflexivity].
  - exfalso; destruct M as ((r & I & _) & _).
    rewrite (proj1 Rn eq_refl) in I; exact I.
Qed.

(** X17. (The asset [get_crypto_with_highest_end_of_day_value] returns has
    a record carrying the most recent date of the table; no asset's first
    record of that date has a greater end-of-day value than its own, and,
    when none of those values is NaN, its own is greater than that of every
    asset listed before it: among equal values the first asset listed is
    returned.  The same holds of [get_crypto_with_lowest_end_of_day_value]
    with the least value.) *)
Theorem selected_asset_is_the_first_extreme (data : table) (crypto : string) :
  (get_crypto_with_highest_end_of_day_value strptime strftime data = Ok crypto ->
   exists latest,
     most_recent strptime data latest
     /\ first_extreme (fun a b => b <? a) (strftime latest) data crypto)
  /\ (get_crypto_with_lowest_end_of_day_value strptime strftime data = Ok crypto ->
      exists latest,
        most_recent strptime data latest
        /\ first_extreme (fun a b => a <? b) (strftime latest) data crypto).
Proof.
  unfold get_crypto_with_highest_end_of_day_value, get_crypto_with_lowest_end_of_day_value.
  split; intro E; apply select_Ok_inv in E; destruct E as (latest & M & S);
    exists latest; (split; [exact M|]).
  - apply (scan_first_extreme (fun best cand => best <? cand) neg_infinity);
      [exact ltb_irrefl | exact ltb_trans | exact ltb_le_trans
       | unfold is_number; vm_compute; discriminate | exact S].
  - apply (scan_first_extreme (fun best cand => cand <? best) infinity);
      [exact ltb_irrefl | exact (fun x y z A B => ltb_trans z y x B A)
       | exact (fun x y z Nx Ny A B => ltb_lt_le_trans x y z Nx Ny A B)
       | unfold is_number; vm_compute; discriminate | exact S].
Qed.

(** X18. (The two end-of-day-value selectors raise no other error than
    [ValueError]; they raise it whenever the date of some record of the
    table cannot be read, whatever the other records are.  Over a table
    whose dates can all be read and that has a record, the highest-value
    selector raises exactly when no asset's first record of the most recent
    date has a value above minus infinity, the lowest-value selector exactly
    when none has a value below plus infinity.) *)
Theorem selectors_raise_only_ValueError (data : table) :
  (forall e,
      get_crypto_with_highest_end_of_day_value strptime strftime data = Raise e
      \/ get_crypto_with_lowest_end_of_day_value strptime strftime data = Raise e ->
      e = ValueError)
  /\ ((exists r, In r (records_of data) /\ strptime (date r) = None) ->
      get_crypto_with_highest_end_of_day_value strptime strftime data = Raise ValueError
      /\ get_crypto_with_lowest_end_of_day_value strptime strftime data = Raise ValueError)
  /\ forall latest,
       dates_parse strptime data ->
       most_recent strptime data latest ->
       (get_crypto_with_highest_end_of_day_value strptime strftime data = Raise ValueError
        <-> forall crypto records r,
              In (crypto, records) data ->
              first_dated (strftime latest) records = Some r ->
              (neg_infinity <? end_of_day_value r) = false)
       /\ (get_crypto_with_lowest_end_of_day_value strptime strftime data = Raise ValueError
           <-> forall crypto records r,
                 In (crypto, records) data ->
                 first_dated (strftime latest) records = Some r ->
                 (end_of_day_value r <? infinity) = false).
Proof.
  unfold get_crypto_with_highest_end_of_day_value, get_crypto_with_lowest_end_of_day_value.
  split; [|split].
  - intros e [E|E]; exact (select_ValueError _ _ _ _ E).
  - intro U; split; apply select_unread; exact U.
  - intros latest DP M; split; apply select_start; assumption.
Qed.

End SelectorOrder.

Lemma selected_asset_is_the_first_extreme_witness :
  exists latest,
    most_recent Calendar.strptime Examples.three_assets latest
    /\ first_extreme (fun a b => b <? a) (Calendar.strftime latest)
         Examples.three_assets "monero".
Proof.
  apply (proj1 (selected_asset_is_the_first_extreme
                  Calendar.strptime Calendar.strftime Examples.three_assets "monero")).
  vm_compute; reflexivity.
Defined.

Lemma selectors_raise_only_ValueError_witness :
  CryptoRecommendation.get_crypto_with_highest_end_of_day_value
    Calendar.strptime Calendar.strftime Samples.with_unread_date = Raise ValueError
  /\ CryptoRecommendation.get_crypto_with_lowest_end_of_day_value
       Calendar.strptime Calendar.strftime Samples.with_unread_date = Raise ValueError.
Proof.
  apply (proj1 (proj2 (selectors_raise_only_ValueError
                         Calendar.strptime Calendar.strftime Samples.with_unread_date))).
  exists {| date := "2 January"; change := 0; end_of_day_value := 1 |}.
  split; [|vm_compute; reflexivity].
  cbv [records_of Samples.with_unread_date Examples.three_assets flat_map snd app In]; tauto.
Defined.

(** ** crypto_recommendation.py: the selectors on the table of the fetcher *)

Section FetchThenSelect.
Import CryptoRecommendation.

Variable strptime : string -> option Z.
Variable strftime : Z -> string.
Variable get_prices : string -> Z -> Z -> option (list (Z * float)).

Lemma last_In {A : Type} (l : list A) (d : A) : l <> [] -> In (last l d) l.
Proof.
  induction l as [|a l IH]; [contradiction|]; intros _.
  destruct l as [|b l]; [left; reflexivity|].
  right; apply IH; discriminate.
Qed.

Lemma fetched_record_usable (start_date end_date : Z) (crypto : string) (r : DailyRecord) :
  prices_usable strptime strftime get_prices start_date end_date ->
  fetched_record strftime get_prices start_date end_date crypto r ->
  (exists day, date r = strftime day /\ strptime (date r) = Some day)
  /\ ordinary (end_of_day_value r).
Proof.
  intros U (prices & day & G & _ & D & opening & H & L & _).
  assert (NE : day_samples day prices <> [])
    by (intro N; rewrite N in H; discriminate H).
  split.
  - apply day_samples_nonempty in NE; destruct NE as (sample & I & <-).
    exists (utc_day (fst sample)); split; [exact D|].
    rewrite D; exact (proj1 (U _ _ _ G I)).
  - pose proof (last_In _ opening NE) as I; rewrite L in I.
    unfold day_samples in I; apply in_map_iff in I; destruct I as (sample & <- & I).
    apply filter_In in I; exact (proj2 (U _ _ _ G (proj1 I))).
Qed.

Lemma filter_existsb {A : Type} (f : A -> bool) (l : list A) :
  filter f l = [] <-> existsb f l = false.
Proof.
  induction l as [|a l IH]; cbn [filter existsb]; [tauto|].
  destruct (f a); cbn [orb]; [split; discriminate | exact IH].
Qed.

(** X19. (The fetcher of crypto_recommendation.py followed by the two
    end-of-day-value selectors, as the script runs them, for distinct asset
    ids and an API whose prices are ordinary numbers on days that are read
    back from their formatted dates: when the request of some id brought a
    price, both selectors return, each one of the ids; otherwise the table is
    empty and both raise [ValueError].) *)
Theorem selectors_return_on_the_fetched_table
  (today : Z) (crypto_ids : list string) (fetched : table) :
  NoDup crypto_ids ->
  prices_usable strptime strftime get_prices (Recommendation.start_date today) today ->
  Recommendation.fetch_daily_weekly_percentage_changes_and_end_of_day_values
    strftime get_prices today crypto_ids = Ok fetched ->
  (existsb (has_prices get_prices (Recommendation.start_date today) today) crypto_ids = true ->
   exists highest lowest,
     get_crypto_with_highest_end_of_day_value strptime strftime fetched = Ok highest
     /\ get_crypto_with_lowest_end_of_day_value strptime strftime fetched = Ok lowest
     /\ In highest crypto_ids /\ In lowest crypto_ids)
  /\ (existsb (has_prices get_prices (Recommendation.start_date today) today) crypto_ids = false ->
      fetched = []
      /\ get_crypto_with_highest_end_of_day_value strptime strftime fetched = Raise ValueError
      /\ get_crypto_with_lowest_end_of_day_value strptime strftime fetched = Raise ValueError).
Proof.
  intros N U E; unfold Recommendation.fetch_daily_weekly_percentage_changes_and_end_of_day_values in E.
  pose proof (fetch_records strftime get_prices _ _ _ _ E) as R.
  unfold InvestFetch.fetch_daily_weekly_percentage_changes_and_end_of_day_values in E.
  destruct (fetch_loop_contents strftime get_prices (Recommendation.start_date today) today
              crypto_ids [] fetched N) as
    (new & Ef & Keys & Each); [intros c _ [] | exact E|].
  cbn [app] in Ef; subst new.
  assert (Rec : forall r, In r (records_of fetched) ->
                          (exists day, date r = strftime day /\ strptime (date r) = Some day)
                          /\ ordinary (end_of_day_value r)).
  { intros r I; apply records_of_In in I; destruct I as (crypto & records & I & Ir).
    exact (fetched_record_usable _ _ _ _ U (R _ _ _ I Ir)). }
  split; intro X.
  - assert (DP : dates_parse strptime fetched).
    { intros r I; destruct (Rec r I) as ((day & _ & P) & _); rewrite P; discriminate. }
    assert (V : values_ordinary fetched) by (intros r I; exact (proj2 (Rec r I))).
    destruct (latest_date_spec strptime fetched DP) as (result & _ & Rn & Rt).
    destruct result as [latest|].
    + pose proof (Rt latest eq_refl) as M.
      assert (D : exists r, In r (records_of fetched) /\ date r = strftime latest).
      { destruct M as ((r & I & P) & _); exists r; split; [exact I|].
        destruct (Rec r I) as ((day & Dr & P') & _).
        rewrite P in P'; injection P' as ->; exact Dr. }
      destruct (ordinary_beats_the_start fetched V) as (BH & BL).
      destruct (select_returns strptime strftime
                  (fun value highest_value => highest_value <? value) neg_infinity
                  fetched latest DP BH M D) as (ch & rh & Eh & Ih & _).
      destruct (select_returns strptime strftime
                  (fun value lowest_value => value <? lowest_value) infinity
                  fetched latest DP BL M D) as (cl & rl & El & Il & _).
      exists ch, cl; split; [exact Eh|]; split; [exact El|].
      assert (K : forall c records, In (c, records) fetched -> In c crypto_ids).
      { intros c records I.
        assert (J : In c (map fst fetched)) by (apply in_map_iff; exists (c, records); auto).
        rewrite Keys in J; apply filter_In in J; exact (proj1 J). }
      split; [exact (K _ _ Ih) | exact (K _ _ Il)].
    + exfalso.
      destruct fetched as [|[c records] rest].
      * cbn [map] in Keys; symmetry in Keys; apply filter_existsb in Keys.
        rewrite Keys in X; discriminate X.
      * destruct (Each c records (or_introl eq_refl)) as (NE & _).
        pose proof (proj1 Rn eq_refl) as Z; cbn [records_of flat_map snd] in Z.
        apply app_eq_nil in Z; exact (NE (proj1 Z)).
  - apply filter_existsb in X; rewrite X in Keys.
    destruct fetched; [|discriminate Keys].
    split; [reflexivity|]; split; reflexivity.
Qed.

End FetchThenSelect.

Lemma selectors_return_on_the_fetched_table_witness :
  exists highest lowest,
    CryptoRecommendation.get_crypto_with_highest_end_of_day_value
      Calendar.strptime Calendar.strftime Samples.nano_fetched = Ok highest
    /\ CryptoRecommendation.get_crypto_with_lowest_end_of_day_value
         Calendar.strptime Calendar.strftime Samples.nano_fetched = Ok lowest
    /\ In highest ["monero"; "nano"; "tron"] /\ In lowest ["monero"; "nano"; "tron"].
Proof.
  apply (proj1 (selectors_return_on_the_fetched_table
                  Calendar.strptime Calendar.strftime Samples.nano_only
                  (19724 * 86400 + 43200) ["monero"; "nano"; "tron"] Samples.nano_fetched
                  ltac:(repeat constructor; cbv [In]; intuition discriminate)
                  ltac:(intros crypto prices sample; unfold Samples.nano_only;
                        destruct (crypto =? "nano")%string;
                        [|destruct (crypto =? "tron")%string; [|discriminate]];
                        intro G; injection G as <-; intro I;
                        [|destruct I];
                        repeat (destruct I as [<-|I]; [vm_compute; auto|]); destruct I)
                  ltac:(vm_compute; reflexivity))).
  vm_compute; reflexivity.
Defined.

(** ** convert.py *)

Lemma conversion_fee_constants :
  1 - Convert.TRANSACTION_FEE_PERCENTAGE / 100 = 0.98
  /\ Convert.TRANSACTION_FEE_PERCENTAGE / 100 = 0.02
  /\ Convert.NZD_TO_USD_CONVERSION_RATE = 0.59.
Proof. repeat split; vm_compute; reflexivity. Qed.

(** X20. ([calculate_nzd_needed_for_crypto] never raises, whatever the
    target and the rates are: each of its two divisions by a rate of the API
    is guarded by the test of that rate.  The line of bitcoin, and that of
    monero, is printed exactly when the table has an NZD rate for it other
    than zero, a NaN rate included; the NZD and USD amounts of a line depend
    on the target alone, the rate entering the amount of the currency only.
    [main] raises exactly when the input has ended ([EOFError]) or the text
    entered is not one [float] accepts ([ValueError]); on a text [float]
    accepts it stops with its message on the amount exactly when the target
    is at most zero, so that a NaN target goes on to the request.) *)
Theorem conversion_raises_on_the_input_only (float_of : string -> option float) :
  (forall nzd_target crypto_rates,
      Convert.calculate_nzd_needed_for_crypto nzd_target crypto_rates
      = Ok (match Convert.rate_nzd crypto_rates "bitcoin" with
            | Some rate =>
                if PrimFloat.eqb rate 0 then None
                else Some {| Convert.nzd_needed := nzd_target / 0.98;
                             Convert.usd_needed := nzd_target / 0.98 * 0.59;
                             Convert.amount := nzd_target / rate |}
            | None => None
            end,
            match Convert.rate_nzd crypto_rates "monero" with
            | Some rate =>
                if PrimFloat.eqb rate 0 then None
                else Some {| Convert.nzd_needed :=
                               nzd_target / 0.98 + nzd_target / 0.98 * 0.02;
                             Convert.usd_needed :=
                               (nzd_target / 0.98 + nzd_target / 0.98 * 0.02) * 0.59;
                             Convert.amount := nzd_target / rate |}
            | None => None
            end))
  /\ (forall entered fetched e,
         Convert.main float_of entered fetched = Raise e
         <-> (entered = None /\ e = EOFError)
             \/ (exists text, entered = Some text /\ float_of text = None
                              /\ e = ValueError))
  /\ forall text nzd_target fetched,
       float_of text = Some nzd_target ->
       exists outcome,
         Convert.main float_of (Some text) fetched = Ok outcome
         /\ (outcome = Convert.MustBePositive <-> (nzd_target <=? 0) = true).
Proof.
  destruct conversion_fee_constants as (F1 & F2 & F3).
  assert (C : forall nzd_target crypto_rates,
             Convert.calculate_nzd_needed_for_crypto nzd_target crypto_rates
             = Ok (match Convert.rate_nzd crypto_rates "bitcoin" with
                   | Some rate =>
                       if PrimFloat.eqb rate 0 then None
                       else Some {| Convert.nzd_needed := nzd_target / 0.98;
                                    Convert.usd_needed := nzd_target / 0.98 * 0.59;
                                    Convert.amount := nzd_target / rate |}
                   | None => None
                   end,
                   match Convert.rate_nzd crypto_rates "monero" with
                   | Some rate =>
                       if PrimFloat.eqb rate 0 then None
                       else Some {| Convert.nzd_needed :=
                                      nzd_target / 0.98 + nzd_target / 0.98 * 0.02;
                                    Convert.usd_needed :=
                                      (nzd_target / 0.98 + nzd_target / 0.98 * 0.02) * 0.59;
                                    Convert.amount := nzd_target / rate |}
                   | None => None
                   end)).
  { intros nzd_target crypto_rates; unfold Convert.calculate_nzd_needed_for_crypto.
    cbv zeta; rewrite F1, F2, F3.
    destruct (Convert.rate_nzd crypto_rates "bitcoin") as [btc|];
      destruct (Convert.rate_nzd crypto_rates "monero") as [xmr|];
      unfold Convert.truthy, Py.div;
      repeat match goal with
             | |- context [PrimFloat.eqb 0.98 0] =>
                 replace (PrimFloat.eqb 0.98 0) with false by (vm_compute; reflexivity)
             end;
      try destruct (PrimFloat.eqb btc 0); try destruct (PrimFloat.eqb xmr 0);
      reflexivity. }
  assert (M : forall text nzd_target fetched,
             float_of text = Some nzd_target ->
             exists outcome,
               Convert.main float_of (Some text) fetched = Ok outcome
               /\ (outcome = Convert.MustBePositive <-> (nzd_target <=? 0) = true)).
  { intros text nzd_target fetched P; unfold Convert.main; rewrite P.
    destruct (nzd_target <=? 0).
    - exists Convert.MustBePositive; split; [reflexivity | tauto].
    - destruct fetched as [[|item rates]|].
      + exists Convert.NoRates; split; [reflexivity | split; discriminate].
      + rewrite C; cbn [bind]; eexists; split; [reflexivity | split; discriminate].
      + exists Convert.NoRates; split; [reflexivity | split; discriminate]. }
  split; [exact C|]; split; [|exact M].
  intros entered fetched e; destruct entered as [text|].
  - destruct (float_of text) as [nzd_target|] eqn:P.
    + destruct (M text nzd_target fetched P) as (outcome & -> & _).
      split; [discriminate|].
      intros [(E & _)|(text' & E & N & _)]; [discriminate E|].
      injection E as <-; rewrite P in N; discriminate N.
    + unfold Convert.main; rewrite P; split.
      * intro E; injection E as <-; right; exists text; auto.
      * intros [(E & _)|(_ & _ & _ & ->)]; [discriminate E | reflexivity].
  - cbn [Convert.main]; split.
    + intro E; injection E as <-; left; auto.
    + intros [(_ & ->)|(text & E & _)]; [reflexivity | discriminate E].
Qed.

Example conversion_of_a_hundred :
  Convert.main Samples.float_of_sample (Some "100")
    (Some [ ("bitcoin", [("nzd", 100000)]); ("monero", [("nzd", 0)]) ])
  = Ok (Convert.Lines
          (Some {| Convert.nzd_needed := 102.04081632653062;
                   Convert.usd_needed := 60.204081632653057;
                   Convert.amount := 0.001 |})
          None)
  /\ Convert.main Samples.float_of_sample (Some "nan") None = Ok Convert.NoRates
  /\ Convert.main Samples.float_of_sample (Some "-1") None = Ok Convert.MustBePositive
  /\ Convert.main Samples.float_of_sample (Some "a hundred") None = Raise ValueError
  /\ Convert.main Samples.float_of_sample None None = Raise EOFError.
Proof. repeat split; vm_compute; reflexivity. Qed.
